(** * A shallow embedding of the data-visualization backend

    The development follows the layout of the repository: the document
    store and the exception discipline of the Python code come first, then
    one module per service class ([UserService], [DatasetService],
    [PlotService], [GoogleOAuthService]) and one for the HTTP handlers
    ([Api]).  External collaborators (the password primitive, the tabular
    parser, the charting library, the identity provider) are interfaces:
    type classes whose methods the services call. *)

From Stdlib Require Import ZArith String Ascii List Bool Lia PrimFloat Sorted.
From stdpp Require Import base tactics option list gmap strings pretty.

(** ** Python exceptions and results *)

Module Py.

(** The exception classes the code distinguishes in its [except] clauses.
    [ValueError] also stands for its subclasses (pydantic's validation
    error is one); [Exception] is any other subclass of Python's
    [Exception], with its class name and [str(e)]. *)
Inductive exn :=
| ValueError (msg : string)
| HTTPException (status_code : Z) (detail : string)
| Exception (class_name : string) (msg : string).

(** [str(e)] *)
Definition str (e : exn) : string :=
  match e with
  | ValueError msg => msg
  | HTTPException status_code detail => pretty status_code +:+ ": " +:+ detail
  | Exception _ msg => msg
  end.

Inductive outcome (A : Type) : Type :=
| Return (a : A)
| Raise (e : exn).

Arguments Return {A} a.
Arguments Raise {A} e.

Definition is_Return {A} (r : outcome A) : bool :=
  match r with Return _ => true | Raise _ => false end.

(** [try: body except Exception as e: handler(e)] on a value that is
    already computed. *)
Definition try_except {A} (body : outcome A) (handler : exn → outcome A) : outcome A :=
  match body with
  | Return a => Return a
  | Raise e => handler e
  end.

Definition bind {A B} (m : outcome A) (k : A → outcome B) : outcome B :=
  match m with
  | Return a => k a
  | Raise e => Raise e
  end.

Global Instance outcome_ret : MRet outcome := @Return.

Global Instance outcome_bind : MBind outcome := λ A B k m, bind m k.

(** Slices and string methods used by the handlers. *)
Fixpoint startswith (prefix s : string) : bool :=
  match prefix, s with
  | EmptyString, _ => true
  | String a p, String b t => (Ascii.eqb a b && startswith p t)%bool
  | String _ _, EmptyString => false
  end.

Definition endswith (s suffix : string) : bool :=
  startswith (String.rev suffix) (String.rev s).

(** [s.split(sep)[0]] for a one-character separator: the text before the
    first occurrence of [sep], or all of [s] when there is none. *)
Fixpoint split_head (sep : ascii) (s : string) : string :=
  match s with
  | EmptyString => EmptyString
  | String a t => if Ascii.eqb a sep then EmptyString else String a (split_head sep t)
  end.

Definition lower_ascii (a : ascii) : ascii :=
  let n := nat_of_ascii a in
  if ((65 <=? n)%nat && (n <=? 90)%nat)%bool then ascii_of_nat (n + 32) else a.

(** [s.lower()] on ASCII text. *)
Fixpoint lower (s : string) : string :=
  match s with
  | EmptyString => EmptyString
  | String a t => String (lower_ascii a) (lower t)
  end.

End Py.

Import Py.

(** ** The document store *)

(** Identifiers generated by the store's driver. *)
Definition ObjectId := positive.

Bind Scope positive_scope with ObjectId.

(** Scalars of a schema-less document (used for user documents, whose
    model file is not part of the sources). *)
Inductive Value :=
| VNull
| VBool (b : bool)
| VInt (n : Z)
| VStr (s : string)
| VDatetime (t : Z).

Global Instance Value_eq_dec : EqDecision Value.
Proof. solve_decision. Defined.

(** Cell values as the tabular parser infers them and as they are stored
    in [DataRecord.data]: text, integers, IEEE doubles (a missing cell is
    the double NaN), booleans and null. *)
Inductive cell :=
| CNull
| CBool (b : bool)
| CInt (n : Z)
| CFloat (f : float)
| CStr (s : string).

(** app/models/dataset.py *)
Record DatasetCreate := {
  dc_name : string;
  dc_description : option string }.

Record Dataset := {
  ds_id : option ObjectId;
  ds_name : string;
  ds_description : option string;
  ds_user_id : ObjectId;
  ds_columns : list string;
  ds_row_count : Z;
  ds_file_size : Z;
  ds_file_type : string;
  ds_created_at : Z;
  ds_updated_at : Z }.

Record DataRecord := {
  dr_dataset_id : ObjectId;
  dr_data : gmap string cell;
  dr_row_index : Z;
  dr_created_at : Z }.

(** Summary statistics hold [float(...)] results or the integer literal
    [0] of the fallback branch. *)
Inductive pynum :=
| PyInt (n : Z)
| PyFloat (f : float).

Record Summary := {
  s_mean : pynum;
  s_std : pynum;
  s_min : pynum;
  s_max : pynum;
  s_median : pynum }.

Record DatasetStats := {
  total_rows : Z;
  total_columns : Z;
  column_types : gmap string string;
  missing_values : gmap string Z;
  summary_stats : gmap string Summary }.

(** app/models/plot.py.  A stored plot document may hold null where the
    model requires a value (an update can write it), so the stored fields
    are nullable and [Plot] is the validated view. *)
Record PlotDoc := {
  pd_title : option string;
  pd_plot_type : option string;
  pd_x_axis : option string;
  pd_y_axis : option string;
  pd_config : option (gmap string cell);
  pd_dataset_id : ObjectId;
  pd_user_id : ObjectId;
  pd_created_at : Z;
  pd_updated_at : Z }.

Record PlotCreate := {
  pc_title : string;
  pc_plot_type : string;
  pc_x_axis : string;
  pc_y_axis : option string;
  pc_config : gmap string cell;
  pc_dataset_id : ObjectId }.

Record Plot := {
  p_id : option ObjectId;
  p_title : string;
  p_plot_type : string;
  p_x_axis : string;
  p_y_axis : option string;
  p_config : gmap string cell;
  p_dataset_id : ObjectId;
  p_user_id : ObjectId;
  p_created_at : Z;
  p_updated_at : Z }.

(** A field of a partial update: left unset, or set (possibly to null).
    [model_dump(exclude_unset=True)] keeps exactly the set ones. *)
Inductive field (A : Type) : Type :=
| Unset
| Set_ (v : option A).

Arguments Unset {A}.
Arguments Set_ {A} v.

Record PlotUpdate := {
  pu_title : field string;
  pu_plot_type : field string;
  pu_x_axis : field string;
  pu_y_axis : field string;
  pu_config : field (gmap string cell) }.

(** The four collections.  Documents are keyed by [_id], which the store
    keeps unique; data records are kept in insertion order, their own
    identifiers are never read by the code. *)
Record Database := {
  users : gmap ObjectId (gmap string Value);
  datasets : gmap ObjectId Dataset;
  data_records : list DataRecord;
  plots : gmap ObjectId PlotDoc }.

Definition set_users (f : gmap ObjectId (gmap string Value) → gmap ObjectId (gmap string Value))
    (db : Database) : Database :=
  {| users := f (users db); datasets := datasets db;
     data_records := data_records db; plots := plots db |}.

Definition set_datasets (f : gmap ObjectId Dataset → gmap ObjectId Dataset)
    (db : Database) : Database :=
  {| users := users db; datasets := f (datasets db);
     data_records := data_records db; plots := plots db |}.

Definition set_data_records (f : list DataRecord → list DataRecord)
    (db : Database) : Database :=
  {| users := users db; datasets := datasets db;
     data_records := f (data_records db); plots := plots db |}.

Definition set_plots (f : gmap ObjectId PlotDoc → gmap ObjectId PlotDoc)
    (db : Database) : Database :=
  {| users := users db; datasets := datasets db;
     data_records := data_records db; plots := f (plots db) |}.

(** A service call runs against the store, may change it, and returns or
    raises; what was written before a raise stays written. *)
Definition M (A : Type) : Type := Database → outcome A * Database.

Global Instance M_ret : MRet M := λ A a db, (Return a, db).

Global Instance M_bind : MBind M := λ A B k m db,
  match m db with
  | (Return a, db') => k a db'
  | (Raise e, db') => (Raise e, db')
  end.

Definition raise {A} (e : exn) : M A := λ db, (Raise e, db).

Definition lift {A} (r : outcome A) : M A := λ db, (r, db).

Definition catch {A} (body : M A) (handler : exn → M A) : M A := λ db,
  match body db with
  | (Return a, db') => (Return a, db')
  | (Raise e, db') => handler e db'
  end.

Module Mongo.

(** [collection.find_one(filter)]: some document that matches. *)
Definition find_one {D} (filter : ObjectId → D → bool) (c : gmap ObjectId D)
    : option (ObjectId * D) :=
  List.find (λ kv, filter kv.1 kv.2) (map_to_list c).

(** [collection.insert_one(doc)] with the identifier the driver generated
    for it; the store refuses a second document with the same [_id]. *)
Definition insert_one {D} (oid : ObjectId) (doc : D) (c : gmap ObjectId D)
    : outcome (ObjectId * gmap ObjectId D) :=
  match c !! oid with
  | Some _ => Raise (Exception "DuplicateKeyError" "E11000 duplicate key error")
  | None => Return (oid, <[oid := doc]> c)
  end.

(** [collection.update_one(filter, {"$set": ...})]: the first match, if
    any, is rewritten. *)
Definition update_one {D} (filter : ObjectId → D → bool) (set : D → D)
    (c : gmap ObjectId D) : gmap ObjectId D :=
  match find_one filter c with
  | Some (i, d) => <[i := set d]> c
  | None => c
  end.

(** [collection.delete_one(filter)]: the collection left and
    [deleted_count]. *)
Definition delete_one {D} (filter : ObjectId → D → bool) (c : gmap ObjectId D)
    : gmap ObjectId D * Z :=
  match find_one filter c with
  | Some (i, _) => (delete i c, 1%Z)
  | None => (c, 0%Z)
  end.

(** [collection.delete_many(filter)] on the record list. *)
Definition delete_many {D} (filter : D → bool) (c : list D) : list D :=
  List.filter (λ d, negb (filter d)) c.

End Mongo.

(** Reading and writing the store inside [M]. *)
Definition read {A} (f : Database → A) : M A := λ db, (Return (f db), db).

Definition write (f : Database → Database) : M unit := λ db, (Return tt, f db).

(** ** Configuration and the credential service *)

(** app/core/config.py of the backend is not among the sources; the two
    settings the modelled code reads are parameters. *)
Class Settings := {
  jwt_access_token_expire_minutes : Z;
  google_client_id : string }.

(** Modelled from the spec: app/core/security.py is not among the sources.
    [get_password_hash] is the salted one-way hash (the salt is the
    randomness of the call, made explicit), [verify_password] checks a
    password against a stored hash, [create_access_token] signs a token
    for a subject with a lifetime in minutes. *)
Class Security := {
  get_password_hash : string → string → string;
  verify_password : string → string → bool;
  create_access_token : option Value → Z → outcome string }.

(** ** User directory: app/services/user_service.py *)

(** Modelled from the spec: app/models/user.py is not among the sources.
    A user document holds the email, username, display name, active flag,
    password hash and creation time; [User] is the document read back
    together with its identifier, and a partial update is the mapping
    [model_dump(exclude_unset=True)] produces: the fields that were set. *)
Record UserCreate := {
  uc_email : string;
  uc_username : string;
  uc_full_name : string;
  uc_password : string }.

Record User := {
  user_id : ObjectId;
  user_doc : gmap string Value }.

Definition UserInDB (user_create : UserCreate) (hashed_password : string) (now : Z)
    : gmap string Value :=
  <["email" := VStr (uc_email user_create)]>
  (<["username" := VStr (uc_username user_create)]>
  (<["full_name" := VStr (uc_full_name user_create)]>
  (<["is_active" := VBool true]>
  (<["hashed_password" := VStr hashed_password]>
  (<["created_at" := VDatetime now]> ∅))))).

Module UserService.

Section service.
Context `{Security}.

(** The query [{"email": email}]. *)
Definition by_email (email : string) (_ : ObjectId) (d : gmap string Value) : bool :=
  bool_decide (d !! "email" = Some (VStr email)).

(** The query [{"_id": user_id}]. *)
Definition by_id (user_id : ObjectId) (i : ObjectId) (_ : gmap string Value) : bool :=
  bool_decide (i = user_id).

Definition get_user_by_email (email : string) : M (option User) :=
  user_doc ← read (λ db, Mongo.find_one (by_email email) (users db));
  match user_doc with
  | Some (i, d) => mret (Some {| user_id := i; user_doc := d |})
  | None => mret None
  end.

Definition get_user_by_id (user_id : ObjectId) : M (option User) :=
  user_doc ← read (λ db, Mongo.find_one (by_id user_id) (users db));
  match user_doc with
  | Some (i, d) => mret (Some {| user_id := i; user_doc := d |})
  | None => mret None
  end.

Definition insert_one (oid : ObjectId) (doc : gmap string Value) : M ObjectId := λ db,
  match Mongo.insert_one oid doc (users db) with
  | Return (i, c) => (Return i, set_users (λ _, c) db)
  | Raise e => (Raise e, db)
  end.

(** [salt], [now] and [oid] are what the call draws from its surroundings:
    the hash's salt, the clock, and the identifier the driver generates. *)
Definition create_user (salt : string) (now : Z) (oid : ObjectId)
    (user_create : UserCreate) : M User :=
  existing_user ← get_user_by_email (uc_email user_create);
  match existing_user with
  | Some _ => raise (ValueError "User with this email already exists")
  | None =>
      let hashed_password := get_password_hash salt (uc_password user_create) in
      let user_in_db := UserInDB user_create hashed_password now in
      inserted_id ← insert_one oid user_in_db;
      mret {| user_id := inserted_id; user_doc := user_in_db |}
  end.

Definition authenticate_user (email password : string) : M (option User) :=
  user_doc ← read (λ db, Mongo.find_one (by_email email) (users db));
  match user_doc with
  | None => mret None
  | Some (i, d) =>
      match d !! "hashed_password" with
      | None => raise (Exception "KeyError" "'hashed_password'")
      | Some (VStr hashed_password) =>
          if verify_password password hashed_password
          then mret (Some {| user_id := i; user_doc := d |})
          else mret None
      | Some _ => raise (Exception "TypeError" "hash must be unicode or bytes")
      end
  end.

(** [update_data] is [user_update.model_dump(exclude_unset=True)]; the
    [$set] operator overlays it on the stored document. *)
Definition update_user (user_id : ObjectId) (update_data : gmap string Value)
    : M (option User) :=
  (if bool_decide (update_data = ∅) then mret tt
   else write (set_users (Mongo.update_one (by_id user_id) (λ d, update_data ∪ d))));;
  get_user_by_id user_id.

End service.

End UserService.

(** ** Dataset ingestion: app/services/dataset_service.py *)

(** What [pd.read_csv] returns: the header, the index labels and the rows
    (one cell per column). *)
Record DataFrame := {
  df_columns : list string;
  df_index : list Z;
  df_values : list (list cell) }.

(** The tabular library, as far as its results are not determined by the
    code here: the parser, and the arithmetic of the five statistics on a
    non-empty list of valid (non-missing) numbers. *)
Class Pandas := {
  read_csv : string → outcome DataFrame;
  nanmean : list cell → float;
  nanstd : list cell → float;
  nanmin : list cell → float;
  nanmax : list cell → float;
  nanmedian : list cell → float }.

Inductive dtype := int64 | float64 | bool_ | object.

Definition dtype_str (t : dtype) : string :=
  match t with
  | int64 => "int64"
  | float64 => "float64"
  | bool_ => "bool"
  | object => "object"
  end.

Definition is_number (t : dtype) : bool :=
  match t with int64 | float64 => true | _ => false end.

(** [isnull]: null, or the double NaN. *)
Definition isnull (c : cell) : bool :=
  match c with
  | CNull => true
  | CFloat f => PrimFloat.is_nan f
  | _ => false
  end.

Definition is_str (c : cell) : bool := match c with CStr _ => true | _ => false end.
Definition is_bool (c : cell) : bool := match c with CBool _ => true | _ => false end.
Definition is_int (c : cell) : bool := match c with CInt _ => true | _ => false end.
Definition is_float (c : cell) : bool := match c with CFloat _ => true | _ => false end.

(** The type the library infers for a column built from Python objects:
    text makes it [object]; only booleans, [bool]; only integers, [int64];
    numbers with a float or a missing value among them, [float64] (null
    becomes NaN); only nulls, [object]. *)
Definition infer_dtype (s : list cell) : dtype :=
  if existsb is_str s then object
  else if existsb is_bool s then (if forallb is_bool s then bool_ else object)
  else if forallb is_int s then int64
  else if existsb is_float s || existsb is_int s then float64
  else object.

(** [pd.DataFrame(data)] for a list of row mappings: the column labels,
    and a column's values (a row without the key gives NaN). *)
Definition frame_columns (data : list (gmap string cell)) : list string :=
  elements (⋃ (dom <$> data) : gset string).

Definition column (col : string) (data : list (gmap string cell)) : list cell :=
  (λ row, default (CFloat nan) (row !! col)) <$> data.

Definition dropna (s : list cell) : list cell :=
  List.filter (λ c, negb (isnull c)) s.

(** [Series.empty]: no entries at all. *)
Definition Series_empty (s : list cell) : bool :=
  match s with [] => true | _ => false end.

(** [row.to_dict()]: later labels overwrite earlier equal ones. *)
Definition to_dict (columns : list string) (row : list cell) : gmap string cell :=
  foldl (λ m kv, <[kv.1 := kv.2]> m) ∅ (zip columns row).

(** Stable insertion sort on [row_index], ascending: [.sort("row_index", 1)]. *)
Fixpoint insert_by_row_index (r : DataRecord) (l : list DataRecord) : list DataRecord :=
  match l with
  | [] => [r]
  | x :: l' =>
      if (dr_row_index r <? dr_row_index x)%Z then r :: x :: l'
      else x :: insert_by_row_index r l'
  end.

Definition sort_by_row_index (l : list DataRecord) : list DataRecord :=
  foldr insert_by_row_index [] l.

(** [find(filter).skip(skip).limit(limit).sort("row_index", 1)]: the
    driver sends one query, which the store answers by sorting, then
    skipping, then limiting, whatever the order of the calls; a negative
    [skip] is refused, a [limit] of 0 is no limit and a negative one
    counts as its absolute value. *)
Definition cursor (filter : DataRecord → bool) (skip limit : Z) (c : list DataRecord)
    : outcome (list DataRecord) :=
  if (skip <? 0)%Z then Raise (ValueError "skip must be >= 0")
  else
    let sorted := sort_by_row_index (List.filter filter c) in
    let skipped := drop (Z.to_nat skip) sorted in
    Return (if (limit =? 0)%Z then skipped else take (Z.to_nat (Z.abs limit)) skipped).

(** [df[col].mean()] and its siblings skip missing values and give NaN
    when nothing is left. *)
Definition Series_agg (agg : list cell → float) (s : list cell) : float :=
  match dropna s with
  | [] => nan
  | v :: vs => agg (v :: vs)
  end.

Module DatasetService.

Section service.
Context `{Pandas}.

(** The query [{"_id": dataset_id, "user_id": user_id}]. *)
Definition owned (dataset_id user_id : ObjectId) (i : ObjectId) (d : Dataset) : bool :=
  bool_decide (i = dataset_id) && bool_decide (ds_user_id d = user_id).

Definition with_id (i : ObjectId) (d : Dataset) : Dataset :=
  {| ds_id := Some i; ds_name := ds_name d; ds_description := ds_description d;
     ds_user_id := ds_user_id d; ds_columns := ds_columns d;
     ds_row_count := ds_row_count d; ds_file_size := ds_file_size d;
     ds_file_type := ds_file_type d; ds_created_at := ds_created_at d;
     ds_updated_at := ds_updated_at d |}.

Definition insert_one (oid : ObjectId) (doc : Dataset) : M ObjectId := λ db,
  match Mongo.insert_one oid doc (datasets db) with
  | Return (i, c) => (Return i, set_datasets (λ _, c) db)
  | Raise e => (Raise e, db)
  end.

(** [now] is the clock and [oid] the identifier the driver generates for
    the dataset document; [filename] is not used by the body. *)
Definition create_dataset (now : Z) (oid : ObjectId) (user_id : ObjectId)
    (dataset_create : DatasetCreate) (file_content : string) (filename : string)
    : M Dataset :=
  df ← lift (try_except (read_csv file_content)
               (λ e, Raise (ValueError ("Error parsing CSV file: " +:+ str e))));
  let dataset :=
    {| ds_id := None; ds_name := dc_name dataset_create;
       ds_description := dc_description dataset_create;
       ds_user_id := user_id; ds_columns := df_columns df;
       ds_row_count := Z.of_nat (length (df_values df));
       ds_file_size := Z.of_nat (String.length file_content);
       ds_file_type := "csv"; ds_created_at := now; ds_updated_at := now |} in
  inserted_id ← insert_one oid dataset;
  let data_records :=
    (λ ir, {| dr_dataset_id := inserted_id;
              dr_data := to_dict (df_columns df) ir.2;
              dr_row_index := ir.1;
              dr_created_at := now |}) <$> zip (df_index df) (df_values df) in
  (match data_records with
   | [] => mret tt
   | _ => write (set_data_records (λ c, c ++ data_records))
   end);;
  mret (with_id inserted_id dataset).

Definition get_user_datasets (user_id : ObjectId) : M (list Dataset) :=
  read (λ db, (λ kv, with_id kv.1 kv.2) <$>
              List.filter (λ kv, bool_decide (ds_user_id kv.2 = user_id))
                          (map_to_list (datasets db))).

Definition get_dataset_by_id (dataset_id user_id : ObjectId) : M (option Dataset) :=
  doc ← read (λ db, Mongo.find_one (owned dataset_id user_id) (datasets db));
  match doc with
  | Some (i, d) => mret (Some (with_id i d))
  | None => mret None
  end.

(** The cursor over [{"dataset_id": dataset_id}]. *)
Definition find_records (dataset_id : ObjectId) (skip limit : Z) : M (list DataRecord) :=
  λ db, (cursor (λ r, bool_decide (dr_dataset_id r = dataset_id))
                skip limit (data_records db), db).

Definition delete_one (dataset_id user_id : ObjectId) : M Z := λ db,
  let r := Mongo.delete_one (owned dataset_id user_id) (datasets db) in
  (Return r.2, set_datasets (λ _, r.1) db).

Definition get_dataset_data (dataset_id user_id : ObjectId) (limit skip : Z)
    : M (list (gmap string cell)) :=
  dataset ← get_dataset_by_id dataset_id user_id;
  match dataset with
  | None => mret []
  | Some _ =>
      docs ← find_records dataset_id skip limit;
      mret (dr_data <$> docs)
  end.

Definition summary (s : list cell) : Summary :=
  {| s_mean := if negb (Series_empty s) then PyFloat (Series_agg nanmean s) else PyInt 0;
     s_std := if negb (Series_empty s) then PyFloat (Series_agg nanstd s) else PyInt 0;
     s_min := if negb (Series_empty s) then PyFloat (Series_agg nanmin s) else PyInt 0;
     s_max := if negb (Series_empty s) then PyFloat (Series_agg nanmax s) else PyInt 0;
     s_median := if negb (Series_empty s) then PyFloat (Series_agg nanmedian s) else PyInt 0 |}.

Definition get_dataset_stats (dataset_id user_id : ObjectId) : M (option DatasetStats) :=
  dataset ← get_dataset_by_id dataset_id user_id;
  match dataset with
  | None => mret None
  | Some _ =>
      data ← get_dataset_data dataset_id user_id 10000 0;
      match data with
      | [] => mret None
      | _ =>
          let columns := frame_columns data in
          let numeric_columns :=
            List.filter (λ col, is_number (infer_dtype (column col data))) columns in
          mret (Some
            {| total_rows := Z.of_nat (length data);
               total_columns := Z.of_nat (length columns);
               column_types :=
                 list_to_map ((λ col, (col, dtype_str (infer_dtype (column col data))))
                              <$> columns);
               missing_values :=
                 list_to_map ((λ col, (col, Z.of_nat (length (List.filter isnull (column col data)))))
                              <$> columns);
               summary_stats :=
                 list_to_map ((λ col, (col, summary (column col data)))
                              <$> numeric_columns) |})
      end
  end.

Definition delete_dataset (dataset_id user_id : ObjectId) : M bool :=
  dataset ← get_dataset_by_id dataset_id user_id;
  match dataset with
  | None => mret false
  | Some _ =>
      write (set_data_records
               (Mongo.delete_many (λ r, bool_decide (dr_dataset_id r = dataset_id))));;
      deleted_count ← delete_one dataset_id user_id;
      mret (0 <? deleted_count)%Z
  end.

End service.

End DatasetService.

(** ** Plot renderer: app/services/plot_service.py *)

(** What is put on the other axis: a column, or the row positions
    ([df.index]). *)
Inductive YSource :=
| YColumn (name : string)
| YIndex.

(** The calls into the charting library ([plotly.express]), with the
    frame given as the list of row mappings it was built from.
    [px_bar_counts] is [px.bar(x=value_counts.index, y=value_counts.values)]
    for the value counts of column [x]; [px_box] with no [x] is
    [px.box(df, y=...)]. *)
Inductive PxCall :=
| px_scatter (df : list (gmap string cell)) (x : string) (y : YSource) (title : string)
| px_line (df : list (gmap string cell)) (x : string) (y : YSource) (title : string)
| px_bar (df : list (gmap string cell)) (x : string) (y : string) (title : string)
| px_bar_counts (df : list (gmap string cell)) (x : string) (title : string)
| px_histogram (df : list (gmap string cell)) (x : string) (title : string)
| px_box (df : list (gmap string cell)) (x : option string) (y : string) (title : string).

(** The charting library: building a figure may raise (an unknown column,
    values it cannot plot), and so may restyling and serialising it. *)
Class Plotly := {
  Figure : Type;
  ChartDocument : Type;
  express : PxCall → outcome Figure;
  update_layout : gmap string cell → Figure → outcome Figure;
  update_xaxes : string → Figure → outcome Figure;
  update_yaxes : string → Figure → outcome Figure;
  to_json : Figure → outcome ChartDocument }.

(** The truth value of a dict: false when it is empty. *)
Definition is_empty_dict {A} (m : gmap string A) : bool :=
  match map_to_list m with [] => true | _ => false end.

(** [col in df.columns] *)
Definition in_columns (col : string) (data : list (gmap string cell)) : bool :=
  bool_decide (col ∈ frame_columns data).

(** [df[col].value_counts()] needs the column: a missing one is a
    [KeyError]. *)
Definition value_counts_bar `{Plotly} (data : list (gmap string cell)) (x title : string)
    : outcome Figure :=
  if in_columns x data then express (px_bar_counts data x title)
  else Raise (Exception "KeyError" x).

Module PlotService.

Section service.
Context `{Pandas} `{Plotly}.

(** The query [{"_id": plot_id, "user_id": user_id}]. *)
Definition owned (plot_id user_id : ObjectId) (i : ObjectId) (d : PlotDoc) : bool :=
  bool_decide (i = plot_id) && bool_decide (pd_user_id d = user_id).

(** Building a [Plot] from a stored document: title, type, x axis and
    configuration are required. *)
Definition validate (i : ObjectId) (d : PlotDoc) : outcome Plot :=
  match pd_title d, pd_plot_type d, pd_x_axis d, pd_config d with
  | Some title, Some plot_type, Some x_axis, Some config =>
      Return {| p_id := Some i; p_title := title; p_plot_type := plot_type;
                p_x_axis := x_axis; p_y_axis := pd_y_axis d; p_config := config;
                p_dataset_id := pd_dataset_id d; p_user_id := pd_user_id d;
                p_created_at := pd_created_at d; p_updated_at := pd_updated_at d |}
  | _, _, _, _ => Raise (ValueError "validation error for Plot")
  end.

Definition insert_one (oid : ObjectId) (doc : PlotDoc) : M ObjectId := λ db,
  match Mongo.insert_one oid doc (plots db) with
  | Return (i, c) => (Return i, set_plots (λ _, c) db)
  | Raise e => (Raise e, db)
  end.

Definition delete_one (plot_id user_id : ObjectId) : M Z := λ db,
  let r := Mongo.delete_one (owned plot_id user_id) (plots db) in
  (Return r.2, set_plots (λ _, r.1) db).

Definition create_plot (now : Z) (oid : ObjectId) (user_id : ObjectId)
    (plot_create : PlotCreate) : M Plot :=
  dataset ← DatasetService.get_dataset_by_id (pc_dataset_id plot_create) user_id;
  match dataset with
  | None => raise (ValueError "Dataset not found or access denied")
  | Some _ =>
      let doc :=
        {| pd_title := Some (pc_title plot_create);
           pd_plot_type := Some (pc_plot_type plot_create);
           pd_x_axis := Some (pc_x_axis plot_create);
           pd_y_axis := pc_y_axis plot_create;
           pd_config := Some (pc_config plot_create);
           pd_dataset_id := pc_dataset_id plot_create;
           pd_user_id := user_id; pd_created_at := now; pd_updated_at := now |} in
      inserted_id ← insert_one oid doc;
      mret {| p_id := Some inserted_id; p_title := pc_title plot_create;
              p_plot_type := pc_plot_type plot_create; p_x_axis := pc_x_axis plot_create;
              p_y_axis := pc_y_axis plot_create; p_config := pc_config plot_create;
              p_dataset_id := pc_dataset_id plot_create; p_user_id := user_id;
              p_created_at := now; p_updated_at := now |}
  end.

Definition get_plot_by_id (plot_id user_id : ObjectId) : M (option Plot) :=
  doc ← read (λ db, Mongo.find_one (owned plot_id user_id) (plots db));
  match doc with
  | Some (i, d) => plot ← lift (validate i d); mret (Some plot)
  | None => mret None
  end.

(** [plot_update.model_dump(exclude_unset=True)] is empty when no field
    was set. *)
Definition is_set {A} (f : field A) : bool :=
  match f with Unset => false | Set_ _ => true end.

Definition update_data_nonempty (u : PlotUpdate) : bool :=
  is_set (pu_title u) || is_set (pu_plot_type u) || is_set (pu_x_axis u)
  || is_set (pu_y_axis u) || is_set (pu_config u).

Definition set_field {A} (f : field A) (old : option A) : option A :=
  match f with Unset => old | Set_ v => v end.

(** [{"$set": update_data}] on a stored plot. *)
Definition apply_set (u : PlotUpdate) (d : PlotDoc) : PlotDoc :=
  {| pd_title := set_field (pu_title u) (pd_title d);
     pd_plot_type := set_field (pu_plot_type u) (pd_plot_type d);
     pd_x_axis := set_field (pu_x_axis u) (pd_x_axis d);
     pd_y_axis := set_field (pu_y_axis u) (pd_y_axis d);
     pd_config := set_field (pu_config u) (pd_config d);
     pd_dataset_id := pd_dataset_id d; pd_user_id := pd_user_id d;
     pd_created_at := pd_created_at d; pd_updated_at := pd_updated_at d |}.

Definition update_plot (plot_id user_id : ObjectId) (plot_update : PlotUpdate)
    : M (option Plot) :=
  (if update_data_nonempty plot_update
   then write (set_plots (Mongo.update_one (owned plot_id user_id) (apply_set plot_update)))
   else mret tt);;
  get_plot_by_id plot_id user_id.

Definition delete_plot (plot_id user_id : ObjectId) : M bool :=
  deleted_count ← delete_one plot_id user_id;
  mret (0 <? deleted_count)%Z.

(** [plot.y_axis and plot.y_axis in df.columns] *)
Definition y_valid (y_axis : option string) (data : list (gmap string cell)) : option string :=
  match y_axis with
  | Some y => if negb (String.eqb y "") && in_columns y data then Some y else None
  | None => None
  end.

(** The branch on [plot.plot_type] of [generate_plot_data]. *)
Definition figure_of (plot : Plot) (data : list (gmap string cell)) : outcome Figure :=
  let x := p_x_axis plot in
  let title := p_title plot in
  if String.eqb (p_plot_type plot) "scatter" then
    match y_valid (p_y_axis plot) data with
    | Some y => express (px_scatter data x (YColumn y) title)
    | None => express (px_scatter data x YIndex title)
    end
  else if String.eqb (p_plot_type plot) "line" then
    match y_valid (p_y_axis plot) data with
    | Some y => express (px_line data x (YColumn y) title)
    | None => express (px_line data x YIndex title)
    end
  else if String.eqb (p_plot_type plot) "bar" then
    match y_valid (p_y_axis plot) data with
    | Some y => express (px_bar data x y title)
    | None => value_counts_bar data x title
    end
  else if String.eqb (p_plot_type plot) "histogram" then
    express (px_histogram data x title)
  else if String.eqb (p_plot_type plot) "box" then
    match y_valid (p_y_axis plot) data with
    | Some y => express (px_box data (Some x) y title)
    | None => express (px_box data None x title)
    end
  else Raise (ValueError ("Unsupported plot type: " +:+ p_plot_type plot)).

Definition generate_plot_data (plot_id user_id : ObjectId) : M ChartDocument :=
  plot ← get_plot_by_id plot_id user_id;
  match plot with
  | None => raise (ValueError "Plot not found")
  | Some plot =>
      data ← DatasetService.get_dataset_data (p_dataset_id plot) user_id 10000 0;
      match data with
      | [] => raise (ValueError "No data found for plot")
      | _ =>
          fig ← lift (figure_of plot data);
          fig ← (if is_empty_dict (p_config plot) then mret fig
                 else lift (update_layout (p_config plot) fig));
          lift (to_json fig)
      end
  end.

End service.

End PlotService.

(** ** OAuth bridge: app/services/google_oauth_service.py *)

(** Decoded JSON, as Python values: [JNull] is [None]; an object keeps its
    members in order, a later member overriding an earlier equal key. *)
#[local] Unset Elimination Schemes.

Inductive json :=
| JNull
| JBool (b : bool)
| JInt (n : Z)
| JFloat (f : float)
| JStr (s : string)
| JArr (items : list json)
| JObj (members : list (string * json)).

#[local] Set Elimination Schemes.

Record Response := {
  status_code : Z;
  text : string;
  json_body : outcome json }.

(** The identity provider and the Python built-ins whose results the code
    does not determine: the HTTP round trip (which may time out), the
    provider library's check of a signed identity token against an
    audience, and [int] on text and on floats. *)
Class Google := {
  http_get : string → outcome Response;
  verify_oauth2_token : string → string → outcome json;
  int_of_str : string → outcome Z;
  int_of_float : float → outcome Z }.

Record UserInfo := {
  ui_email : json;
  ui_name : json;
  ui_google_id : json;
  ui_verified : json }.

Module PyDict.

(** The value a key has in the members of an object. *)
Fixpoint lookup (k : string) (members : list (string * json)) : option json :=
  match members with
  | [] => None
  | (k', v) :: rest =>
      match lookup k rest with
      | Some v' => Some v'
      | None => if String.eqb k' k then Some v else None
      end
  end.

(** [d.get(k, default)]; on anything but a dict, an [AttributeError]. *)
Definition get (d : json) (k : string) (default : json) : outcome json :=
  match d with
  | JObj members => Return (match lookup k members with Some v => v | None => default end)
  | _ => Raise (Exception "AttributeError" "object has no attribute 'get'")
  end.

(** [d[k]]: a [KeyError] on a dict without the key, a [TypeError] on what
    cannot be indexed by text. *)
Definition getitem (d : json) (k : string) : outcome json :=
  match d with
  | JObj members =>
      match lookup k members with
      | Some v => Return v
      | None => Raise (Exception "KeyError" k)
      end
  | _ => Raise (Exception "TypeError" "indices must be integers")
  end.

Fixpoint substring (needle s : string) : bool :=
  startswith needle s ||
  match s with
  | EmptyString => false
  | String _ t => substring needle t
  end.

Definition is_str (s : string) (v : json) : bool :=
  match v with JStr s' => String.eqb s' s | _ => false end.

(** [k in d]: a key of a dict, an item of a list, a substring of a text;
    a [TypeError] on the rest. *)
Definition contains (d : json) (k : string) : outcome bool :=
  match d with
  | JObj members => Return (bool_decide (is_Some (lookup k members)))
  | JArr items => Return (existsb (is_str k) items)
  | JStr s => Return (substring k s)
  | _ => Raise (Exception "TypeError" "argument is not iterable")
  end.

End PyDict.

Module GoogleOAuthService.

Section service.
Context `{Settings} `{Google}.

(** [int(x)] *)
Definition int (v : json) : outcome Z :=
  match v with
  | JInt n => Return n
  | JBool b => Return (if b then 1 else 0)%Z
  | JStr s => int_of_str s
  | JFloat f => int_of_float f
  | _ => Raise (Exception "TypeError" "int() argument must be a string or a real number")
  end.

Definition is_access_token (token : string) : bool :=
  startswith "ya29." token || startswith "1//" token.

(** The access-token branch of the [try] block. *)
Definition verify_access_token (token : string) : outcome (option UserInfo) :=
  response ← http_get ("https://www.googleapis.com/oauth2/v1/tokeninfo?access_token=" +:+ token);
  if negb (status_code response =? 200)%Z then Return None else
  token_info ← json_body response;
  has_expiry ← PyDict.contains token_info "expires_in";
  expired ← (if has_expiry : bool
             then v ← PyDict.getitem token_info "expires_in";
                  n ← int v;
                  Return (n <=? 0)%Z
             else Return false);
  if expired : bool then Return None else
  user_response ← http_get ("https://www.googleapis.com/oauth2/v2/userinfo?access_token=" +:+ token);
  if negb (status_code user_response =? 200)%Z then Return None else
  user_info ← json_body user_response;
  email ← PyDict.get user_info "email" JNull;
  name ← PyDict.get user_info "name" JNull;
  google_id ← PyDict.get user_info "id" JNull;
  verified ← PyDict.get user_info "verified_email" (JBool false);
  Return (Some {| ui_email := email; ui_name := name;
                  ui_google_id := google_id; ui_verified := verified |}).

(** The identity-token branch of the [try] block. *)
Definition verify_id_token (token : string) : outcome (option UserInfo) :=
  idinfo ← verify_oauth2_token token google_client_id;
  aud ← PyDict.getitem idinfo "aud";
  if negb (PyDict.is_str google_client_id aud) then Raise (ValueError "Invalid audience") else
  email ← PyDict.get idinfo "email" JNull;
  name ← PyDict.get idinfo "name" JNull;
  google_id ← PyDict.get idinfo "sub" JNull;
  verified ← PyDict.get idinfo "email_verified" (JBool false);
  Return (Some {| ui_email := email; ui_name := name;
                  ui_google_id := google_id; ui_verified := verified |}).

(** The [try] block: the token's shape picks the branch. *)
Definition try_block (token : string) : outcome (option UserInfo) :=
  if is_access_token token then verify_access_token token else verify_id_token token.

(** The whole method: the [try] block, and the two [except] clauses, both
    of which return [None]. *)
Definition verify_google_token (token : string) : outcome (option UserInfo) :=
  try_except (try_block token) (λ e, Return None).

End service.

End GoogleOAuthService.

(** ** HTTP handlers: app/api/auth.py, app/api/data.py, app/api/plots.py *)

(** [ObjectId(text)]: the identifier a text denotes, if it is well formed. *)
Class Bson := {
  ObjectId_of_str : string → option ObjectId }.

Record UploadFile := {
  filename : option string;
  content : string }.

Record LoginRequest := {
  lr_email : string;
  lr_password : string }.

Record GoogleAuthRequest := {
  ga_email : string;
  ga_name : string;
  ga_google_id : string }.

Record LoginResponse := {
  success : bool;
  message : string;
  user : User;
  token : string;
  token_type : string }.

Record PlotGenerateRequest := {
  datasetId : string;
  plotType : string;
  xAxis : string;
  yAxis : option string;
  title : option string }.

Record PlotGenerateResponse `{Plotly} := {
  r_success : bool;
  r_data : ChartDocument;
  r_title : string;
  r_plotType : string;
  r_xAxis : string;
  r_yAxis : option string }.

(** The truth value of an optional text: [None] and the empty text are
    false. *)
Definition truthy (s : option string) : option string :=
  match s with
  | Some v => if String.eqb v "" then None else Some v
  | None => None
  end.

Module Api.

Section handlers.
Context `{Settings} `{Security} `{Pandas} `{Plotly} `{Bson}.

(** [user.email] *)
Definition email_of (u : User) : option Value := user_doc u !! "email".

Definition access_token_for (u : User) : outcome string :=
  create_access_token (email_of u) jwt_access_token_expire_minutes.

(** POST /register *)
Definition register (salt : string) (now : Z) (oid : ObjectId) (user_create : UserCreate)
    : M LoginResponse :=
  catch
    (user ← UserService.create_user salt now oid user_create;
     access_token ← lift (access_token_for user);
     mret {| success := true; message := "User registered successfully";
             user := user; token := access_token; token_type := "bearer" |})
    (λ e, match e with
          | ValueError _ => raise (HTTPException 400 (str e))
          | _ => raise (HTTPException 500 "Internal server error")
          end).

(** POST /login *)
Definition login (login_data : LoginRequest) : M LoginResponse :=
  catch
    (user ← UserService.authenticate_user (lr_email login_data) (lr_password login_data);
     match user with
     | None => raise (HTTPException 401 "Incorrect email or password")
     | Some user =>
         access_token ← lift (access_token_for user);
         mret {| success := true; message := "Login successful";
                 user := user; token := access_token; token_type := "bearer" |}
     end)
    (λ e, match e with
          | HTTPException _ _ => raise e
          | _ => raise (HTTPException 500 "Internal server error")
          end).

(** POST /google *)
Definition google_auth (salt : string) (now : Z) (oid : ObjectId)
    (google_data : GoogleAuthRequest) : M LoginResponse :=
  catch
    (existing_user ← UserService.get_user_by_email (ga_email google_data);
     user ← match existing_user with
            | Some user => mret user
            | None =>
                let user_create :=
                  {| uc_email := ga_email google_data;
                     uc_username := split_head "@" (ga_email google_data);
                     uc_full_name := ga_name google_data;
                     uc_password := "google_oauth_user" |} in
                UserService.create_user salt now oid user_create
            end;
     access_token ← lift (access_token_for user);
     mret {| success := true; message := "Google authentication successful";
             user := user; token := access_token; token_type := "bearer" |})
    (λ e, raise (HTTPException 500 "Google authentication failed")).

(** POST /upload *)
Definition upload_dataset (now : Z) (oid : ObjectId) (name description : string)
    (file : UploadFile) (current_user : User) : M Dataset :=
  match truthy (filename file) with
  | None => raise (HTTPException 400 "No file provided")
  | Some fname =>
      if negb (endswith (lower fname) ".csv")
      then raise (HTTPException 400 "Only CSV files are supported")
      else if (10 * 1024 * 1024 <? Z.of_nat (String.length (content file)))%Z
      then raise (HTTPException 400 "File size too large. Maximum 10MB allowed.")
      else
        catch
          (DatasetService.create_dataset now oid (user_id current_user)
             {| dc_name := name; dc_description := Some description |}
             (content file) fname)
          (λ e, match e with
                | ValueError _ => raise (HTTPException 400 (str e))
                | _ => raise (HTTPException 500 "Failed to process dataset")
                end)
  end.

Definition dataset_not_found (dataset_id : string) : exn :=
  HTTPException 404
    ("Dataset with ID " +:+ dataset_id +:+ " not found or you don't have access to it").

Definition invalid_dataset_id (dataset_id : string) : exn :=
  HTTPException 400 ("Invalid dataset ID format: " +:+ dataset_id).

(** GET /datasets/{dataset_id} *)
Definition get_dataset (dataset_id : string) (limit skip : Z) (current_user : User)
    : M (Dataset * list (gmap string cell)) :=
  match ObjectId_of_str dataset_id with
  | None => raise (invalid_dataset_id dataset_id)
  | Some dataset_obj_id =>
      dataset ← DatasetService.get_dataset_by_id dataset_obj_id (user_id current_user);
      match dataset with
      | None => raise (dataset_not_found dataset_id)
      | Some dataset =>
          sample_data ← DatasetService.get_dataset_data dataset_obj_id
                          (user_id current_user) limit skip;
          mret (dataset, sample_data)
      end
  end.

(** GET /datasets/{dataset_id}/stats *)
Definition get_dataset_stats (dataset_id : string) (current_user : User) : M DatasetStats :=
  match ObjectId_of_str dataset_id with
  | None => raise (invalid_dataset_id dataset_id)
  | Some dataset_obj_id =>
      stats ← DatasetService.get_dataset_stats dataset_obj_id (user_id current_user);
      match stats with
      | None => raise (dataset_not_found dataset_id)
      | Some stats => mret stats
      end
  end.

(** DELETE /datasets/{dataset_id} *)
Definition delete_dataset (dataset_id : string) (current_user : User) : M string :=
  match ObjectId_of_str dataset_id with
  | None => raise (invalid_dataset_id dataset_id)
  | Some dataset_obj_id =>
      success ← DatasetService.delete_dataset dataset_obj_id (user_id current_user);
      if success : bool then mret "Dataset deleted successfully"
      else raise (dataset_not_found dataset_id)
  end.

(** The branch on [plot_request.plotType] of the ad-hoc handler. *)
Definition adhoc_figure (plot_request : PlotGenerateRequest) (title : string)
    (data : list (gmap string cell)) : outcome Figure :=
  let x := xAxis plot_request in
  if String.eqb (plotType plot_request) "scatter" then
    match truthy (yAxis plot_request) with
    | Some y => express (px_scatter data x (YColumn y) title)
    | None => express (px_scatter data x YIndex title)
    end
  else if String.eqb (plotType plot_request) "line" then
    match truthy (yAxis plot_request) with
    | Some y => express (px_line data x (YColumn y) title)
    | None => express (px_line data x YIndex title)
    end
  else if String.eqb (plotType plot_request) "bar" then
    match truthy (yAxis plot_request) with
    | Some y => express (px_bar data x y title)
    | None =>
        fig ← value_counts_bar data x title;
        fig ← update_xaxes x fig;
        update_yaxes "Count" fig
    end
  else if String.eqb (plotType plot_request) "histogram" then
    express (px_histogram data x title)
  else Raise (HTTPException 400 ("Unsupported plot type: " +:+ plotType plot_request)).

Definition default_title (plot_request : PlotGenerateRequest) : string :=
  match truthy (title plot_request) with
  | Some t => t
  | None =>
      plotType plot_request +:+ " plot of " +:+ xAxis plot_request +:+
      match truthy (yAxis plot_request) with
      | Some y => " vs " +:+ y
      | None => ""
      end
  end.

Definition column_not_found (col : string) : exn :=
  HTTPException 400 ("Column '" +:+ col +:+ "' not found in dataset").

(** POST /generate: the ad-hoc preview. *)
Definition generate_plot (plot_request : PlotGenerateRequest) (current_user : User)
    : M PlotGenerateResponse :=
  match ObjectId_of_str (datasetId plot_request) with
  | None => raise (HTTPException 400 "Invalid dataset ID")
  | Some dataset_obj_id =>
      catch
        (dataset ← DatasetService.get_dataset_by_id dataset_obj_id (user_id current_user);
         match dataset with
         | None => raise (HTTPException 404 "Dataset not found or access denied")
         | Some _ =>
             data ← DatasetService.get_dataset_data dataset_obj_id
                      (user_id current_user) 10000 0;
             match data with
             | [] => raise (HTTPException 400 "No data found for plot")
             | _ =>
                 if negb (in_columns (xAxis plot_request) data)
                 then raise (column_not_found (xAxis plot_request))
                 else
                   match truthy (yAxis plot_request) with
                   | Some y =>
                       if negb (in_columns y data) then raise (column_not_found y)
                       else mret tt
                   | None => mret tt
                   end;;
                   let title := default_title plot_request in
                   fig ← lift (adhoc_figure plot_request title data);
                   plot_json ← lift (to_json fig);
                   mret {| r_success := true; r_data := plot_json; r_title := title;
                           r_plotType := plotType plot_request;
                           r_xAxis := xAxis plot_request;
                           r_yAxis := yAxis plot_request |}
             end
         end)
        (λ e, match e with
              | HTTPException _ _ => raise e
              | _ => raise (HTTPException 500 ("Failed to generate plot: " +:+ str e))
              end)
  end.

(** GET /{plot_id} *)
Definition get_plot (plot_id : string) (current_user : User) : M Plot :=
  match ObjectId_of_str plot_id with
  | None => raise (HTTPException 400 "Invalid plot ID")
  | Some plot_obj_id =>
      plot ← PlotService.get_plot_by_id plot_obj_id (user_id current_user);
      match plot with
      | None => raise (HTTPException 404 "Plot not found")
      | Some plot => mret plot
      end
  end.

(** PUT /{plot_id} *)
Definition update_plot (plot_id : string) (plot_update : PlotUpdate) (current_user : User)
    : M Plot :=
  match ObjectId_of_str plot_id with
  | None => raise (HTTPException 400 "Invalid plot ID")
  | Some plot_obj_id =>
      plot ← PlotService.update_plot plot_obj_id (user_id current_user) plot_update;
      match plot with
      | None => raise (HTTPException 404 "Plot not found")
      | Some plot => mret plot
      end
  end.

(** DELETE /{plot_id} *)
Definition delete_plot (plot_id : string) (current_user : User) : M string :=
  match ObjectId_of_str plot_id with
  | None => raise (HTTPException 400 "Invalid plot ID")
  | Some plot_obj_id =>
      success ← PlotService.delete_plot plot_obj_id (user_id current_user);
      if success : bool then mret "Plot deleted successfully"
      else raise (HTTPException 404 "Plot not found")
  end.

(** GET /{plot_id}/data: playback of a persisted plot. *)
Definition get_plot_data (plot_id : string) (current_user : User) : M ChartDocument :=
  match ObjectId_of_str plot_id with
  | None => raise (HTTPException 400 "Invalid plot ID")
  | Some plot_obj_id =>
      catch
        (PlotService.generate_plot_data plot_obj_id (user_id current_user))
        (λ e, match e with
              | ValueError _ => raise (HTTPException 400 (str e))
              | _ => raise e
              end)
  end.

End handlers.

End Api.

(** ** Properties stated over the model *)

(** Python's [==] against the integer 0, on a statistic. *)
Definition eq_zero (v : pynum) : bool :=
  match v with
  | PyInt n => (n =? 0)%Z
  | PyFloat f => PrimFloat.eqb f 0
  end.

(** A call for [user_id] leaves every dataset and every plot of another
    owner in place and unchanged. *)
Definition preserves_foreign (user_id : ObjectId) (db db' : Database) : Prop :=
  (∀ i d, datasets db !! i = Some d → ds_user_id d ≠ user_id → datasets db' !! i = Some d) ∧
  (∀ i p, plots db !! i = Some p → pd_user_id p ≠ user_id → plots db' !! i = Some p).

(** The records stored for a dataset, in stored order. *)
Definition records_of (dataset_id : ObjectId) (db : Database) : list DataRecord :=
  List.filter (λ r, bool_decide (dr_dataset_id r = dataset_id)) (data_records db).

(** The identifier names no dataset of [user_id]: none at all, or another
    user's. *)
Definition foreign_dataset (db : Database) (id user_id : ObjectId) : Prop :=
  ∀ d, datasets db !! id = Some d → ds_user_id d ≠ user_id.

Definition foreign_plot (db : Database) (id user_id : ObjectId) : Prop :=
  ∀ p, plots db !! id = Some p → pd_user_id p ≠ user_id.

(** One statistic of one column in the result of [stats], and the
    column's missing-value count. *)
Definition stat_at (proj : Summary → pynum) (col : string)
    (r : outcome (option DatasetStats)) : option pynum :=
  match r with
  | Return (Some stats) => proj <$> summary_stats stats !! col
  | _ => None
  end.

Definition missing_at (col : string) (r : outcome (option DatasetStats)) : option Z :=
  match r with
  | Return (Some stats) => missing_values stats !! col
  | _ => None
  end.

(** ** Fixtures: small instances of the interfaces, and small stores *)

Module Fixtures.

(** A hash that tags the password; it verifies exactly the password it
    was made from. *)
Definition tag_security : Security :=
  {| get_password_hash := λ salt password, "hashed:" +:+ password;
     verify_password := λ password hashed, String.eqb hashed ("hashed:" +:+ password);
     create_access_token := λ sub minutes, Return "token" |}.

Definition settings : Settings :=
  {| jwt_access_token_expire_minutes := 30; google_client_id := "client-1" |}.

Fixpoint split (sep : ascii) (s : string) : list string :=
  match s with
  | EmptyString => [EmptyString]
  | String a t =>
      if Ascii.eqb a sep then EmptyString :: split sep t
      else match split sep t with
           | [] => [String a EmptyString]
           | w :: ws => String a w :: ws
           end
  end.

Definition is_digit (a : ascii) : bool :=
  let n := nat_of_ascii a in ((48 <=? n)%nat && (n <=? 57)%nat)%bool.

Fixpoint all_digits (s : string) : bool :=
  match s with
  | EmptyString => true
  | String a t => is_digit a && all_digits t
  end.

Fixpoint decimal (acc : Z) (s : string) : Z :=
  match s with
  | EmptyString => acc
  | String a t => decimal (10 * acc + Z.of_nat (nat_of_ascii a - 48))%Z t
  end.

Definition parse_cell (s : string) : cell :=
  if String.eqb s "" then CFloat nan
  else if all_digits s then CInt (decimal 0 s)
  else CStr s.

(** A reader for comma-separated text without quoting: the first line is
    the header, blank lines are skipped, the index is 0, 1, 2, ... *)
Definition simple_csv (file_content : string) : outcome DataFrame :=
  match List.filter (λ l, negb (String.eqb l "")) (split "010" file_content) with
  | [] => Raise (Exception "EmptyDataError" "No columns to parse from file")
  | header :: lines =>
      Return {| df_columns := split "," header;
                df_index := Z.of_nat <$> seq 0 (length lines);
                df_values := (λ l, parse_cell <$> split "," l) <$> lines |}
  end.

(** The statistics on valid numbers are not exercised by the examples. *)
Definition pandas : Pandas :=
  {| read_csv := simple_csv;
     nanmean := λ _, 1%float;
     nanstd := λ _, 1%float;
     nanmin := λ _, 1%float;
     nanmax := λ _, 1%float;
     nanmedian := λ _, 1%float |}.

(** A charting library that records the call it was given. *)
Definition recording_plotly : Plotly :=
  {| Figure := PxCall;
     ChartDocument := PxCall;
     express := λ c, Return c;
     update_layout := λ _ fig, Return fig;
     update_xaxes := λ _ fig, Return fig;
     update_yaxes := λ _ fig, Return fig;
     to_json := λ fig, Return fig |}.

(** A charting library that fails inside, with a message of its own. *)
Definition failing_plotly : Plotly :=
  {| Figure := PxCall;
     ChartDocument := PxCall;
     express := λ c, Raise (Exception "RuntimeError" "boom at 0x7f3a: SELECT * FROM data_records");
     update_layout := λ _ fig, Return fig;
     update_xaxes := λ _ fig, Return fig;
     update_yaxes := λ _ fig, Return fig;
     to_json := λ fig, Return fig |}.

(** Identifiers written in decimal. *)
Definition bson : Bson :=
  {| ObjectId_of_str := λ s,
       if all_digits s && negb (String.eqb s "") && (0 <? decimal 0 s)%Z
       then Some (Z.to_pos (decimal 0 s)) else None |}.

(** A provider that accepts the identity token "good", issued for
    "client-1", refuses every other one, and answers no HTTP request. *)
Definition google : Google :=
  {| http_get := λ url, Raise (Exception "TimeoutException" "timed out");
     verify_oauth2_token := λ token audience,
       if String.eqb token "good"
       then Return (JObj [("aud", JStr "client-1"); ("email", JStr "ann@example.org");
                          ("sub", JStr "g-1"); ("exp", JInt 2000000000)])
       else Raise (ValueError "Token expired");
     int_of_str := λ s, if all_digits s then Return (decimal 0 s)
                        else Raise (ValueError "invalid literal for int()");
     int_of_float := λ f, Raise (Exception "OverflowError" "cannot convert float") |}.

Definition ann : UserCreate :=
  {| uc_email := "ann@example.org"; uc_username := "ann";
     uc_full_name := "Ann"; uc_password := "s3cret" |}.

Definition empty_db : Database :=
  {| users := ∅; datasets := ∅; data_records := []; plots := ∅ |}.

(** One registered user, identifier 1. *)
Definition db_ann : Database :=
  {| users := {[ 1%positive := UserInDB ann "hashed:s3cret" 0 ]};
     datasets := ∅; data_records := []; plots := ∅ |}.

Definition dataset_of (owner : ObjectId) (rows : Z) : Dataset :=
  {| ds_id := None; ds_name := "d"; ds_description := None; ds_user_id := owner;
     ds_columns := ["a"]; ds_row_count := rows; ds_file_size := 10;
     ds_file_type := "csv"; ds_created_at := 0; ds_updated_at := 0 |}.

Definition record_of (dataset_id : ObjectId) (c : cell) (i : nat) : DataRecord :=
  {| dr_dataset_id := dataset_id; dr_data := {[ "a" := c ]};
     dr_row_index := Z.of_nat i; dr_created_at := 0 |}.

Definition plot_of (owner dataset_id : ObjectId) (plot_type : string) : PlotDoc :=
  {| pd_title := Some "t"; pd_plot_type := Some plot_type; pd_x_axis := Some "a";
     pd_y_axis := None; pd_config := Some ∅; pd_dataset_id := dataset_id;
     pd_user_id := owner; pd_created_at := 0; pd_updated_at := 0 |}.

(** User 1 owns dataset 10, whose [n] rows have a missing value in the
    only column, and the box plot 20 over it. *)
Definition db_missing (n : nat) : Database :=
  {| users := ∅;
     datasets := {[ 10%positive := dataset_of 1%positive (Z.of_nat n) ]};
     data_records := record_of 10%positive (CFloat nan) <$> seq 0 n;
     plots := {[ 20%positive := plot_of 1%positive 10%positive "box" ]} |}.

(** User 1 owns dataset 10 (one row) and plot 20. *)
Definition db_one : Database :=
  {| users := ∅;
     datasets := {[ 10%positive := dataset_of 1%positive 1 ]};
     data_records := [record_of 10%positive (CInt 7) 0];
     plots := {[ 20%positive := plot_of 1%positive 10%positive "box" ]} |}.

Definition user_of (i : ObjectId) : User := {| user_id := i; user_doc := ∅ |}.

(** Ann as [create_user] returns her. *)
Definition ann_user : User :=
  {| user_id := 1; user_doc := UserInDB ann "hashed:s3cret" 0 |}.

(** A second registration under Ann's email, all other fields different. *)
Definition impostor : UserCreate :=
  {| uc_email := "ann@example.org"; uc_username := "other";
     uc_full_name := "Someone Else"; uc_password := "different" |}.

Definition ann_google : GoogleAuthRequest :=
  {| ga_email := "ann@example.org"; ga_name := "Ann"; ga_google_id := "g-1" |}.

Definition rename : gmap string Value := {[ "full_name" := VStr "Ann B." ]}.

Definition retitle : PlotUpdate :=
  {| pu_title := Set_ (Some "mine"); pu_plot_type := Unset; pu_x_axis := Unset;
     pu_y_axis := Unset; pu_config := Unset |}.

(** A file with the header a,b,c and two data rows. *)
Definition csv_text : string := "a,b,c
1,2,3
4,5,6
".

Definition csv_frame : DataFrame :=
  {| df_columns := ["a"; "b"; "c"]; df_index := [0; 1]%Z;
     df_values := [[CInt 1; CInt 2; CInt 3]; [CInt 4; CInt 5; CInt 6]] |}.

Definition csv_file : UploadFile :=
  {| filename := Some "data.csv"; content := csv_text |}.

Definition box_request : PlotGenerateRequest :=
  {| datasetId := "10"; plotType := "box"; xAxis := "a"; yAxis := None; title := None |}.

Definition scatter_request : PlotGenerateRequest :=
  {| datasetId := "10"; plotType := "scatter"; xAxis := "a"; yAxis := None; title := None |}.

(** What [stats] answers user 1 about dataset 10 when all [n] values of
    its column are missing. *)
Definition stats_missing (n : nat) : outcome (option DatasetStats) :=
  (@DatasetService.get_dataset_stats pandas 10 1 (db_missing n)).1.

End Fixtures.

(** ** Further notions for the properties below *)

(** No two stored users hold the same email. *)
Definition unique_emails (db : Database) : Prop :=
  ∀ i j d d' e, users db !! i = Some d → users db !! j = Some d' →
                d !! "email" = Some e → d' !! "email" = Some e → i = j.

(** The page a cursor hands out of a list already in order. *)
Definition page {A} (limit skip : Z) (rows : list A) : list A :=
  let skipped := drop (Z.to_nat skip) rows in
  if (limit =? 0)%Z then skipped else take (Z.to_nat (Z.abs limit)) skipped.

(** The document [create_plot] stores. *)
Definition PlotDoc_of (now : Z) (user_id : ObjectId) (plot_create : PlotCreate) : PlotDoc :=
  {| pd_title := Some (pc_title plot_create);
     pd_plot_type := Some (pc_plot_type plot_create);
     pd_x_axis := Some (pc_x_axis plot_create);
     pd_y_axis := pc_y_axis plot_create;
     pd_config := Some (pc_config plot_create);
     pd_dataset_id := pc_dataset_id plot_create;
     pd_user_id := user_id; pd_created_at := now; pd_updated_at := now |}.

(** A plot with its y axis dropped. *)
Definition without_y (plot : Plot) : Plot :=
  {| p_id := p_id plot; p_title := p_title plot; p_plot_type := p_plot_type plot;
     p_x_axis := p_x_axis plot; p_y_axis := None; p_config := p_config plot;
     p_dataset_id := p_dataset_id plot; p_user_id := p_user_id plot;
     p_created_at := p_created_at plot; p_updated_at := p_updated_at plot |}.

(** Rendering once the plot and its rows are at hand: the figure, the
    configuration overlay, the serialisation. *)
Definition render `{Plotly} (plot : Plot) (data : list (gmap string cell))
    : outcome ChartDocument :=
  fig ← PlotService.figure_of plot data;
  fig ← (if is_empty_dict (p_config plot) then Return fig
         else update_layout (p_config plot) fig);
  to_json fig.

Definition tokeninfo_url (token : string) : string :=
  "https://www.googleapis.com/oauth2/v1/tokeninfo?access_token=" +:+ token.

Definition userinfo_url (token : string) : string :=
  "https://www.googleapis.com/oauth2/v2/userinfo?access_token=" +:+ token.

(** ** Request authenticator: app/api/deps.py *)

(** Modelled from the spec: app/core/security.py is not among the sources.
    [verify_token] checks a locally issued token and returns its claims;
    it raises when the signature is wrong or the token has expired. *)
Class TokenVerifier := {
  verify_token : string → outcome json }.

(** The store's answer to the query [{"email": v}] for a value [v] that is
    not text (a number, a list, an object): the code passes whatever the
    token carried. *)
Class EmailQuery := {
  find_one_email_value : json → gmap ObjectId (gmap string Value)
                         → option (ObjectId * gmap string Value) }.

(** The truth value of a decoded JSON value. *)
Definition truth (v : json) : bool :=
  match v with
  | JNull => false
  | JBool b => b
  | JInt n => negb (n =? 0)%Z
  | JFloat f => negb (PrimFloat.eqb f 0)
  | JStr s => negb (String.eqb s "")
  | JArr items => match items with [] => false | _ => true end
  | JObj members => match members with [] => false | _ => true end
  end.

(** Modelled from the spec: the active flag of a user (app/models/user.py
    is not among the sources); a document without the flag counts as
    active. *)
Definition is_active (u : User) : bool :=
  match user_doc u !! "is_active" with
  | Some (VBool b) => b
  | _ => true
  end.

Module Deps.

Section deps.
Context `{Settings} `{Google} `{TokenVerifier} `{EmailQuery}.

(** [user_service.get_user_by_email(email)] with the value a token
    carried. *)
Definition get_user_by_email (email : json) : M (option User) :=
  match email with
  | JStr s => UserService.get_user_by_email s
  | _ =>
      user_doc ← read (λ db, find_one_email_value email (users db));
      match user_doc with
      | Some (i, d) => mret (Some {| user_id := i; user_doc := d |})
      | None => mret None
      end
  end.

Definition unauthorized (detail : string) : exn := HTTPException 401 detail.

(** The [try] block of [get_current_user]. *)
Definition resolve (token : string) : M User :=
  if GoogleOAuthService.is_access_token token then
    user_info ← lift (GoogleOAuthService.verify_google_token token);
    match user_info with
    | None => raise (unauthorized "Invalid or expired Google token")
    | Some user_info =>
        if negb (truth (ui_email user_info))
        then raise (unauthorized "No email found in Google token")
        else
          user ← get_user_by_email (ui_email user_info);
          match user with
          | None => raise (unauthorized "User not found. Please register first.")
          | Some user => mret user
          end
    end
  else
    payload ← lift (verify_token token);
    email ← lift (PyDict.get payload "sub" JNull);
    match email with
    | JNull => raise (unauthorized "Could not validate credentials")
    | _ =>
        user ← get_user_by_email email;
        match user with
        | None => raise (unauthorized "User not found")
        | Some user => mret user
        end
    end.

Definition get_current_user (token : string) : M User :=
  catch (resolve token)
    (λ e, match e with
          | HTTPException _ _ => raise e
          | _ => raise (unauthorized "Could not validate credentials")
          end).

Definition get_current_active_user (current_user : User) : outcome User :=
  if negb (is_active current_user)
  then Raise (HTTPException 400 "Inactive user")
  else Return current_user.

End deps.

End Deps.

(** ** Listings: [get_user_plots] of app/services/plot_service.py and the
    debug endpoint of app/api/data.py *)

(** [str] of an identifier and of a timestamp. *)
Class Render := {
  str_ObjectId : ObjectId → string;
  str_datetime : Z → string }.

(** One entry of the debug listing. *)
Record DatasetBrief := {
  b_id : string;
  b_user_id : string;
  b_name : string;
  b_created_at : string }.

Record DebugResponse := {
  current_user_id : string;
  current_user_email : option Value;
  all_datasets : list DatasetBrief;
  total_datasets : Z }.

Module Listing.

(** The loop of [get_user_plots]: each document is validated as it comes;
    the first one that fails ends the loop with its error. *)
Fixpoint validate_all (docs : list (ObjectId * PlotDoc)) : outcome (list Plot) :=
  match docs with
  | [] => Return []
  | kv :: rest =>
      plot ← PlotService.validate kv.1 kv.2;
      plots ← validate_all rest;
      Return (plot :: plots)
  end.

Definition get_user_plots (user_id : ObjectId) : M (list Plot) :=
  docs ← read (λ db, List.filter (λ kv, bool_decide (pd_user_id kv.2 = user_id))
                                 (map_to_list (plots db)));
  lift (validate_all docs).

Definition brief `{Render} (i : ObjectId) (d : Dataset) : DatasetBrief :=
  {| b_id := str_ObjectId i; b_user_id := str_ObjectId (ds_user_id d);
     b_name := ds_name d; b_created_at := str_datetime (ds_created_at d) |}.

(** GET /debug/all-datasets: the query is [find({})]. *)
Definition debug_all_datasets `{Render} (current_user : User) : M DebugResponse :=
  docs ← read (λ db, map_to_list (datasets db));
  let all_datasets := (λ kv, brief kv.1 kv.2) <$> docs in
  mret {| current_user_id := str_ObjectId (user_id current_user);
          current_user_email := user_doc current_user !! "email";
          all_datasets := all_datasets;
          total_datasets := Z.of_nat (length all_datasets) |}.

End Listing.

(** ** More fixtures *)

Module Examples.

Definition bob : UserCreate :=
  {| uc_email := "bob@example.org"; uc_username := "bob";
     uc_full_name := "Bob"; uc_password := "hunter2" |}.

(** User 1 owns dataset 10 (one row) and plot 20, stored with the type
    "pie". *)
Definition db_pie : Database :=
  {| users := ∅;
     datasets := {[ 10%positive := Fixtures.dataset_of 1 1 ]};
     data_records := [Fixtures.record_of 10 (CInt 7) 0];
     plots := {[ 20%positive := Fixtures.plot_of 1 10 "pie" ]} |}.

(** A scatter plot of column a against a column that is not there. *)
Definition doc_bad_y : PlotDoc :=
  {| pd_title := Some "t"; pd_plot_type := Some "scatter"; pd_x_axis := Some "a";
     pd_y_axis := Some "zzz"; pd_config := Some ∅; pd_dataset_id := 10;
     pd_user_id := 1; pd_created_at := 0; pd_updated_at := 0 |}.

Definition plot_bad_y : Plot :=
  {| p_id := Some 20%positive; p_title := "t"; p_plot_type := "scatter"; p_x_axis := "a";
     p_y_axis := Some "zzz"; p_config := ∅; p_dataset_id := 10; p_user_id := 1;
     p_created_at := 0; p_updated_at := 0 |}.

(** User 1 owns dataset 10 (one row) and that plot, 20. *)
Definition db_bad_y : Database :=
  {| users := ∅;
     datasets := {[ 10%positive := Fixtures.dataset_of 1 1 ]};
     data_records := [Fixtures.record_of 10 (CInt 7) 0];
     plots := {[ 20%positive := doc_bad_y ]} |}.

Definition pie_plot : Plot :=
  {| p_id := Some 20%positive; p_title := "t"; p_plot_type := "pie"; p_x_axis := "a";
     p_y_axis := None; p_config := ∅; p_dataset_id := 10; p_user_id := 1;
     p_created_at := 0; p_updated_at := 0 |}.

Definition box_plot : Plot :=
  {| p_id := Some 20%positive; p_title := "t"; p_plot_type := "box"; p_x_axis := "a";
     p_y_axis := None; p_config := ∅; p_dataset_id := 10; p_user_id := 1;
     p_created_at := 0; p_updated_at := 0 |}.

(** The only row of dataset 10 in these stores. *)
Definition one_row : list (gmap string cell) := [{[ "a" := CInt 7 ]}].

Definition histogram_of_a : PlotCreate :=
  {| pc_title := "h"; pc_plot_type := "histogram"; pc_x_axis := "a"; pc_y_axis := None;
     pc_config := ∅; pc_dataset_id := 10 |}.

Definition wrong_password : LoginRequest :=
  {| lr_email := "ann@example.org"; lr_password := "guess" |}.

Definition null_title : PlotUpdate :=
  {| pu_title := Set_ None; pu_plot_type := Unset; pu_x_axis := Unset;
     pu_y_axis := Unset; pu_config := Unset |}.

Definition pie_request : PlotGenerateRequest :=
  {| datasetId := "10"; plotType := "pie"; xAxis := "a"; yAxis := None; title := None |}.

Definition bad_x_request : PlotGenerateRequest :=
  {| datasetId := "10"; plotType := "scatter"; xAxis := "zzz"; yAxis := None;
     title := None |}.

Definition no_name_file : UploadFile := {| filename := None; content := "a,b" |}.

Definition text_file : UploadFile := {| filename := Some "notes.txt"; content := "a,b" |}.

Definition blank_file : UploadFile := {| filename := Some "Blank.CSV"; content := "" |}.

(** A provider whose two endpoints answer 200: the token has 3599
    seconds left and belongs to carol@example.org. *)
Definition google_ok : Google :=
  {| http_get := λ url,
       if startswith "https://www.googleapis.com/oauth2/v1/tokeninfo" url
       then Return {| status_code := 200; text := "";
                      json_body := Return (JObj [("expires_in", JInt 3599)]) |}
       else Return {| status_code := 200; text := "";
                      json_body := Return (JObj [("email", JStr "carol@example.org");
                                                 ("id", JStr "g-9");
                                                 ("verified_email", JBool true)]) |};
     verify_oauth2_token := λ token audience, Raise (ValueError "Wrong number of segments");
     int_of_str := λ s, Raise (ValueError "invalid literal for int()");
     int_of_float := λ f, Raise (Exception "OverflowError" "cannot convert float") |}.

Definition carol : UserInfo :=
  {| ui_email := JStr "carol@example.org"; ui_name := JNull;
     ui_google_id := JStr "g-9"; ui_verified := JBool true |}.

(** A verifier that knows one token, issued to Ann. *)
Definition token_verifier : TokenVerifier :=
  {| verify_token := λ token,
       if String.eqb token "jwt-ann" then Return (JObj [("sub", JStr "ann@example.org")])
       else Raise (HTTPException 401 "Could not validate credentials") |}.

Definition ann_claims : json := JObj [("sub", JStr "ann@example.org")].

Definition email_query : EmailQuery :=
  {| find_one_email_value := λ v users, None |}.

Definition ann_login : LoginRequest :=
  {| lr_email := "ann@example.org"; lr_password := "s3cret" |}.

Definition decimal_render : Render :=
  {| str_ObjectId := λ i, pretty (Z.pos i); str_datetime := λ t, pretty t |}.

Definition bob_doc : gmap string Value := UserInDB bob "hashed:hunter2" 0.

(** Two registered users: Ann (1) and Bob (2). *)
Definition db_two : Database :=
  {| users := {[ 1%positive := UserInDB Fixtures.ann "hashed:s3cret" 0;
                 2%positive := bob_doc ]};
     datasets := ∅; data_records := []; plots := ∅ |}.

Definition carol_signup : UserCreate :=
  {| uc_email := "carol@example.org"; uc_username := "carol";
     uc_full_name := "Carol"; uc_password := "pa55" |}.

(** A change of type that leaves the other fields unset. *)
Definition restyle : PlotUpdate :=
  {| pu_title := Unset; pu_plot_type := Set_ (Some "histogram"); pu_x_axis := Unset;
     pu_y_axis := Unset; pu_config := Unset |}.





End Examples.

(** * Theorems *)

Ltac run :=
  unfold mbind, M_bind, mret, M_ret, read, write, raise, lift, catch in *; simpl in *.

(** ** The document store *)

Section mongo_facts.
Context {D : Type}.
Implicit Types (c : gmap ObjectId D) (p : ObjectId → D → bool).

Lemma find_one_Some p c i d :
  Mongo.find_one p c = Some (i, d) → c !! i = Some d ∧ p i d = true.
Proof.
  unfold Mongo.find_one. intros Hf. apply find_some in Hf as [Hin Hp].
  split; [|done]. apply elem_of_map_to_list, list_elem_of_In, Hin.
Qed.

Lemma find_one_None p c i d :
  Mongo.find_one p c = None → c !! i = Some d → p i d = false.
Proof.
  unfold Mongo.find_one. intros Hf Hl.
  apply (find_none _ _ Hf (i, d)), list_elem_of_In, elem_of_map_to_list, Hl.
Qed.

Lemma find_one_keyed p (q : D → bool) k c :
  (∀ i d, p i d = bool_decide (i = k) && q d) →
  Mongo.find_one p c =
    match c !! k with
    | Some d => if q d then Some (k, d) else None
    | None => None
    end.
Proof.
  intros Hp. destruct (Mongo.find_one p c) as [[i d]|] eqn:Hf.
  - apply find_one_Some in Hf as [Hl Hpd]. rewrite Hp in Hpd.
    apply andb_true_iff in Hpd as [Hi Hq]. apply bool_decide_eq_true in Hi. subst i.
    by rewrite Hl, Hq.
  - destruct (c !! k) as [d|] eqn:Hl; [|done].
    pose proof (find_one_None _ _ _ _ Hf Hl) as Hpd. rewrite Hp in Hpd.
    rewrite bool_decide_true in Hpd by done. simpl in Hpd. by rewrite Hpd.
Qed.

End mongo_facts.

Lemma find_one_exists {D} (p : ObjectId → D → bool) (c : gmap ObjectId D) i d :
  c !! i = Some d → p i d = true → ∃ j d', Mongo.find_one p c = Some (j, d').
Proof.
  intros Hl Hp. destruct (Mongo.find_one p c) as [[j d']|] eqn:Hf; [eauto|].
  rewrite (find_one_None _ _ _ _ Hf Hl) in Hp. done.
Qed.

Section user_service.
Context `{Security}.

Lemma by_email_true email i (d : gmap string Value) :
  UserService.by_email email i d = true ↔ d !! "email" = Some (VStr email).
Proof. unfold UserService.by_email. apply bool_decide_eq_true. Qed.

(** C7.  When some stored user document already holds the email,
    [create_user] with that email raises the duplicate-user error whatever
    the other fields are, and the store is left exactly as it was. *)
Theorem create_user_duplicate salt now oid user_create db i d :
  users db !! i = Some d →
  d !! "email" = Some (VStr (uc_email user_create)) →
  UserService.create_user salt now oid user_create db
  = (Raise (ValueError "User with this email already exists"), db).
Proof.
  intros Hl He.
  destruct (find_one_exists (UserService.by_email (uc_email user_create)) _ _ _ Hl)
    as (j & d' & Hf); [by apply by_email_true|].
  unfold UserService.create_user, UserService.get_user_by_email. run.
  by rewrite Hf.
Qed.

(** What a successful [create_user] did. *)
Lemma create_user_Return salt now oid user_create db u db' :
  UserService.create_user salt now oid user_create db = (Return u, db') →
  Mongo.find_one (UserService.by_email (uc_email user_create)) (users db) = None ∧
  users db !! oid = None ∧
  u = {| user_id := oid;
         user_doc := UserInDB user_create
                       (get_password_hash salt (uc_password user_create)) now |} ∧
  db' = set_users (λ _, <[oid := user_doc u]> (users db)) db.
Proof.
  unfold UserService.create_user, UserService.get_user_by_email, UserService.insert_one,
    Mongo.insert_one. run.
  destruct (Mongo.find_one _ (users db)) as [[j d']|] eqn:Hf; [done|]. simpl.
  destruct (users db !! oid) eqn:Ho; simpl; [done|].
  intros [= <- <-]. done.
Qed.

Lemma find_one_fresh_insert (p : ObjectId → gmap string Value → bool) c oid doc :
  Mongo.find_one p c = None → p oid doc = true →
  Mongo.find_one p (<[oid := doc]> c) = Some (oid, doc).
Proof.
  intros Hnone Hp.
  destruct (find_one_exists p (<[oid := doc]> c) oid doc) as (j & d' & Hf);
    [apply lookup_insert_eq | done |].
  rewrite Hf. apply find_one_Some in Hf as [Hl Hpj].
  destruct (decide (j = oid)) as [->|Hne].
  - rewrite lookup_insert_eq in Hl. by injection Hl as <-.
  - rewrite lookup_insert_ne in Hl by done.
    rewrite (find_one_None _ _ _ _ Hnone Hl) in Hpj. done.
Qed.

Lemma UserInDB_email uc h now : UserInDB uc h now !! "email" = Some (VStr (uc_email uc)).
Proof. unfold UserInDB. by simplify_map_eq. Qed.

Lemma UserInDB_hashed uc h now : UserInDB uc h now !! "hashed_password" = Some (VStr h).
Proof. unfold UserInDB. by simplify_map_eq. Qed.

(** C6.  For a hash that verifies exactly the password it was made from:
    after a successful [create_user], [authenticate_user] with the same
    email and password returns the created user; with any other password
    it returns [None], and that result is the same as the one for an email
    no stored user holds (in both cases [None], the store untouched). *)
Theorem authenticate_after_create salt now oid user_create db u db' :
  (∀ s p p', verify_password p' (get_password_hash s p) = true ↔ p' = p) →
  UserService.create_user salt now oid user_create db = (Return u, db') →
  UserService.authenticate_user (uc_email user_create) (uc_password user_create) db'
    = (Return (Some u), db') ∧
  (∀ password, password ≠ uc_password user_create →
     UserService.authenticate_user (uc_email user_create) password db' = (Return None, db')) ∧
  (∀ email password,
     (∀ i d, users db' !! i = Some d → d !! "email" ≠ Some (VStr email)) →
     UserService.authenticate_user email password db' = (Return None, db')).
Proof.
  intros Hhash Hc. apply create_user_Return in Hc as (Hnone & Ho & -> & ->). simpl.
  pose proof (find_one_fresh_insert _ _ oid
    (UserInDB user_create (get_password_hash salt (uc_password user_create)) now) Hnone) as Hf.
  specialize (Hf ltac:(apply by_email_true, UserInDB_email)).
  split; [|split].
  - unfold UserService.authenticate_user. run. rewrite Hf. simpl.
    rewrite UserInDB_hashed.
    rewrite (proj2 (Hhash salt (uc_password user_create) (uc_password user_create)) eq_refl).
    done.
  - intros password Hne. unfold UserService.authenticate_user. run. rewrite Hf. simpl.
    rewrite UserInDB_hashed.
    destruct (verify_password password _) eqn:Hv; [|done].
    apply Hhash in Hv. done.
  - intros email password Hunknown. unfold UserService.authenticate_user. run.
    destruct (Mongo.find_one (UserService.by_email email) _) as [[j d']|] eqn:Hf'; [|done].
    apply find_one_Some in Hf' as [Hl Hp]. apply by_email_true in Hp.
    by destruct (Hunknown _ _ Hl).
Qed.

End user_service.

Lemma find_one_by_id (c : gmap ObjectId (gmap string Value)) user_id :
  Mongo.find_one (UserService.by_id user_id) c = (λ d, (user_id, d)) <$> c !! user_id.
Proof.
  rewrite (find_one_keyed _ (λ _, true) user_id).
  - by destruct (c !! user_id).
  - intros i d. unfold UserService.by_id. by rewrite andb_true_r.
Qed.

Lemma update_one_by_id (c : gmap ObjectId (gmap string Value)) user_id f d :
  c !! user_id = Some d →
  Mongo.update_one (UserService.by_id user_id) f c = <[user_id := f d]> c.
Proof. intros Hl. unfold Mongo.update_one. by rewrite find_one_by_id, Hl. Qed.

Lemma get_user_by_id_lookup user_id db :
  UserService.get_user_by_id user_id db
  = (Return ((λ d, {| user_id := user_id; user_doc := d |}) <$> users db !! user_id), db).
Proof.
  unfold UserService.get_user_by_id. run. rewrite find_one_by_id.
  by destruct (users db !! user_id).
Qed.

(** C9.  For an existing user, [update_user] stores the partial update
    laid over the old document: every key of the update has the update's
    value, every other key keeps its old value, other users and the other
    collections are unchanged, the updated user is returned, and an empty
    update leaves the whole store unchanged. *)
Theorem update_user_frame user_id update_data db d :
  users db !! user_id = Some d →
  ∃ db',
    UserService.update_user user_id update_data db
    = (Return (Some {| user_id := user_id; user_doc := update_data ∪ d |}), db') ∧
    users db' !! user_id = Some (update_data ∪ d) ∧
    (∀ k v, update_data !! k = Some v → (update_data ∪ d) !! k = Some v) ∧
    (∀ k, update_data !! k = None → (update_data ∪ d) !! k = d !! k) ∧
    (∀ j, j ≠ user_id → users db' !! j = users db !! j) ∧
    datasets db' = datasets db ∧ data_records db' = data_records db ∧
    plots db' = plots db ∧
    (update_data = ∅ → db' = db).
Proof.
  intros Hl.
  assert (Hk : ∀ k v, update_data !! k = Some v → (update_data ∪ d) !! k = Some v).
  { intros k v Hu. by apply lookup_union_Some_l. }
  assert (Hn : ∀ k, update_data !! k = None → (update_data ∪ d) !! k = d !! k).
  { intros k Hu. by apply lookup_union_r. }
  unfold UserService.update_user, mbind, M_bind.
  case_bool_decide as He.
  - subst update_data. exists db. unfold mret at 1, M_ret at 1.
    rewrite get_user_by_id_lookup, Hl. simpl.
    rewrite (left_id_L ∅ (∪) d). repeat split; try done.
  - exists (set_users (λ _, <[user_id := update_data ∪ d]> (users db)) db).
    unfold write, set_users at 1. rewrite (update_one_by_id _ _ _ _ Hl).
    rewrite get_user_by_id_lookup. simpl. rewrite lookup_insert_eq. simpl.
    repeat split; try done.
    intros j Hj. by apply lookup_insert_ne.
Qed.

Section google.
Context `{Settings} `{Security}.

(** C10.  When the Google login endpoint succeeds for an email no stored
    user holds, the account it creates stores the hash of the fixed text
    "google_oauth_user", and (for a hash that verifies the password it was
    made from) [authenticate_user] with that email and that text returns
    the account. *)
Theorem google_auth_placeholder_password salt now oid google_data db resp db' :
  (∀ s p, verify_password p (get_password_hash s p) = true) →
  (∀ i d, users db !! i = Some d → d !! "email" ≠ Some (VStr (ga_email google_data))) →
  Api.google_auth salt now oid google_data db = (Return resp, db') →
  users db !! user_id (user resp) = None ∧
  users db' !! user_id (user resp) = Some (user_doc (user resp)) ∧
  user_doc (user resp) !! "hashed_password"
    = Some (VStr (get_password_hash salt "google_oauth_user")) ∧
  UserService.authenticate_user (ga_email google_data) "google_oauth_user" db'
    = (Return (Some (user resp)), db').
Proof.
  intros Hverify Hunseen Hg.
  assert (Hnone : Mongo.find_one (UserService.by_email (ga_email google_data)) (users db) = None).
  { destruct (Mongo.find_one _ _) as [[j d']|] eqn:Hf; [|done].
    apply find_one_Some in Hf as [Hl Hp]. apply by_email_true in Hp.
    by destruct (Hunseen _ _ Hl). }
  unfold Api.google_auth, UserService.get_user_by_email in Hg. run.
  rewrite Hnone in Hg. simpl in Hg.
  set (user_create := {| uc_email := ga_email google_data;
                         uc_username := split_head "@" (ga_email google_data);
                         uc_full_name := ga_name google_data;
                         uc_password := "google_oauth_user" |}) in *.
  destruct (UserService.create_user salt now oid user_create db) as [[u|e] db1] eqn:Hc;
    [|done].
  destruct (Api.access_token_for u) as [tok|e]; simpl in Hg; [|done].
  injection Hg as <- <-. simpl.
  pose proof Hc as (_ & Ho & -> & _)%create_user_Return.
  pose proof Hc as (_ & _ & _ & ->)%create_user_Return. simpl.
  split; [done|]. split; [apply lookup_insert_eq|]. split; [apply UserInDB_hashed|].
  unfold UserService.authenticate_user. run.
  rewrite (find_one_fresh_insert _ _ _ _ Hnone) by apply by_email_true, UserInDB_email.
  simpl. rewrite UserInDB_hashed. by rewrite Hverify.
Qed.

End google.

Section dataset_service.
Context `{Pandas}.

Lemma find_one_owned_dataset (c : gmap ObjectId Dataset) dataset_id user_id :
  Mongo.find_one (DatasetService.owned dataset_id user_id) c =
    match c !! dataset_id with
    | Some d => if bool_decide (ds_user_id d = user_id) then Some (dataset_id, d) else None
    | None => None
    end.
Proof. by apply find_one_keyed. Qed.

Lemma get_dataset_by_id_owned db dataset_id user_id d :
  datasets db !! dataset_id = Some d → ds_user_id d = user_id →
  DatasetService.get_dataset_by_id dataset_id user_id db
  = (Return (Some (DatasetService.with_id dataset_id d)), db).
Proof.
  intros Hl Hu. unfold DatasetService.get_dataset_by_id. run.
  rewrite find_one_owned_dataset, Hl. by rewrite bool_decide_true.
Qed.

Lemma get_dataset_by_id_foreign db dataset_id user_id :
  (∀ d, datasets db !! dataset_id = Some d → ds_user_id d ≠ user_id) →
  DatasetService.get_dataset_by_id dataset_id user_id db = (Return None, db).
Proof.
  intros Hf. unfold DatasetService.get_dataset_by_id. run.
  rewrite find_one_owned_dataset. destruct (datasets db !! dataset_id) as [d|]; [|done].
  rewrite bool_decide_false; [done|]. by apply Hf.
Qed.

Lemma to_dict_abc (a b c : cell) :
  to_dict ["a"; "b"; "c"] [a; b; c] = {[ "a" := a; "b" := b; "c" := c ]}.
Proof.
  unfold to_dict. simpl. apply map_eq. intros k.
  destruct (decide (k = "a")) as [->|Ha]; [by simplify_map_eq|].
  destruct (decide (k = "b")) as [->|Hb]; [by simplify_map_eq|].
  destruct (decide (k = "c")) as [->|Hc]; by simplify_map_eq.
Qed.

(** C3.  When the parser reads the upload as a frame with header a,b,c,
    two rows of three cells and the default index 0,1, and the driver's
    identifier is fresh, [create_dataset] returns a dataset with columns
    [a,b,c] and row count 2, appends exactly two records with row index 0
    and 1, each holding its row's cells under a, b and c, and a following
    [get_dataset_data] (default limit 100, skip 0) returns those two rows,
    the first row of the file first. *)
Theorem upload_two_rows now oid user_id dataset_create file_content filename db frame
    (a0 b0 c0 a1 b1 c1 : cell) :
  read_csv file_content = Return frame →
  df_columns frame = ["a"; "b"; "c"] →
  df_index frame = [0; 1]%Z →
  df_values frame = [[a0; b0; c0]; [a1; b1; c1]] →
  datasets db !! oid = None →
  records_of oid db = [] →
  let row0 : gmap string cell := {[ "a" := a0; "b" := b0; "c" := c0 ]} in
  let row1 : gmap string cell := {[ "a" := a1; "b" := b1; "c" := c1 ]} in
  let rec0 := {| dr_dataset_id := oid; dr_data := row0;
                 dr_row_index := 0; dr_created_at := now |} in
  let rec1 := {| dr_dataset_id := oid; dr_data := row1;
                 dr_row_index := 1; dr_created_at := now |} in
  ∃ dataset db',
    DatasetService.create_dataset now oid user_id dataset_create file_content filename db
      = (Return dataset, db') ∧
    ds_id dataset = Some oid ∧
    ds_columns dataset = ["a"; "b"; "c"] ∧
    ds_row_count dataset = 2%Z ∧
    data_records db' = data_records db ++ [rec0; rec1] ∧
    DatasetService.get_dataset_data oid user_id 100 0 db' = (Return [row0; row1], db').
Proof.
  intros Hcsv Hcols Hidx Hvals Hfresh Hnone row0 row1 rec0 rec1.
  eexists _, (set_data_records (λ c, c ++ [rec0; rec1])
               (set_datasets (λ _, <[oid := _]> (datasets db)) db)).
  split.
  { unfold DatasetService.create_dataset, DatasetService.insert_one, Mongo.insert_one. run.
    rewrite Hcsv. simpl. rewrite Hfresh. simpl. rewrite Hcols, Hidx, Hvals.
    cbn [zip zip_with fmap list_fmap length fst snd]. rewrite !to_dict_abc.
    reflexivity. }
  simpl. repeat split.
  unfold DatasetService.get_dataset_data, mbind, M_bind.
  erewrite get_dataset_by_id_owned; [|apply lookup_insert_eq|reflexivity].
  unfold DatasetService.find_records, cursor. simpl.
  rewrite List.filter_app. fold (records_of oid db). rewrite Hnone. simpl.
  rewrite !bool_decide_true by done. reflexivity.
Qed.

End dataset_service.

Lemma insert_by_row_index_Permutation r l : insert_by_row_index r l ≡ₚ r :: l.
Proof.
  induction l as [|x l IH]; simpl; [done|].
  destruct (dr_row_index r <? dr_row_index x)%Z; [done|].
  rewrite IH. apply Permutation_swap.
Qed.

Lemma sort_by_row_index_Permutation l : sort_by_row_index l ≡ₚ l.
Proof.
  induction l as [|x l IH]; simpl; [done|].
  unfold sort_by_row_index in *. simpl.
  by rewrite insert_by_row_index_Permutation, IH.
Qed.

Lemma lookup_keyed_list_to_map {A} (f : string → A) (cols : list string) col :
  NoDup cols → col ∈ cols →
  (list_to_map ((λ c, (c, f c)) <$> cols) : gmap string A) !! col = Some (f col).
Proof.
  intros Hnd Hin. apply elem_of_list_to_map_1.
  - replace (((λ c, (c, f c)) <$> cols).*1) with cols; [done|].
    clear. induction cols as [|c cols IH]; simpl; [done|]. f_equal. exact IH.
  - apply list_elem_of_fmap. eauto.
Qed.

Lemma in_frame_columns col (data : list (gmap string cell)) row :
  row ∈ data → is_Some (row !! col) → col ∈ frame_columns data.
Proof.
  intros Hrow Hcol. unfold frame_columns. apply elem_of_elements, elem_of_union_list.
  exists (dom row). split; [|by apply elem_of_dom].
  apply list_elem_of_fmap. eauto.
Qed.

Lemma filter_all_length {A} (p : A → bool) (l : list A) :
  Forall (λ x, p x = true) l → length (List.filter p l) = length l.
Proof.
  induction 1 as [|x l Hx _ IH]; simpl; [done|]. rewrite Hx. simpl. by rewrite IH.
Qed.

Section stats.
Context `{Pandas}.

(** The rows [get_dataset_data] hands to an owner. *)
Lemma get_dataset_data_owned db dataset_id user_id d limit skip :
  datasets db !! dataset_id = Some d → ds_user_id d = user_id →
  DatasetService.get_dataset_data dataset_id user_id limit skip db
  = (match cursor (λ r, bool_decide (dr_dataset_id r = dataset_id)) skip limit
             (data_records db) with
     | Return docs => Return (dr_data <$> docs)
     | Raise e => Raise e
     end, db).
Proof.
  intros Hl Hu. unfold DatasetService.get_dataset_data, mbind at 1, M_bind.
  rewrite (get_dataset_by_id_owned _ _ _ _ Hl Hu).
  unfold DatasetService.find_records, mbind, M_bind, outcome_bind, mret, M_ret.
  by destruct (cursor _ _ _ _).
Qed.

(** C1, as amended.  For a dataset owned by the caller that has at least
    one row, as many stored records as its row count, and a column missing
    in every record: [get_dataset_stats] returns statistics whose
    missing-value count for the column is the number of sampled rows, the
    row count capped at 10000. *)
Theorem stats_all_missing_count db dataset_id user_id ds col :
  datasets db !! dataset_id = Some ds →
  ds_user_id ds = user_id →
  ds_row_count ds = Z.of_nat (length (records_of dataset_id db)) →
  (0 < ds_row_count ds)%Z →
  (∀ r, r ∈ records_of dataset_id db → ∃ c, dr_data r !! col = Some c ∧ isnull c = true) →
  ∃ stats,
    DatasetService.get_dataset_stats dataset_id user_id db = (Return (Some stats), db) ∧
    total_rows stats = Z.min (ds_row_count ds) 10000 ∧
    missing_values stats !! col = Some (Z.min (ds_row_count ds) 10000).
Proof.
  intros Hl Hu Hcount Hpos Hmissing.
  set (sample := take (Z.to_nat (Z.abs 10000))
                   (drop (Z.to_nat 0) (sort_by_row_index (records_of dataset_id db)))).
  assert (Hsub : ∀ r, r ∈ sample → r ∈ records_of dataset_id db).
  { intros r Hr. unfold sample in Hr. apply subseteq_take, subseteq_drop in Hr.
    by rewrite sort_by_row_index_Permutation in Hr. }
  assert (Hlen : Z.of_nat (length sample) = Z.min (ds_row_count ds) 10000).
  { unfold sample. rewrite length_take, length_drop, sort_by_row_index_Permutation. lia. }
  unfold DatasetService.get_dataset_stats, mbind at 1, M_bind.
  rewrite (get_dataset_by_id_owned _ _ _ _ Hl Hu).
  unfold mbind at 1, M_bind.
  rewrite (get_dataset_data_owned _ _ _ _ _ _ Hl Hu).
  unfold cursor. change (0 <? 0)%Z with false. change (10000 =? 0)%Z with false.
  cbv iota. fold (records_of dataset_id db). fold sample.
  assert (Hall : Forall (λ c, isnull c = true) (column col (dr_data <$> sample))).
  { unfold column. rewrite <- list_fmap_compose. apply Forall_fmap, Forall_forall.
    intros r Hr. simpl. destruct (Hmissing r (Hsub r Hr)) as (c & -> & Hc). done. }
  assert (Hcol : col ∈ frame_columns (dr_data <$> sample)).
  { destruct sample as [|r0 rest] eqn:Hs; [simpl in Hlen; lia|].
    destruct (Hmissing r0) as (c & Hc & _); [apply Hsub; left|].
    apply (in_frame_columns col _ (dr_data r0)); [left | by rewrite Hc]. }
  assert (Hrows : length (dr_data <$> sample) = length sample) by apply length_fmap.
  destruct (dr_data <$> sample) as [|row rows] eqn:Hdata; [simpl in Hrows; lia|].
  eexists. split; [reflexivity|]. cbn [total_rows missing_values].
  split; [lia|].
  rewrite (lookup_keyed_list_to_map
             (λ c, Z.of_nat (length (List.filter isnull (column c (row :: rows)))))).
  - f_equal. rewrite (filter_all_length _ _ Hall). unfold column. rewrite length_fmap. lia.
  - unfold frame_columns. apply NoDup_elements.
  - done.
Qed.


End stats.

Lemma dropna_all_missing s : Forall (λ c, isnull c = true) s → dropna s = [].
Proof.
  induction 1 as [|c s Hc _ IH]; [done|]. unfold dropna in *. simpl. by rewrite Hc.
Qed.

Lemma summary_all_missing `{Pandas} c s :
  Forall (λ c, isnull c = true) (c :: s) →
  DatasetService.summary (c :: s)
  = {| s_mean := PyFloat nan; s_std := PyFloat nan; s_min := PyFloat nan;
       s_max := PyFloat nan; s_median := PyFloat nan |}.
Proof.
  intros Hall. unfold DatasetService.summary, Series_agg.
  by rewrite (dropna_all_missing _ Hall).
Qed.

(** C1, counterexample.  One row whose only column is missing: the five
    statistics are NaN, which is not equal to 0.  And 10001 such rows: the
    missing-value count is 10000, not the row count 10001. *)
Lemma stats_all_missing_not_zero :
  missing_at "a" (Fixtures.stats_missing 1) = Some 1%Z ∧
  stat_at s_mean "a" (Fixtures.stats_missing 1) = Some (PyFloat nan) ∧
  stat_at s_std "a" (Fixtures.stats_missing 1) = Some (PyFloat nan) ∧
  stat_at s_min "a" (Fixtures.stats_missing 1) = Some (PyFloat nan) ∧
  stat_at s_max "a" (Fixtures.stats_missing 1) = Some (PyFloat nan) ∧
  stat_at s_median "a" (Fixtures.stats_missing 1) = Some (PyFloat nan) ∧
  eq_zero (PyFloat nan) = false ∧
  (ds_row_count <$> datasets (Fixtures.db_missing (Z.to_nat 10001)) !! 10%positive)
    = Some 10001%Z ∧
  missing_at "a" (Fixtures.stats_missing (Z.to_nat 10001)) = Some 10000%Z.
Proof. vm_compute. repeat split. Qed.

Lemma set_datasets_id db : set_datasets (λ _, datasets db) db = db.
Proof. by destruct db. Qed.

Lemma set_plots_id db : set_plots (λ _, plots db) db = db.
Proof. by destruct db. Qed.

Lemma set_plots_same f db : f (plots db) = plots db → set_plots f db = db.
Proof. destruct db. unfold set_plots. simpl. by intros ->. Qed.

Lemma preserves_foreign_refl user_id db : preserves_foreign user_id db db.
Proof. by split. Qed.

Section ownership.
Context `{Pandas} `{Plotly}.

Lemma find_one_owned_plot (c : gmap ObjectId PlotDoc) plot_id user_id :
  Mongo.find_one (PlotService.owned plot_id user_id) c =
    match c !! plot_id with
    | Some d => if bool_decide (pd_user_id d = user_id) then Some (plot_id, d) else None
    | None => None
    end.
Proof. by apply find_one_keyed. Qed.

Lemma find_one_foreign_plot db id user_id :
  foreign_plot db id user_id →
  Mongo.find_one (PlotService.owned id user_id) (plots db) = None.
Proof.
  intros Hf. rewrite find_one_owned_plot. destruct (plots db !! id) as [p|] eqn:Hl; [|done].
  rewrite bool_decide_false; [done|]. by apply Hf.
Qed.

Lemma find_one_foreign_dataset db id user_id :
  foreign_dataset db id user_id →
  Mongo.find_one (DatasetService.owned id user_id) (datasets db) = None.
Proof.
  intros Hf. rewrite find_one_owned_dataset.
  destruct (datasets db !! id) as [d|] eqn:Hl; [|done].
  rewrite bool_decide_false; [done|]. by apply Hf.
Qed.

(** *** Calls on an identifier that is absent or another user's *)

Lemma get_dataset_data_foreign db id user_id limit skip :
  foreign_dataset db id user_id →
  DatasetService.get_dataset_data id user_id limit skip db = (Return [], db).
Proof.
  intros Hf. unfold DatasetService.get_dataset_data, mbind, M_bind.
  by rewrite get_dataset_by_id_foreign.
Qed.

Lemma get_dataset_stats_foreign db id user_id :
  foreign_dataset db id user_id →
  DatasetService.get_dataset_stats id user_id db = (Return None, db).
Proof.
  intros Hf. unfold DatasetService.get_dataset_stats, mbind, M_bind.
  by rewrite get_dataset_by_id_foreign.
Qed.

Lemma delete_dataset_foreign db id user_id :
  foreign_dataset db id user_id →
  DatasetService.delete_dataset id user_id db = (Return false, db).
Proof.
  intros Hf. unfold DatasetService.delete_dataset, mbind, M_bind.
  by rewrite get_dataset_by_id_foreign.
Qed.

Lemma get_plot_by_id_foreign db id user_id :
  foreign_plot db id user_id →
  PlotService.get_plot_by_id id user_id db = (Return None, db).
Proof.
  intros Hf. unfold PlotService.get_plot_by_id. run. by rewrite find_one_foreign_plot.
Qed.

Lemma update_plot_foreign db id user_id plot_update :
  foreign_plot db id user_id →
  PlotService.update_plot id user_id plot_update db = (Return None, db).
Proof.
  intros Hf. unfold PlotService.update_plot, mbind, M_bind.
  destruct (PlotService.update_data_nonempty plot_update).
  - unfold write. rewrite set_plots_same.
    + by rewrite get_plot_by_id_foreign.
    + unfold Mongo.update_one. by rewrite find_one_foreign_plot.
  - unfold mret at 1, M_ret. by rewrite get_plot_by_id_foreign.
Qed.

Lemma delete_plot_foreign db id user_id :
  foreign_plot db id user_id →
  PlotService.delete_plot id user_id db = (Return false, db).
Proof.
  intros Hf. unfold PlotService.delete_plot, PlotService.delete_one, Mongo.delete_one.
  run. rewrite find_one_foreign_plot by done. simpl. by rewrite set_plots_id.
Qed.

Lemma generate_plot_data_foreign db id user_id :
  foreign_plot db id user_id →
  PlotService.generate_plot_data id user_id db = (Raise (ValueError "Plot not found"), db).
Proof.
  intros Hf. unfold PlotService.generate_plot_data, mbind, M_bind.
  by rewrite get_plot_by_id_foreign.
Qed.


(** *** Calls on any store: what they return and what they leave alone *)

Lemma get_dataset_by_id_spec db id user_id :
  ∃ r, DatasetService.get_dataset_by_id id user_id db = (Return r, db) ∧
       ∀ ds, r = Some ds → ds_user_id ds = user_id ∧ ∃ d, datasets db !! id = Some d ∧
                            ds_user_id d = user_id.
Proof.
  unfold DatasetService.get_dataset_by_id. run. rewrite find_one_owned_dataset.
  destruct (datasets db !! id) as [d|] eqn:Hl; [|by eexists; split; [done|]].
  case_bool_decide as Hu; (eexists; split; [done|]); [|done].
  intros ds [= <-]. simpl. eauto.
Qed.

Lemma get_dataset_data_unchanged db id user_id limit skip :
  (DatasetService.get_dataset_data id user_id limit skip db).2 = db.
Proof.
  unfold DatasetService.get_dataset_data, mbind, M_bind.
  destruct (get_dataset_by_id_spec db id user_id) as (r & -> & _).
  destruct r; [|done]. unfold DatasetService.find_records.
  by destruct (cursor _ _ _ _).
Qed.

Lemma get_dataset_stats_unchanged db id user_id :
  (DatasetService.get_dataset_stats id user_id db).2 = db.
Proof.
  unfold DatasetService.get_dataset_stats, mbind, M_bind.
  destruct (get_dataset_by_id_spec db id user_id) as (r & -> & _).
  destruct r; [|done].
  pose proof (get_dataset_data_unchanged db id user_id 10000 0) as Hd.
  destruct (DatasetService.get_dataset_data id user_id 10000 0 db) as [[data|e] db'];
    simpl in Hd; subst db'; [|done].
  by destruct data.
Qed.

Lemma delete_dataset_preserves db id user_id :
  preserves_foreign user_id db (DatasetService.delete_dataset id user_id db).2.
Proof.
  unfold DatasetService.delete_dataset, mbind, M_bind.
  destruct (get_dataset_by_id_spec db id user_id) as (r & -> & Hr).
  destruct r as [ds|]; [|apply preserves_foreign_refl].
  destruct (Hr ds eq_refl) as (_ & d & Hl & Hu).
  unfold write, DatasetService.delete_one, Mongo.delete_one. simpl.
  rewrite find_one_owned_dataset, Hl, bool_decide_true by done. simpl.
  split; simpl; [|done].
  intros i d' Hi Hne. rewrite lookup_delete_ne; [done|]. intros <-. congruence.
Qed.

Lemma get_plot_by_id_spec db id user_id :
  (PlotService.get_plot_by_id id user_id db).2 = db ∧
  ∀ p, (PlotService.get_plot_by_id id user_id db).1 = Return (Some p) → p_user_id p = user_id.
Proof.
  unfold PlotService.get_plot_by_id. run. rewrite find_one_owned_plot.
  destruct (plots db !! id) as [d|] eqn:Hl; [|by split].
  case_bool_decide as Hu; [|by split]. unfold PlotService.validate.
  destruct (pd_title d), (pd_plot_type d), (pd_x_axis d), (pd_config d); simpl;
    (split; [done|]); try done.
  by intros p [= <-].
Qed.

Lemma update_plot_spec db id user_id plot_update :
  preserves_foreign user_id db (PlotService.update_plot id user_id plot_update db).2 ∧
  ∀ p, (PlotService.update_plot id user_id plot_update db).1 = Return (Some p) →
       p_user_id p = user_id.
Proof.
  unfold PlotService.update_plot, mbind, M_bind.
  destruct (PlotService.update_data_nonempty plot_update).
  - unfold write.
    set (db' := set_plots _ db).
    destruct (get_plot_by_id_spec db' id user_id) as [Hdb Hp].
    destruct (PlotService.get_plot_by_id id user_id db') as [r db''] eqn:Hg.
    simpl in *. subst db''. split; [|done].
    unfold db', preserves_foreign, set_plots, Mongo.update_one. simpl.
    rewrite find_one_owned_plot.
    destruct (plots db !! id) as [d|] eqn:Hl; [|done].
    case_bool_decide as Hu; [|done].
    split; [done|].
    intros i p Hi Hne. rewrite lookup_insert_ne; [done|]. intros <-. congruence.
  - unfold mret at 1, M_ret.
    destruct (get_plot_by_id_spec db id user_id) as [Hdb Hp].
    destruct (PlotService.get_plot_by_id id user_id db) as [r db''] eqn:Hg.
    simpl in *. subst db''. split; [apply preserves_foreign_refl|by rewrite Hg].
Qed.

Lemma delete_plot_preserves db id user_id :
  preserves_foreign user_id db (PlotService.delete_plot id user_id db).2.
Proof.
  unfold PlotService.delete_plot, PlotService.delete_one, Mongo.delete_one. run.
  rewrite find_one_owned_plot.
  destruct (plots db !! id) as [d|] eqn:Hl; [|by destruct db].
  case_bool_decide as Hu; [|by destruct db]. simpl.
  split; simpl; [done|].
  intros i p Hi Hne. rewrite lookup_delete_ne; [done|]. intros <-. congruence.
Qed.

Lemma generate_plot_data_unchanged db id user_id :
  (PlotService.generate_plot_data id user_id db).2 = db.
Proof.
  unfold PlotService.generate_plot_data, mbind, M_bind.
  destruct (get_plot_by_id_spec db id user_id) as [Hdb _].
  destruct (PlotService.get_plot_by_id id user_id db) as [[[plot|]|e] db'];
    simpl in Hdb; subst db'; try done.
  pose proof (get_dataset_data_unchanged db (p_dataset_id plot) user_id 10000 0) as Hd.
  destruct (DatasetService.get_dataset_data _ _ _ _ db) as [[data|e] db'];
    simpl in Hd; subst db'; [|done].
  destruct data; [done|]. unfold lift.
  destruct (PlotService.figure_of _ _); [|done].
  destruct (is_empty_dict _); unfold mret, M_ret; [done|].
  by destruct (update_layout _ _).
Qed.

(** The by-identifier operations fail closed.  For a requesting user and
    identifiers that name no record in one store and another user's
    record in a second store, lookup, rows, stats
    and delete of datasets and lookup, update, delete and playback of
    plots give the same absent answer in both stores and write nothing;
    and on any store no such call returns a dataset or plot of another
    owner, nor changes or removes one. *)
Theorem cross_user_access_fails_closed
    (db1 db2 : Database) (user_id dataset_id plot_id : ObjectId) (limit skip : Z)
    (plot_update : PlotUpdate) :
  datasets db1 !! dataset_id = None →
  plots db1 !! plot_id = None →
  (∃ d, datasets db2 !! dataset_id = Some d ∧ ds_user_id d ≠ user_id) →
  (∃ p, plots db2 !! plot_id = Some p ∧ pd_user_id p ≠ user_id) →
  (∀ db, db = db1 ∨ db = db2 →
     DatasetService.get_dataset_by_id dataset_id user_id db = (Return None, db) ∧
     DatasetService.get_dataset_data dataset_id user_id limit skip db = (Return [], db) ∧
     DatasetService.get_dataset_stats dataset_id user_id db = (Return None, db) ∧
     DatasetService.delete_dataset dataset_id user_id db = (Return false, db) ∧
     PlotService.get_plot_by_id plot_id user_id db = (Return None, db) ∧
     PlotService.update_plot plot_id user_id plot_update db = (Return None, db) ∧
     PlotService.delete_plot plot_id user_id db = (Return false, db) ∧
     PlotService.generate_plot_data plot_id user_id db
       = (Raise (ValueError "Plot not found"), db)) ∧
  (∀ db i,
     (∀ ds, (DatasetService.get_dataset_by_id i user_id db).1 = Return (Some ds) →
            ds_user_id ds = user_id) ∧
     (∀ p, (PlotService.get_plot_by_id i user_id db).1 = Return (Some p) →
           p_user_id p = user_id) ∧
     (∀ p, (PlotService.update_plot i user_id plot_update db).1 = Return (Some p) →
           p_user_id p = user_id) ∧
     (DatasetService.get_dataset_by_id i user_id db).2 = db ∧
     (DatasetService.get_dataset_data i user_id limit skip db).2 = db ∧
     (DatasetService.get_dataset_stats i user_id db).2 = db ∧
     (PlotService.get_plot_by_id i user_id db).2 = db ∧
     (PlotService.generate_plot_data i user_id db).2 = db ∧
     preserves_foreign user_id db (DatasetService.delete_dataset i user_id db).2 ∧
     preserves_foreign user_id db (PlotService.update_plot i user_id plot_update db).2 ∧
     preserves_foreign user_id db (PlotService.delete_plot i user_id db).2).
Proof.
  intros Hd1 Hp1 (d & Hd2 & Hdu) (p & Hp2 & Hpu). split.
  - intros db Hdb.
    assert (Hfd : foreign_dataset db dataset_id user_id).
    { intros d' Hl. destruct Hdb as [-> | ->]; congruence. }
    assert (Hfp : foreign_plot db plot_id user_id).
    { intros p' Hl. destruct Hdb as [-> | ->]; congruence. }
    repeat split.
    + by apply get_dataset_by_id_foreign.
    + by apply get_dataset_data_foreign.
    + by apply get_dataset_stats_foreign.
    + by apply delete_dataset_foreign.
    + by apply get_plot_by_id_foreign.
    + by apply update_plot_foreign.
    + by apply delete_plot_foreign.
    + by apply generate_plot_data_foreign.
  - intros db i.
    destruct (get_dataset_by_id_spec db i user_id) as (r & Hr & Hown).
    split; [|split; [|split; [|split; [|split; [|split; [|split; [|split; [|split; [|split]]]]]]]]].
    + intros ds Hds. rewrite Hr in Hds. simpl in Hds. injection Hds as ->.
      by destruct (Hown ds eq_refl).
    + apply get_plot_by_id_spec.
    + apply update_plot_spec.
    + by rewrite Hr.
    + apply get_dataset_data_unchanged.
    + apply get_dataset_stats_unchanged.
    + apply get_plot_by_id_spec.
    + apply generate_plot_data_unchanged.
    + apply delete_dataset_preserves.
    + apply update_plot_spec.
    + apply delete_plot_preserves.
Qed.

End ownership.

(** ** OAuth bridge *)

Section oauth.
Context `{Settings} `{Google}.



(** What stands behind a non-absent answer of the access-token branch. *)
Lemma verify_access_token_Some token info :
  GoogleOAuthService.verify_access_token token = Return (Some info) →
  ∃ response token_info user_response user_info,
    http_get (tokeninfo_url token) = Return response ∧
    status_code response = 200%Z ∧
    json_body response = Return token_info ∧
    (PyDict.contains token_info "expires_in" = Return false ∨
     ∃ v n, PyDict.getitem token_info "expires_in" = Return v ∧
            GoogleOAuthService.int v = Return n ∧ (0 < n)%Z) ∧
    http_get (userinfo_url token) = Return user_response ∧
    status_code user_response = 200%Z ∧
    json_body user_response = Return user_info ∧
    PyDict.get user_info "email" JNull = Return (ui_email info) ∧
    PyDict.get user_info "id" JNull = Return (ui_google_id info).
Proof.
  unfold GoogleOAuthService.verify_access_token, tokeninfo_url, userinfo_url.
  unfold mbind, outcome_bind, Py.bind.
  destruct (http_get _) as [response|e] eqn:Hr1; [|done].
  destruct (status_code response =? 200)%Z eqn:Hs1; cbn [negb]; cbv iota; [|done].
  destruct (json_body response) as [token_info|e] eqn:Hj1; [|done].
  destruct (PyDict.contains token_info "expires_in") as [has|e] eqn:Hc; [|done].
  assert (Hexp : ∀ expired,
    (if has
     then match PyDict.getitem token_info "expires_in" with
          | Return v => match GoogleOAuthService.int v with
                        | Return n => Return (n <=? 0)%Z
                        | Raise e => Raise e
                        end
          | Raise e => Raise e
          end
     else Return false) = Return expired → expired = false →
    PyDict.contains token_info "expires_in" = Return false ∨
     ∃ v n, PyDict.getitem token_info "expires_in" = Return v ∧
            GoogleOAuthService.int v = Return n ∧ (0 < n)%Z).
  { intros expired Hx ->. destruct has; [|by left]. right.
    destruct (PyDict.getitem token_info "expires_in") as [v|]; [|done].
    destruct (GoogleOAuthService.int v) as [n|] eqn:Hn; [|done].
    injection Hx as Hx. apply Z.leb_gt in Hx. exists v, n. by rewrite Hn. }
  destruct (if has then _ else _) as [expired|e] eqn:Hx; [|done].
  destruct expired eqn:He; [done|]. specialize (Hexp false eq_refl eq_refl).
  destruct (http_get ("https://www.googleapis.com/oauth2/v2/userinfo?access_token=" +:+ token))
    as [user_response|e] eqn:Hr2; [|done].
  destruct (status_code user_response =? 200)%Z eqn:Hs2; cbn [negb]; cbv iota; [|done].
  destruct (json_body user_response) as [user_info|e] eqn:Hj2; [|done].
  destruct (PyDict.get user_info "email" JNull) as [email|e] eqn:He1; [|done].
  destruct (PyDict.get user_info "name" JNull) as [name|e]; [|done].
  destruct (PyDict.get user_info "id" JNull) as [gid|e] eqn:He3; [|done].
  destruct (PyDict.get user_info "verified_email" (JBool false)) as [ver|e]; [|done].
  intros [= <-]. simpl.
  exists response, token_info, user_response, user_info.
  apply Z.eqb_eq in Hs1, Hs2. by repeat split.
Qed.



End oauth.


(** ** Rendering and error surfaces *)

Section renderer.
Context `{Pandas} `{Plotly}.

Lemma figure_of_box plot data :
  p_plot_type plot = "box" →
  PlotService.figure_of plot data =
    match PlotService.y_valid (p_y_axis plot) data with
    | Some y => express (px_box data (Some (p_x_axis plot)) y (p_title plot))
    | None => express (px_box data None (p_x_axis plot) (p_title plot))
    end.
Proof. intros Ht. unfold PlotService.figure_of. by rewrite Ht. Qed.

Lemma adhoc_figure_box plot_request t data :
  plotType plot_request = "box" →
  Api.adhoc_figure plot_request t data
  = Raise (HTTPException 400 "Unsupported plot type: box").
Proof. intros Ht. unfold Api.adhoc_figure. by rewrite Ht. Qed.

End renderer.

(** C5, at the failing input.  User 1 asks for a box plot of column a of
    their dataset 10: the ad-hoc preview answers 400 "Unsupported plot
    type: box", while playback of their stored box plot 20 over the same
    rows succeeds with the distribution of column a alone. *)
Lemma box_preview_rejected :
  @Api.generate_plot Fixtures.recording_plotly Fixtures.bson
      Fixtures.box_request (Fixtures.user_of 1) Fixtures.db_one
    = (Raise (HTTPException 400 "Unsupported plot type: box"), Fixtures.db_one) ∧
  @Api.get_plot_data Fixtures.recording_plotly Fixtures.bson
      "20" (Fixtures.user_of 1) Fixtures.db_one
    = (Return (px_box [{[ "a" := CInt 7 ]}] None "a" "t"), Fixtures.db_one).
Proof. split; vm_compute; reflexivity. Qed.

(** C4, at the failing input.  When the charting library raises inside the
    ad-hoc preview, the text of the exception is part of the 500 response;
    the upload handler answers an unexpected failure (here a rejected
    insert) with a fixed message. *)
Lemma generate_plot_leaks_exception_text :
  @Api.generate_plot Fixtures.failing_plotly Fixtures.bson
      Fixtures.scatter_request (Fixtures.user_of 1) Fixtures.db_one
    = (Raise (HTTPException 500
         "Failed to generate plot: boom at 0x7f3a: SELECT * FROM data_records"),
       Fixtures.db_one) ∧
  @Api.upload_dataset Fixtures.pandas 0 10 "d" "" Fixtures.csv_file (Fixtures.user_of 1) Fixtures.db_one
    = (Raise (HTTPException 500 "Failed to process dataset"), Fixtures.db_one).
Proof. split; vm_compute; reflexivity. Qed.

(** ** Instances: the theorems at the fixtures *)

Lemma tag_security_sound s p p' :
  @verify_password Fixtures.tag_security p' (@get_password_hash Fixtures.tag_security s p) = true
  ↔ p' = p.
Proof.
  simpl. rewrite String.eqb_eq. split; [|by intros ->].
  intros Heq. cbn in Heq. by simplify_eq.
Qed.

Lemma create_user_duplicate_witness :
  users Fixtures.db_ann !! 1%positive = Some (UserInDB Fixtures.ann "hashed:s3cret" 0) ∧
  UserInDB Fixtures.ann "hashed:s3cret" 0 !! "email" = Some (VStr "ann@example.org") ∧
  @UserService.create_user Fixtures.tag_security "salt" 5 2
     Fixtures.impostor Fixtures.db_ann
  = (Raise (ValueError "User with this email already exists"), Fixtures.db_ann).
Proof.
  split; [vm_compute; reflexivity|]. split; [vm_compute; reflexivity|].
  apply (@create_user_duplicate Fixtures.tag_security "salt" 5 2
           Fixtures.impostor Fixtures.db_ann 1 (UserInDB Fixtures.ann "hashed:s3cret" 0));
    vm_compute; reflexivity.
Defined.

Lemma authenticate_after_create_witness :
  @UserService.create_user Fixtures.tag_security "salt" 0 1 Fixtures.ann Fixtures.empty_db
    = (Return Fixtures.ann_user, Fixtures.db_ann) ∧
  @UserService.authenticate_user Fixtures.tag_security "ann@example.org" "s3cret" Fixtures.db_ann
    = (Return (Some Fixtures.ann_user), Fixtures.db_ann) ∧
  @UserService.authenticate_user Fixtures.tag_security "ann@example.org" "guess" Fixtures.db_ann
    = (Return None, Fixtures.db_ann) ∧
  @UserService.authenticate_user Fixtures.tag_security "bob@example.org" "guess" Fixtures.db_ann
    = (Return None, Fixtures.db_ann).
Proof.
  assert (Hc : @UserService.create_user Fixtures.tag_security "salt" 0 1 Fixtures.ann
                 Fixtures.empty_db = (Return Fixtures.ann_user, Fixtures.db_ann)) by (vm_compute; reflexivity).
  destruct (@authenticate_after_create Fixtures.tag_security "salt" 0 1 Fixtures.ann
              Fixtures.empty_db Fixtures.ann_user Fixtures.db_ann tag_security_sound Hc) as (Hok & Hbad & Hunk).
  split; [exact Hc|]. split; [exact Hok|]. split.
  - apply Hbad. discriminate.
  - apply Hunk. intros i d Hl.
    destruct (decide (i = 1%positive)) as [->|Hne].
    + vm_compute in Hl. injection Hl as <-. vm_compute. discriminate.
    + unfold Fixtures.db_ann in Hl. simpl in Hl.
      rewrite lookup_singleton_ne in Hl by done. discriminate.
Defined.

Lemma update_user_frame_witness :
  users Fixtures.db_ann !! 1%positive = Some (UserInDB Fixtures.ann "hashed:s3cret" 0) ∧
  ∃ db',
    UserService.update_user 1 Fixtures.rename Fixtures.db_ann
    = (Return (Some {| user_id := 1;
                       user_doc := Fixtures.rename
                                   ∪ UserInDB Fixtures.ann "hashed:s3cret" 0 |}), db') ∧
    users db' !! 1%positive
    = Some (Fixtures.rename ∪ UserInDB Fixtures.ann "hashed:s3cret" 0).
Proof.
  split; [vm_compute; reflexivity|].
  destruct (update_user_frame 1 Fixtures.rename Fixtures.db_ann
              (UserInDB Fixtures.ann "hashed:s3cret" 0)) as (db' & Hu & Hl & _).
  { vm_compute. reflexivity. }
  exists db'. by split.
Defined.

Lemma google_auth_placeholder_password_witness :
  ∃ resp db',
    @Api.google_auth Fixtures.settings Fixtures.tag_security "salt" 0 1
       Fixtures.ann_google
       Fixtures.empty_db = (Return resp, db') ∧
    @UserService.authenticate_user Fixtures.tag_security "ann@example.org" "google_oauth_user" db'
    = (Return (Some (user resp)), db').
Proof.
  eexists _, _. split; [vm_compute; reflexivity|].
  refine (proj2 (proj2 (proj2
    (@google_auth_placeholder_password Fixtures.settings Fixtures.tag_security "salt" 0 1
       Fixtures.ann_google
       Fixtures.empty_db _ _ _ _ _)))).
  - intros s p. by apply tag_security_sound.
  - intros i d Hl. vm_compute in Hl. discriminate.
  - vm_compute. reflexivity.
Defined.



Lemma upload_two_rows_witness :
  @read_csv Fixtures.pandas Fixtures.csv_text
    = Return Fixtures.csv_frame ∧
  ∃ dataset db',
    @DatasetService.create_dataset Fixtures.pandas 0 10 1
       {| dc_name := "d"; dc_description := None |} Fixtures.csv_text "data.csv" Fixtures.empty_db
      = (Return dataset, db') ∧
    ds_columns dataset = ["a"; "b"; "c"] ∧
    ds_row_count dataset = 2%Z ∧
    dr_row_index <$> data_records db' = [0; 1]%Z ∧
    DatasetService.get_dataset_data 10 1 100 0 db'
      = (Return [{[ "a" := CInt 1; "b" := CInt 2; "c" := CInt 3 ]};
                 {[ "a" := CInt 4; "b" := CInt 5; "c" := CInt 6 ]}], db').
Proof.
  assert (Hcsv : @read_csv Fixtures.pandas Fixtures.csv_text
    = Return Fixtures.csv_frame)
    by (vm_compute; reflexivity).
  split; [exact Hcsv|].
  destruct (@upload_two_rows Fixtures.pandas 0 10 1 {| dc_name := "d"; dc_description := None |}
              Fixtures.csv_text "data.csv" Fixtures.empty_db _
              (CInt 1) (CInt 2) (CInt 3) (CInt 4) (CInt 5) (CInt 6)
              Hcsv eq_refl eq_refl eq_refl eq_refl eq_refl)
    as (dataset & db' & Hc & _ & Hcols & Hn & Hrecs & Hget).
  exists dataset, db'. repeat split; try done.
  rewrite Hrecs. reflexivity.
Defined.

Lemma cross_user_access_fails_closed_witness :
  datasets Fixtures.empty_db !! 10%positive = None ∧
  plots Fixtures.empty_db !! 20%positive = None ∧
  (ds_user_id <$> datasets Fixtures.db_one !! 10%positive) = Some 1%positive ∧
  (pd_user_id <$> plots Fixtures.db_one !! 20%positive) = Some 1%positive ∧
  @DatasetService.get_dataset_stats Fixtures.pandas 10 2 Fixtures.empty_db
    = (Return None, Fixtures.empty_db) ∧
  @DatasetService.get_dataset_stats Fixtures.pandas 10 2 Fixtures.db_one
    = (Return None, Fixtures.db_one) ∧
  @PlotService.delete_plot 20 2 Fixtures.empty_db = (Return false, Fixtures.empty_db) ∧
  @PlotService.delete_plot 20 2 Fixtures.db_one = (Return false, Fixtures.db_one).
Proof.
  split; [reflexivity|]. split; [reflexivity|].
  split; [vm_compute; reflexivity|]. split; [vm_compute; reflexivity|].
  destruct (@cross_user_access_fails_closed Fixtures.pandas Fixtures.recording_plotly
              Fixtures.empty_db Fixtures.db_one 2 10 20 100 0
              Fixtures.retitle)
    as [Hsame _].
  - reflexivity.
  - reflexivity.
  - eexists. split; [vm_compute; reflexivity|]. vm_compute. discriminate.
  - eexists. split; [vm_compute; reflexivity|]. vm_compute. discriminate.
  - destruct (Hsame Fixtures.empty_db (or_introl eq_refl))
      as (_ & _ & Hs1 & _ & _ & _ & Hd1 & _).
    destruct (Hsame Fixtures.db_one (or_intror eq_refl))
      as (_ & _ & Hs2 & _ & _ & _ & Hd2 & _).
    done.
Defined.

Lemma stats_all_missing_count_witness :
  datasets (Fixtures.db_missing 3) !! 10%positive = Some (Fixtures.dataset_of 1 3) ∧
  ds_row_count (Fixtures.dataset_of 1 3) = Z.of_nat (length (records_of 10 (Fixtures.db_missing 3))) ∧
  ∃ stats,
    @DatasetService.get_dataset_stats Fixtures.pandas 10 1 (Fixtures.db_missing 3)
      = (Return (Some stats), Fixtures.db_missing 3) ∧
    missing_values stats !! "a" = Some 3%Z.
Proof.
  set (db := Fixtures.db_missing 3).
  assert (Hl : datasets db !! 10%positive = Some (Fixtures.dataset_of 1 3))
    by (vm_compute; reflexivity).
  assert (Hn : ds_row_count (Fixtures.dataset_of 1 3) = Z.of_nat (length (records_of 10 db)))
    by (vm_compute; reflexivity).
  split; [exact Hl|]. split; [exact Hn|].
  destruct (@stats_all_missing_count Fixtures.pandas db 10 1 (Fixtures.dataset_of 1 3) "a"
              Hl eq_refl Hn) as (stats & Hs & _ & Hm).
  - reflexivity.
  - intros r Hr. exists (CFloat nan).
    change (records_of 10 db) with (Fixtures.record_of 10 (CFloat nan) <$> [0; 1; 2])%nat in Hr.
    apply list_elem_of_fmap in Hr as (i & -> & _). split; [|reflexivity].
    unfold Fixtures.record_of. simpl. apply lookup_singleton_eq.
  - exists stats. split; [exact Hs|]. exact Hm.
Defined.

(** * Further properties of the services and handlers *)

(** ** The user directory *)

Section user_directory.
Context `{Security}.

Lemma create_user_Raise salt now oid user_create db e db' :
  UserService.create_user salt now oid user_create db = (Raise e, db') → db' = db.
Proof.
  unfold UserService.create_user, UserService.get_user_by_email, UserService.insert_one,
    Mongo.insert_one. run.
  destruct (Mongo.find_one _ (users db)) as [[j d']|]; simpl; [by intros [= _ <-]|].
  destruct (users db !! oid); simpl; [by intros [= _ <-]|done].
Qed.

(** X1.  [create_user] keeps stored emails unique: if no two users of the
    store share an email, none do afterwards, whether the call returned or
    raised.  Every user stored before is still there, unchanged, and the
    other collections are untouched. *)
Theorem create_user_keeps_emails_unique salt now oid user_create db r db' :
  unique_emails db →
  UserService.create_user salt now oid user_create db = (r, db') →
  unique_emails db' ∧
  (∀ i d, users db !! i = Some d → users db' !! i = Some d) ∧
  datasets db' = datasets db ∧ data_records db' = data_records db ∧ plots db' = plots db.
Proof.
  intros Huniq Hc. destruct r as [u|e].
  - apply create_user_Return in Hc as (Hnone & Ho & -> & ->). simpl.
    split; [|split; [|done]].
    + intros i j d d' e Hi Hj Hd Hd'. simpl in Hi, Hj.
      destruct (decide (i = oid)) as [->|Hio], (decide (j = oid)) as [->|Hjo]; [done|..].
      * rewrite lookup_insert_eq in Hi. rewrite lookup_insert_ne in Hj by done.
        injection Hi as <-. rewrite UserInDB_email in Hd. injection Hd as <-.
        pose proof (find_one_None _ _ _ _ Hnone Hj) as Hp.
        apply (by_email_true _ j) in Hd'. congruence.
      * rewrite lookup_insert_eq in Hj. rewrite lookup_insert_ne in Hi by done.
        injection Hj as <-. rewrite UserInDB_email in Hd'. injection Hd' as <-.
        pose proof (find_one_None _ _ _ _ Hnone Hi) as Hp.
        apply (by_email_true _ i) in Hd. congruence.
      * rewrite lookup_insert_ne in Hi, Hj by done. eauto.
    + intros i d Hi. rewrite lookup_insert_ne; [done|]. intros <-. congruence.
  - apply create_user_Raise in Hc as ->. by repeat split.
Qed.

(** The user [create_user] returned is the one its email finds. *)
Lemma get_user_by_email_created salt now oid user_create db u db' :
  UserService.create_user salt now oid user_create db = (Return u, db') →
  UserService.get_user_by_email (uc_email user_create) db' = (Return (Some u), db').
Proof.
  intros Hc. apply create_user_Return in Hc as (Hnone & Ho & -> & ->). simpl.
  unfold UserService.get_user_by_email. run.
  by rewrite (find_one_fresh_insert _ _ _ _ Hnone) by apply by_email_true, UserInDB_email.
Qed.

Lemma created_user_is_active salt now oid user_create db u db' :
  UserService.create_user salt now oid user_create db = (Return u, db') →
  user_doc u !! "is_active" = Some (VBool true).
Proof.
  intros Hc. apply create_user_Return in Hc as (_ & _ & -> & _).
  unfold UserInDB. by simplify_map_eq.
Qed.

(** X2.  A user [create_user] returned can be read back: the lookup by
    the email and the lookup by the new identifier both return that user.
    The stored document is active, carries the username given, and has no
    field holding the password as typed. *)
Theorem create_user_read_back salt now oid user_create db u db' :
  UserService.create_user salt now oid user_create db = (Return u, db') →
  UserService.get_user_by_email (uc_email user_create) db' = (Return (Some u), db') ∧
  UserService.get_user_by_id (user_id u) db' = (Return (Some u), db') ∧
  user_doc u !! "is_active" = Some (VBool true) ∧
  user_doc u !! "username" = Some (VStr (uc_username user_create)) ∧
  user_doc u !! "password" = None.
Proof.
  intros Hc. split; [by eapply get_user_by_email_created|].
  split; [|split; [by eapply created_user_is_active|]].
  - apply create_user_Return in Hc as (_ & _ & -> & ->).
    rewrite get_user_by_id_lookup. simpl. by rewrite lookup_insert_eq.
  - apply create_user_Return in Hc as (_ & _ & -> & _).
    unfold UserInDB. by simplify_map_eq.
Qed.

End user_directory.

(** X3.  [update_user] on an identifier no user has returns no user and
    leaves the store as it was: it never creates a document. *)
Theorem update_user_unknown user_id update_data db :
  users db !! user_id = None →
  UserService.update_user user_id update_data db = (Return None, db).
Proof.
  intros Hl. unfold UserService.update_user, mbind, M_bind.
  case_bool_decide.
  - unfold mret at 1, M_ret. by rewrite get_user_by_id_lookup, Hl.
  - unfold write. replace (set_users _ db) with db.
    + by rewrite get_user_by_id_lookup, Hl.
    + destruct db. unfold set_users, Mongo.update_one. simpl in *.
      by rewrite find_one_by_id, Hl.
Qed.

(** ** Datasets *)

Lemma sort_by_row_index_sorted l :
  StronglySorted Z.lt (dr_row_index <$> l) → sort_by_row_index l = l.
Proof.
  induction l as [|x l IH]; [done|]. intros Hs. apply StronglySorted_inv in Hs as [Hl Hx].
  change (sort_by_row_index (x :: l)) with (insert_by_row_index x (sort_by_row_index l)).
  rewrite IH by done. destruct l as [|y l]; [done|]. simpl.
  apply Forall_inv in Hx. simpl in Hx. by rewrite (proj2 (Z.ltb_lt _ _) Hx).
Qed.

Lemma range_index_sorted a n : StronglySorted Z.lt (Z.of_nat <$> seq a n).
Proof.
  revert a. induction n as [|n IH]; intros a; simpl; constructor; [apply IH|].
  apply Forall_forall. intros z Hz. apply list_elem_of_fmap in Hz as (k & -> & Hk).
  apply list_elem_of_In, in_seq in Hk. lia.
Qed.

Lemma filter_all {A} (p : A → bool) (l : list A) :
  Forall (λ x, p x = true) l → List.filter p l = l.
Proof. induction 1 as [|x l Hx _ IH]; simpl; [done|]. by rewrite Hx, IH. Qed.

Lemma filter_none {A} (p : A → bool) (l : list A) :
  Forall (λ x, p x = false) l → List.filter p l = [].
Proof. induction 1 as [|x l Hx _ IH]; simpl; [done|]. by rewrite Hx, IH. Qed.

Lemma records_of_app oid db l :
  records_of oid (set_data_records (λ c, c ++ l) db)
  = records_of oid db ++ List.filter (λ r, bool_decide (dr_dataset_id r = oid)) l.
Proof. unfold records_of. simpl. apply List.filter_app. Qed.

Lemma to_dict_from_notin (cols : list string) (r : list cell) (m0 : gmap string cell) c :
  c ∉ cols →
  foldl (λ m kv, <[kv.1 := kv.2]> m) m0 (zip cols r) !! c = m0 !! c.
Proof.
  revert r m0. induction cols as [|x cols IH]; intros r m0 Hc; [done|].
  destruct r as [|v r]; [done|]. simpl.
  apply not_elem_of_cons in Hc as [Hx Hc]. rewrite IH by done.
  by rewrite lookup_insert_ne.
Qed.

Lemma to_dict_from_lookup (cols : list string) (r : list cell) (m0 : gmap string cell) k c :
  NoDup cols → cols !! k = Some c →
  foldl (λ m kv, <[kv.1 := kv.2]> m) m0 (zip cols r) !! c
  = match r !! k with Some v => Some v | None => m0 !! c end.
Proof.
  revert r m0 k. induction cols as [|x cols IH]; intros r m0 k Hnd Hk; [done|].
  apply NoDup_cons in Hnd as [Hx Hnd].
  destruct r as [|v r]; [by destruct k|]. simpl.
  destruct k as [|k]; simpl in *.
  - injection Hk as ->. rewrite to_dict_from_notin by done. by rewrite lookup_insert_eq.
  - rewrite (IH r _ k Hnd Hk). destruct (r !! k); [done|].
    rewrite lookup_insert_ne; [done|]. intros ->. apply Hx.
    by eapply list_elem_of_lookup_2.
Qed.

(** [row.to_dict()] on distinct labels: each label has the cell at its
    position, and there is no other key. *)
Lemma to_dict_lookup cols r k c :
  NoDup cols → cols !! k = Some c → to_dict cols r !! c = r !! k.
Proof.
  intros Hnd Hk. unfold to_dict. rewrite (to_dict_from_lookup _ _ _ k) by done.
  by destruct (r !! k).
Qed.

Lemma to_dict_notin cols r c : c ∉ cols → to_dict cols r !! c = None.
Proof. intros Hc. unfold to_dict. by rewrite to_dict_from_notin. Qed.

Section datasets.
Context `{Pandas}.

(** X4.  [get_user_datasets] returns exactly the stored datasets whose
    owner is the caller, each with its identifier filled in, and leaves
    the store as it was: no dataset of another user is listed and none of
    the caller's is left out. *)
Theorem get_user_datasets_exact user_id db :
  ∃ l, DatasetService.get_user_datasets user_id db = (Return l, db) ∧
       ∀ ds, ds ∈ l ↔ ∃ i d, datasets db !! i = Some d ∧ ds_user_id d = user_id ∧
                             ds = DatasetService.with_id i d.
Proof.
  eexists. split; [reflexivity|]. intros ds. rewrite list_elem_of_fmap. split.
  - intros ([i d] & -> & Hin). apply list_elem_of_In, filter_In in Hin as [Hin Hu].
    apply list_elem_of_In, elem_of_map_to_list in Hin. apply bool_decide_eq_true in Hu.
    eauto.
  - intros (i & d & Hl & Hu & ->). exists (i, d). split; [done|].
    apply list_elem_of_In, filter_In. split.
    + by apply list_elem_of_In, elem_of_map_to_list.
    + by apply bool_decide_eq_true.
Qed.

(** A file the parser refuses: the error is wrapped, nothing is stored. *)
Lemma create_dataset_unparsed now oid user_id dataset_create file_content filename db e :
  read_csv file_content = Raise e →
  DatasetService.create_dataset now oid user_id dataset_create file_content filename db
  = (Raise (ValueError ("Error parsing CSV file: " +:+ str e)), db).
Proof.
  intros Hcsv. unfold DatasetService.create_dataset. run. by rewrite Hcsv.
Qed.

(** X5.  Ingestion and paging agree.  When the parser returns a frame
    with the default index 0, 1, 2, ... and the identifier is fresh,
    [create_dataset] stores one record per row, numbered in file order;
    the row count of the dataset is the number of its stored records; the
    records of other datasets are untouched; when the column labels are
    distinct, the i-th stored row maps each label to the cell at the
    label's position in the i-th row of the file and has no other key; and
    [get_dataset_data] with a limit and a non-negative skip returns that
    page of the stored rows, in file order. *)
Theorem create_dataset_pages now oid user_id dataset_create file_content filename db frame :
  read_csv file_content = Return frame →
  df_index frame = Z.of_nat <$> seq 0 (length (df_values frame)) →
  datasets db !! oid = None →
  records_of oid db = [] →
  ∃ dataset db' rows,
    DatasetService.create_dataset now oid user_id dataset_create file_content filename db
      = (Return dataset, db') ∧
    ds_id dataset = Some oid ∧ ds_user_id dataset = user_id ∧
    ds_columns dataset = df_columns frame ∧
    ds_row_count dataset = Z.of_nat (length (records_of oid db')) ∧
    dr_row_index <$> records_of oid db' = Z.of_nat <$> seq 0 (length (df_values frame)) ∧
    dr_data <$> records_of oid db' = rows ∧
    (∀ j, j ≠ oid → records_of j db' = records_of j db) ∧
    length rows = length (df_values frame) ∧
    (NoDup (df_columns frame) →
     ∀ i row r, rows !! i = Some row → df_values frame !! i = Some r →
       (∀ k c, df_columns frame !! k = Some c → row !! c = r !! k) ∧
       (∀ c, c ∉ df_columns frame → row !! c = None)) ∧
    ∀ limit skip, (0 ≤ skip)%Z →
      DatasetService.get_dataset_data oid user_id limit skip db'
      = (Return (page limit skip rows), db').
Proof.
  intros Hcsv Hidx Hfresh Hnone.
  set (dataset := {| ds_id := None; ds_name := dc_name dataset_create;
       ds_description := dc_description dataset_create;
       ds_user_id := user_id; ds_columns := df_columns frame;
       ds_row_count := Z.of_nat (length (df_values frame));
       ds_file_size := Z.of_nat (String.length file_content);
       ds_file_type := "csv"; ds_created_at := now; ds_updated_at := now |}).
  set (recs := (λ ir : Z * list cell, {| dr_dataset_id := oid;
              dr_data := to_dict (df_columns frame) ir.2;
              dr_row_index := ir.1;
              dr_created_at := now |}) <$> zip (df_index frame) (df_values frame)).
  set (db' := set_data_records (λ c, c ++ recs)
                (set_datasets (λ _, <[oid := dataset]> (datasets db)) db)).
  assert (Hidxs : dr_row_index <$> recs = Z.of_nat <$> seq 0 (length (df_values frame))).
  { unfold recs. rewrite <- list_fmap_compose.
    change (dr_row_index ∘ _) with (fst : Z * list cell → Z).
    rewrite fst_zip; [done|]. rewrite Hidx, length_fmap, length_seq. lia. }
  assert (Hdata : dr_data <$> recs = to_dict (df_columns frame) <$> df_values frame).
  { unfold recs. rewrite <- list_fmap_compose.
    change (dr_data ∘ _) with ((to_dict (df_columns frame)) ∘ (snd : Z * list cell → list cell)).
    rewrite list_fmap_compose, snd_zip; [done|]. rewrite Hidx, length_fmap, length_seq. lia. }
  assert (Hmine : List.filter (λ r, bool_decide (dr_dataset_id r = oid)) recs = recs).
  { apply filter_all, Forall_forall. intros r Hr.
    apply list_elem_of_fmap in Hr as (ir & -> & _). by apply bool_decide_eq_true. }
  assert (Hrecs : records_of oid db' = recs).
  { unfold db'. rewrite records_of_app. unfold records_of in *. simpl. by rewrite Hnone, Hmine. }
  exists (DatasetService.with_id oid dataset), db',
    (to_dict (df_columns frame) <$> df_values frame). split.
  { unfold DatasetService.create_dataset, DatasetService.insert_one, Mongo.insert_one. run.
    rewrite Hcsv. simpl. rewrite Hfresh. simpl. fold dataset. fold recs.
    destruct recs eqn:Hr; [|done]. unfold db'. f_equal.
    unfold set_data_records. simpl. by rewrite app_nil_r. }
  split; [done|]. split; [done|]. split; [done|]. split.
  { rewrite Hrecs. simpl. f_equal.
    rewrite <- (length_fmap dr_row_index recs), Hidxs, length_fmap, length_seq. done. }
  split; [by rewrite Hrecs|]. split; [by rewrite Hrecs|]. split.
  { intros j Hj. unfold db'. rewrite records_of_app.
    rewrite filter_none; [by rewrite app_nil_r|].
    apply Forall_forall. intros r Hr. apply list_elem_of_fmap in Hr as (ir & -> & _).
    apply bool_decide_eq_false. simpl. congruence. }
  split; [by rewrite length_fmap|]. split.
  { intros Hnd i row r Hrow Hr. rewrite list_lookup_fmap, Hr in Hrow.
    injection Hrow as <-. split.
    - intros k c Hk. by apply to_dict_lookup.
    - intros c Hc. by apply to_dict_notin. }
  intros limit skip Hskip.
  rewrite (get_dataset_data_owned db' oid user_id dataset limit skip);
    [|apply lookup_insert_eq|done].
  unfold cursor. rewrite (proj2 (Z.ltb_ge _ _) Hskip).
  fold (records_of oid db'). rewrite Hrecs.
  rewrite sort_by_row_index_sorted by (rewrite Hidxs; apply range_index_sorted).
  unfold page. rewrite <- Hdata. f_equal.
  destruct (limit =? 0)%Z; by rewrite ?fmap_take, fmap_drop.
Qed.

(** X6.  Deleting an owned dataset returns true and removes the dataset
    together with every record of it; the records of other datasets, the
    users and the plots (also the plots drawn over the deleted dataset) stay.
    Afterwards the dataset is not found and a second delete returns false. *)
Theorem delete_dataset_owned db dataset_id user_id d :
  datasets db !! dataset_id = Some d → ds_user_id d = user_id →
  ∃ db',
    DatasetService.delete_dataset dataset_id user_id db = (Return true, db') ∧
    datasets db' = delete dataset_id (datasets db) ∧
    records_of dataset_id db' = [] ∧
    (∀ j, j ≠ dataset_id → records_of j db' = records_of j db) ∧
    users db' = users db ∧ plots db' = plots db ∧
    DatasetService.get_dataset_by_id dataset_id user_id db' = (Return None, db') ∧
    DatasetService.delete_dataset dataset_id user_id db' = (Return false, db').
Proof.
  intros Hl Hu.
  set (db' := set_datasets (λ _, delete dataset_id (datasets db))
               (set_data_records
                  (Mongo.delete_many (λ r, bool_decide (dr_dataset_id r = dataset_id))) db)).
  assert (Hgone : foreign_dataset db' dataset_id user_id).
  { intros d'. unfold db'. simpl. by rewrite lookup_delete_eq. }
  exists db'. split.
  { unfold DatasetService.delete_dataset, mbind, M_bind.
    rewrite (get_dataset_by_id_owned _ _ _ _ Hl Hu).
    unfold write, DatasetService.delete_one, Mongo.delete_one. simpl.
    by rewrite find_one_owned_dataset, Hl, bool_decide_true. }
  split; [done|]. split.
  { unfold records_of, db', Mongo.delete_many. simpl.
    induction (data_records db) as [|r l IH]; simpl; [done|].
    case_bool_decide; simpl; [done|]. by rewrite bool_decide_false. }
  split.
  { intros j Hj. unfold records_of, db', Mongo.delete_many. simpl.
    induction (data_records db) as [|r l IH]; simpl; [done|].
    destruct (decide (dr_dataset_id r = dataset_id)) as [Hr|Hr].
    - rewrite (bool_decide_true _ Hr). simpl. rewrite bool_decide_false by congruence. done.
    - rewrite (bool_decide_false _ Hr). simpl. by rewrite IH. }
  split; [done|]. split; [done|]. split.
  - by apply get_dataset_by_id_foreign.
  - by apply delete_dataset_foreign.
Qed.

Lemma get_dataset_data_length db dataset_id user_id limit skip rows db' :
  limit ≠ 0%Z →
  DatasetService.get_dataset_data dataset_id user_id limit skip db = (Return rows, db') →
  (Z.of_nat (length rows) ≤ Z.abs limit)%Z.
Proof.
  intros Hlim. unfold DatasetService.get_dataset_data, mbind, M_bind.
  destruct (get_dataset_by_id_spec db dataset_id user_id) as (r & -> & _).
  destruct r; [|intros [= <- _]; simpl; lia].
  unfold DatasetService.find_records, cursor.
  destruct (skip <? 0)%Z; [done|]. rewrite (proj2 (Z.eqb_neq _ _) Hlim). simpl.
  intros [= <- _]. rewrite length_fmap, length_take. lia.
Qed.

(** What a present answer of [stats] is made of. *)
Lemma get_dataset_stats_Some db dataset_id user_id stats db' :
  DatasetService.get_dataset_stats dataset_id user_id db = (Return (Some stats), db') →
  ∃ data,
    data ≠ [] ∧
    DatasetService.get_dataset_data dataset_id user_id 10000 0 db = (Return data, db) ∧
    total_rows stats = Z.of_nat (length data) ∧
    total_columns stats = Z.of_nat (length (frame_columns data)) ∧
    column_types stats
      = list_to_map ((λ col, (col, dtype_str (infer_dtype (column col data))))
                     <$> frame_columns data) ∧
    missing_values stats
      = list_to_map ((λ col, (col, Z.of_nat (length (List.filter isnull (column col data)))))
                     <$> frame_columns data) ∧
    summary_stats stats
      = list_to_map ((λ col, (col, DatasetService.summary (column col data)))
                     <$> List.filter (λ col, is_number (infer_dtype (column col data)))
                           (frame_columns data)).
Proof.
  unfold DatasetService.get_dataset_stats, mbind at 1, M_bind.
  destruct (get_dataset_by_id_spec db dataset_id user_id) as (r & -> & _).
  destruct r; [|done]. unfold mbind, M_bind.
  pose proof (get_dataset_data_unchanged db dataset_id user_id 10000 0) as Hd.
  destruct (DatasetService.get_dataset_data dataset_id user_id 10000 0 db)
    as [[data|e] db''] eqn:Hdata; simpl in Hd; subst db''; [|done].
  destruct data as [|row rows]; [done|].
  intros [= <- _]. exists (row :: rows). split; [done|]. split; [done|]. simpl.
  repeat split.
Qed.

(** X7.  In a present answer of [stats] the row total lies between 1 and
    10000 (the sample the statistics are taken from is capped), and every
    column that has a summary has all five statistics as floats, is typed
    int64 or float64, and has a missing-value count. *)
Theorem stats_are_floats db dataset_id user_id stats db' col s :
  DatasetService.get_dataset_stats dataset_id user_id db = (Return (Some stats), db') →
  summary_stats stats !! col = Some s →
  (0 < total_rows stats ≤ 10000)%Z ∧
  (∃ mean std min max median,
     s = {| s_mean := PyFloat mean; s_std := PyFloat std; s_min := PyFloat min;
            s_max := PyFloat max; s_median := PyFloat median |}) ∧
  (column_types stats !! col = Some "int64" ∨ column_types stats !! col = Some "float64") ∧
  is_Some (missing_values stats !! col).
Proof.
  intros Hs Hcol. apply get_dataset_stats_Some in Hs
    as (data & Hne & Hdata & Hrows & _ & Htypes & Hmiss & Hsum).
  split.
  { rewrite Hrows.
    pose proof (get_dataset_data_length db dataset_id user_id 10000 0 data db
                  ltac:(lia) Hdata).
    destruct data; [done|]. simpl in *. lia. }
  rewrite Hsum in Hcol. apply elem_of_list_to_map_2, list_elem_of_fmap in Hcol
    as (c & [= -> ->] & Hc).
  apply list_elem_of_In, filter_In in Hc as [Hc Hnum]. apply list_elem_of_In in Hc.
  assert (Hnd : NoDup (frame_columns data)) by (unfold frame_columns; apply NoDup_elements).
  split.
  { destruct data as [|row rows]; [done|]. unfold DatasetService.summary, column. simpl.
    eauto 10. }
  split.
  - rewrite Htypes, (lookup_keyed_list_to_map _ _ _ Hnd Hc).
    destruct (infer_dtype (column c data)); simpl in *; auto; done.
  - rewrite Hmiss, (lookup_keyed_list_to_map _ _ _ Hnd Hc). eauto.
Qed.

(** X8.  For a dataset without stored rows [stats] answers nothing,
    whoever asks and whatever row count the dataset document records; the
    store is left as it was. *)
Theorem stats_absent_without_rows db dataset_id user_id :
  records_of dataset_id db = [] →
  DatasetService.get_dataset_stats dataset_id user_id db = (Return None, db).
Proof.
  intros Hnone. unfold DatasetService.get_dataset_stats, mbind at 1, M_bind.
  destruct (get_dataset_by_id_spec db dataset_id user_id) as (r & Hr & Hown). rewrite Hr.
  destruct r as [ds|]; [|done]. destruct (Hown ds eq_refl) as (_ & d & Hl & Hu).
  unfold mbind, M_bind. rewrite (get_dataset_data_owned _ _ _ _ _ _ Hl Hu).
  unfold cursor. fold (records_of dataset_id db). rewrite Hnone. reflexivity.
Qed.

End datasets.

(** ** Plots *)

Section plots.
Context `{Pandas} `{Plotly}.

Lemma get_plot_by_id_owned db plot_id user_id d :
  plots db !! plot_id = Some d → pd_user_id d = user_id →
  PlotService.get_plot_by_id plot_id user_id db
  = (match PlotService.validate plot_id d with
     | Return plot => Return (Some plot)
     | Raise e => Raise e
     end, db).
Proof.
  intros Hl Hu. unfold PlotService.get_plot_by_id. run.
  rewrite find_one_owned_plot, Hl, bool_decide_true by done.
  by destruct (PlotService.validate plot_id d).
Qed.

(** X9.  [create_plot] refuses a dataset that is not the caller's with
    the error "Dataset not found or access denied" and stores nothing.  Over
    a dataset of the caller, with a fresh identifier, it stores one document
    made from the request and owned by the caller, touches no other
    collection, and the plot it returns is the one [get_plot_by_id] then
    finds. *)
Theorem create_plot_stores now oid user_id plot_create db :
  (foreign_dataset db (pc_dataset_id plot_create) user_id →
   PlotService.create_plot now oid user_id plot_create db
   = (Raise (ValueError "Dataset not found or access denied"), db)) ∧
  (∀ d, datasets db !! pc_dataset_id plot_create = Some d → ds_user_id d = user_id →
        plots db !! oid = None →
   ∃ plot db',
     PlotService.create_plot now oid user_id plot_create db = (Return plot, db') ∧
     p_id plot = Some oid ∧ p_user_id plot = user_id ∧
     p_dataset_id plot = pc_dataset_id plot_create ∧
     plots db' = <[oid := PlotDoc_of now user_id plot_create]> (plots db) ∧
     users db' = users db ∧ datasets db' = datasets db ∧
     data_records db' = data_records db ∧
     PlotService.get_plot_by_id oid user_id db' = (Return (Some plot), db')).
Proof.
  split.
  - intros Hf. unfold PlotService.create_plot, mbind, M_bind.
    by rewrite get_dataset_by_id_foreign.
  - intros d Hl Hu Hfresh. eexists _, (set_plots (λ _, <[oid := _]> (plots db)) db).
    split.
    { unfold PlotService.create_plot, mbind, M_bind.
      rewrite (get_dataset_by_id_owned _ _ _ _ Hl Hu).
      unfold PlotService.insert_one, Mongo.insert_one. rewrite Hfresh. reflexivity. }
    simpl. repeat split.
    erewrite get_plot_by_id_owned; [|apply lookup_insert_eq|done]. reflexivity.
Qed.

Lemma apply_set_unset u d :
  PlotService.update_data_nonempty u = false → PlotService.apply_set u d = d.
Proof.
  unfold PlotService.update_data_nonempty, PlotService.apply_set.
  destruct u as [[] [] [] [] []], d; simpl; try done.
Qed.

(** What [update_plot] does to a plot of the caller. *)
Lemma update_plot_run db plot_id user_id d plot_update :
  plots db !! plot_id = Some d → pd_user_id d = user_id →
  PlotService.update_plot plot_id user_id plot_update db
  = (match PlotService.validate plot_id (PlotService.apply_set plot_update d) with
     | Return plot => Return (Some plot)
     | Raise e => Raise e
     end,
     set_plots (λ _, <[plot_id := PlotService.apply_set plot_update d]> (plots db)) db).
Proof.
  intros Hl Hu. unfold PlotService.update_plot, mbind, M_bind.
  destruct (PlotService.update_data_nonempty plot_update) eqn:Hne.
  - unfold write, Mongo.update_one.
    replace (set_plots _ db)
      with (set_plots (λ _, <[plot_id := PlotService.apply_set plot_update d]> (plots db)) db).
    + erewrite get_plot_by_id_owned; [done|apply lookup_insert_eq|done].
    + unfold set_plots. by rewrite find_one_owned_plot, Hl, bool_decide_true.
  - unfold mret at 1, M_ret. rewrite (apply_set_unset _ _ Hne).
    rewrite (insert_id _ _ _ Hl), set_plots_id.
    by apply get_plot_by_id_owned.
Qed.

(** X10.  [update_plot] on a plot of the caller rewrites that one
    document and no other collection.  Owner, dataset and both timestamps
    stay as stored (the update time is not refreshed); each of title, type,
    x axis, y axis and configuration keeps its stored value when the
    request left it unset and takes the new value when the request set it;
    the answer is the updated document read back. *)
Theorem update_plot_owned db plot_id user_id d plot_update :
  plots db !! plot_id = Some d → pd_user_id d = user_id →
  ∃ db' d',
    PlotService.update_plot plot_id user_id plot_update db
    = (match PlotService.validate plot_id d' with
       | Return plot => Return (Some plot)
       | Raise e => Raise e
       end, db') ∧
    plots db' = <[plot_id := d']> (plots db) ∧
    users db' = users db ∧ datasets db' = datasets db ∧
    data_records db' = data_records db ∧
    pd_user_id d' = user_id ∧
    pd_dataset_id d' = pd_dataset_id d ∧
    pd_created_at d' = pd_created_at d ∧
    pd_updated_at d' = pd_updated_at d ∧
    pd_title d' = match pu_title plot_update with Unset => pd_title d | Set_ v => v end ∧
    pd_plot_type d'
      = match pu_plot_type plot_update with Unset => pd_plot_type d | Set_ v => v end ∧
    pd_x_axis d' = match pu_x_axis plot_update with Unset => pd_x_axis d | Set_ v => v end ∧
    pd_y_axis d' = match pu_y_axis plot_update with Unset => pd_y_axis d | Set_ v => v end ∧
    pd_config d' = match pu_config plot_update with Unset => pd_config d | Set_ v => v end.
Proof.
  intros Hl Hu. eexists _, (PlotService.apply_set plot_update d).
  split; [by apply update_plot_run|].
  simpl. split; [done|]. do 3 (split; [done|]). split; [done|]. do 3 (split; [done|]).
  unfold PlotService.set_field. by repeat split.
Qed.

(** X11.  An update that sets the title to null is written to the store
    before the result is validated: [update_plot] raises a validation
    error, the stored plot has lost its title, and reading that plot raises
    the same error from then on. *)
Theorem update_plot_null_title db plot_id user_id d plot_update :
  plots db !! plot_id = Some d → pd_user_id d = user_id →
  pu_title plot_update = Set_ None →
  ∃ msg db',
    PlotService.update_plot plot_id user_id plot_update db = (Raise (ValueError msg), db') ∧
    (pd_title <$> plots db' !! plot_id) = Some None ∧
    PlotService.get_plot_by_id plot_id user_id db' = (Raise (ValueError msg), db').
Proof.
  intros Hl Hu Ht.
  assert (Hset : pd_title (PlotService.apply_set plot_update d) = None).
  { unfold PlotService.apply_set. simpl. by rewrite Ht. }
  assert (Hv : PlotService.validate plot_id (PlotService.apply_set plot_update d)
               = Raise (ValueError "validation error for Plot")).
  { unfold PlotService.validate. by rewrite Hset. }
  eexists _, _. split; [rewrite (update_plot_run _ _ _ _ _ Hl Hu), Hv; reflexivity|].
  split.
  - simpl. rewrite lookup_insert_eq. simpl. by rewrite Ht.
  - erewrite get_plot_by_id_owned; [|apply lookup_insert_eq|done].
    by rewrite Hv.
Qed.

(** X12.  Deleting a plot of the caller returns true and removes that one
    document; users, datasets and records stay.  Afterwards the plot is not
    found and a second delete returns false. *)
Theorem delete_plot_owned db plot_id user_id d :
  plots db !! plot_id = Some d → pd_user_id d = user_id →
  ∃ db',
    PlotService.delete_plot plot_id user_id db = (Return true, db') ∧
    plots db' = delete plot_id (plots db) ∧
    users db' = users db ∧ datasets db' = datasets db ∧
    data_records db' = data_records db ∧
    PlotService.get_plot_by_id plot_id user_id db' = (Return None, db') ∧
    PlotService.delete_plot plot_id user_id db' = (Return false, db').
Proof.
  intros Hl Hu. exists (set_plots (λ _, delete plot_id (plots db)) db).
  assert (Hgone : foreign_plot (set_plots (λ _, delete plot_id (plots db)) db) plot_id user_id).
  { intros p. simpl. by rewrite lookup_delete_eq. }
  split.
  { unfold PlotService.delete_plot, PlotService.delete_one, Mongo.delete_one. run.
    by rewrite find_one_owned_plot, Hl, bool_decide_true. }
  simpl. do 4 (split; [done|]). split.
  - by apply get_plot_by_id_foreign.
  - by apply delete_plot_foreign.
Qed.

(** Playback of an owned, valid plot over the rows of its dataset. *)
Lemma generate_plot_data_owned db plot_id user_id d plot data :
  plots db !! plot_id = Some d → pd_user_id d = user_id →
  PlotService.validate plot_id d = Return plot →
  DatasetService.get_dataset_data (p_dataset_id plot) user_id 10000 0 db = (Return data, db) →
  PlotService.generate_plot_data plot_id user_id db
  = (match data with
     | [] => Raise (ValueError "No data found for plot")
     | _ => render plot data
     end, db).
Proof.
  intros Hl Hu Hv Hd. unfold PlotService.generate_plot_data, mbind at 1, M_bind.
  rewrite (get_plot_by_id_owned _ _ _ _ Hl Hu), Hv.
  unfold mbind at 1, M_bind. rewrite Hd. destruct data as [|row rows]; [done|].
  unfold render, mbind, M_bind, outcome_bind, Py.bind, lift.
  destruct (PlotService.figure_of plot (row :: rows)); [|done].
  destruct (is_empty_dict (p_config plot)); unfold mret, M_ret; [done|].
  by destruct (update_layout _ _).
Qed.

(** X13.  Playback of a stored plot whose type is none of scatter, line,
    bar, histogram and box raises "Unsupported plot type: " followed by the
    type, and leaves the store as it was; the charting library is not
    called. *)
Theorem generate_plot_data_unsupported db plot_id user_id d plot data :
  plots db !! plot_id = Some d → pd_user_id d = user_id →
  PlotService.validate plot_id d = Return plot →
  DatasetService.get_dataset_data (p_dataset_id plot) user_id 10000 0 db = (Return data, db) →
  data ≠ [] →
  p_plot_type plot ∉ ["scatter"; "line"; "bar"; "histogram"; "box"] →
  PlotService.generate_plot_data plot_id user_id db
  = (Raise (ValueError ("Unsupported plot type: " +:+ p_plot_type plot)), db).
Proof.
  intros Hl Hu Hv Hd Hne Ht.
  rewrite (generate_plot_data_owned _ _ _ _ _ _ Hl Hu Hv Hd).
  destruct data as [|row rows]; [done|]. f_equal.
  unfold render, PlotService.figure_of.
  repeat (destruct (String.eqb _ _) eqn:He;
          [apply String.eqb_eq in He; exfalso; apply Ht; rewrite He; set_solver|clear He]).
  reflexivity.
Qed.

(** X14.  Playback of a plot of the caller whose dataset is gone (or is
    not the caller's), or has no stored rows, raises "No data found for
    plot" and leaves the store as it was: a plot outlives its dataset and
    then cannot be drawn. *)
Theorem generate_plot_data_no_data db plot_id user_id d plot :
  plots db !! plot_id = Some d → pd_user_id d = user_id →
  PlotService.validate plot_id d = Return plot →
  foreign_dataset db (p_dataset_id plot) user_id ∨ records_of (p_dataset_id plot) db = [] →
  PlotService.generate_plot_data plot_id user_id db
  = (Raise (ValueError "No data found for plot"), db).
Proof.
  intros Hl Hu Hv Hcase.
  rewrite (generate_plot_data_owned _ _ _ _ _ [] Hl Hu Hv); [done|].
  destruct Hcase as [Hf|Hnone]; [by apply get_dataset_data_foreign|].
  unfold DatasetService.get_dataset_data, mbind, M_bind.
  destruct (get_dataset_by_id_spec db (p_dataset_id plot) user_id) as (r & -> & _).
  destruct r; [|done]. unfold DatasetService.find_records, cursor. simpl.
  fold (records_of (p_dataset_id plot) db). by rewrite Hnone.
Qed.

Lemma figure_of_without_y plot data y :
  p_y_axis plot = Some y → in_columns y data = false →
  PlotService.figure_of plot data = PlotService.figure_of (without_y plot) data.
Proof.
  intros Hy Hin. unfold PlotService.figure_of, without_y, PlotService.y_valid. simpl.
  rewrite Hy, Hin, andb_false_r. reflexivity.
Qed.

(** X15.  Playback does not check the stored y axis against the data: a
    plot of the caller whose y axis names no column of the rows is drawn
    exactly as the same plot without a y axis, with no error. *)
Theorem generate_plot_data_y_fallback db plot_id user_id d plot data y :
  plots db !! plot_id = Some d → pd_user_id d = user_id →
  PlotService.validate plot_id d = Return plot →
  DatasetService.get_dataset_data (p_dataset_id plot) user_id 10000 0 db = (Return data, db) →
  data ≠ [] →
  p_y_axis plot = Some y → in_columns y data = false →
  PlotService.generate_plot_data plot_id user_id db = (render (without_y plot) data, db).
Proof.
  intros Hl Hu Hv Hd Hne Hy Hin.
  rewrite (generate_plot_data_owned _ _ _ _ _ _ Hl Hu Hv Hd).
  destruct data as [|row rows]; [done|]. f_equal.
  unfold render. by rewrite (figure_of_without_y _ _ _ Hy Hin).
Qed.

End plots.

(** ** The account handlers *)

Section accounts.
Context `{Settings} `{Security}.

(** X16.  The login handler answers an unknown email and a wrong password
    for a known one alike: status 401 with the detail "Incorrect email or
    password", and the store as it was. *)
Theorem login_failures_alike login_data db :
  ((∀ i d, users db !! i = Some d → d !! "email" ≠ Some (VStr (lr_email login_data))) ∨
   (∃ i d h, Mongo.find_one (UserService.by_email (lr_email login_data)) (users db)
             = Some (i, d) ∧
             d !! "hashed_password" = Some (VStr h) ∧
             verify_password (lr_password login_data) h = false)) →
  Api.login login_data db = (Raise (HTTPException 401 "Incorrect email or password"), db).
Proof.
  intros Hcase. unfold Api.login, UserService.authenticate_user. run.
  destruct Hcase as [Hunknown | (i & d & h & Hf & Hh & Hv)].
  - destruct (Mongo.find_one _ (users db)) as [[j d']|] eqn:Hf; [|done].
    apply find_one_Some in Hf as [Hl Hp]. apply by_email_true in Hp.
    by destruct (Hunknown _ _ Hl).
  - rewrite Hf. simpl. rewrite Hh, Hv. done.
Qed.

(** X17.  The register handler answers an email that some stored user
    already holds with status 400 and the detail "User with this email
    already exists"; nothing is stored. *)
Theorem register_duplicate salt now oid user_create db i d :
  users db !! i = Some d →
  d !! "email" = Some (VStr (uc_email user_create)) →
  Api.register salt now oid user_create db
  = (Raise (HTTPException 400 "User with this email already exists"), db).
Proof.
  intros Hl He.
  destruct (find_one_exists (UserService.by_email (uc_email user_create)) _ _ _ Hl)
    as (j & d' & Hf); [by apply by_email_true|].
  unfold Api.register, UserService.create_user, UserService.get_user_by_email. run.
  by rewrite Hf.
Qed.

(** X18.  The Google handler, given an email that has an account, signs
    that account in: it answers with the stored user and a token issued for
    the email, creates nothing and changes nothing, whatever name and Google
    identifier the request carries.  A failure to issue the token is
    answered with status 500. *)
Theorem google_auth_existing_account salt now oid google_data db i d :
  Mongo.find_one (UserService.by_email (ga_email google_data)) (users db) = Some (i, d) →
  d !! "email" = Some (VStr (ga_email google_data)) ∧
  users db !! i = Some d ∧
  Api.google_auth salt now oid google_data db
  = (match create_access_token (Some (VStr (ga_email google_data)))
             jwt_access_token_expire_minutes with
     | Return access_token =>
         Return {| success := true; message := "Google authentication successful";
                   user := {| user_id := i; user_doc := d |};
                   token := access_token; token_type := "bearer" |}
     | Raise _ => Raise (HTTPException 500 "Google authentication failed")
     end, db).
Proof.
  intros Hf. pose proof Hf as [Hl He%by_email_true]%find_one_Some.
  split; [done|]. split; [done|].
  unfold Api.google_auth, UserService.get_user_by_email. run. rewrite Hf. simpl.
  unfold Api.access_token_for, Api.email_of. simpl. rewrite He.
  by destruct (create_access_token _ _).
Qed.

(** What the register handler did when it returned. *)
Lemma register_Return salt now oid user_create db r db' :
  Api.register salt now oid user_create db = (Return r, db') →
  UserService.create_user salt now oid user_create db = (Return (user r), db').
Proof.
  unfold Api.register, catch, mbind, M_bind, lift, mret, M_ret, raise.
  destruct (UserService.create_user salt now oid user_create db) as [[u|e] db1].
  - destruct (Api.access_token_for u) as [t|e]; [by intros [= <- <-]|].
    by destruct e.
  - by destruct e.
Qed.

(** X28.  Register, then log in: for a hash that verifies the password it
    was made from, after the register handler returned, the login handler
    with the same email and password signs in the registered user and
    leaves the store as it is; only the issuing of the token can still
    fail. *)
Theorem register_then_login salt now oid user_create db r db' :
  (∀ s p, verify_password p (get_password_hash s p) = true) →
  Api.register salt now oid user_create db = (Return r, db') →
  Api.login {| lr_email := uc_email user_create; lr_password := uc_password user_create |} db'
  = (match create_access_token (Some (VStr (uc_email user_create)))
             jwt_access_token_expire_minutes with
     | Return access_token =>
         Return {| success := true; message := "Login successful"; user := user r;
                   token := access_token; token_type := "bearer" |}
     | Raise (HTTPException status_code detail) => Raise (HTTPException status_code detail)
     | Raise _ => Raise (HTTPException 500 "Internal server error")
     end, db').
Proof.
  intros Hhash Hr. apply register_Return in Hr.
  destruct r as [ok msg u tok kind]. simpl in *.
  apply create_user_Return in Hr as (Hnone & Ho & -> & ->). simpl.
  pose proof (find_one_fresh_insert _ _ oid
    (UserInDB user_create (get_password_hash salt (uc_password user_create)) now) Hnone
    ltac:(apply by_email_true, UserInDB_email)) as Hf.
  unfold Api.login, UserService.authenticate_user. run. rewrite Hf. simpl.
  rewrite UserInDB_hashed, Hhash.
  unfold Api.access_token_for, Api.email_of. simpl. rewrite UserInDB_email.
  by destruct (create_access_token _ _) as [t|[]].
Qed.

End accounts.

(** ** The data and plot handlers *)

Section data_handlers.
Context `{Pandas} `{Plotly} `{Bson}.

(** X19.  What the upload handler turns away, each with status 400 and
    the store as it was: a file without a name ("No file provided"), a name
    that does not end in .csv in any letter case ("Only CSV files are
    supported"), a content of more than 10 MiB ("File size too large.
    Maximum 10MB allowed."), and a content the parser refuses ("Error
    parsing CSV file: " followed by the parser's message). *)
Theorem upload_dataset_rejections now oid name description file current_user db :
  (truthy (filename file) = None →
   Api.upload_dataset now oid name description file current_user db
   = (Raise (HTTPException 400 "No file provided"), db)) ∧
  (∀ fname, truthy (filename file) = Some fname →
     endswith (lower fname) ".csv" = false →
     Api.upload_dataset now oid name description file current_user db
     = (Raise (HTTPException 400 "Only CSV files are supported"), db)) ∧
  (∀ fname, truthy (filename file) = Some fname →
     endswith (lower fname) ".csv" = true →
     (10 * 1024 * 1024 < Z.of_nat (String.length (content file)))%Z →
     Api.upload_dataset now oid name description file current_user db
     = (Raise (HTTPException 400 "File size too large. Maximum 10MB allowed."), db)) ∧
  (∀ fname e, truthy (filename file) = Some fname →
     endswith (lower fname) ".csv" = true →
     (Z.of_nat (String.length (content file)) ≤ 10 * 1024 * 1024)%Z →
     read_csv (content file) = Raise e →
     Api.upload_dataset now oid name description file current_user db
     = (Raise (HTTPException 400 ("Error parsing CSV file: " +:+ str e)), db)).
Proof.
  unfold Api.upload_dataset. split; [|split; [|split]].
  - by intros ->.
  - by intros fname -> ->.
  - intros fname -> -> Hsize. cbn [negb]. cbv iota.
    by rewrite (proj2 (Z.ltb_lt _ _) Hsize).
  - intros fname e -> -> Hsize Hcsv. simpl negb. cbv iota.
    rewrite (proj2 (Z.ltb_ge _ _) Hsize).
    unfold catch. cbn [negb]. cbv beta iota.
    rewrite (create_dataset_unparsed _ _ _ _ _ _ _ _ Hcsv).
    reflexivity.
Qed.

(** X20.  The three dataset handlers (read, statistics, delete) answer an
    identifier that is not well formed with one and the same error, and an
    identifier that names no dataset of the caller (none at all, or another
    user's) with one and the same not-found error; in both cases the store
    is left as it was. *)
Theorem dataset_handlers_not_found dataset_id limit skip current_user db :
  (ObjectId_of_str dataset_id = None →
   Api.get_dataset dataset_id limit skip current_user db
     = (Raise (Api.invalid_dataset_id dataset_id), db) ∧
   Api.get_dataset_stats dataset_id current_user db
     = (Raise (Api.invalid_dataset_id dataset_id), db) ∧
   Api.delete_dataset dataset_id current_user db
     = (Raise (Api.invalid_dataset_id dataset_id), db)) ∧
  (∀ oid, ObjectId_of_str dataset_id = Some oid →
     foreign_dataset db oid (user_id current_user) →
     Api.get_dataset dataset_id limit skip current_user db
       = (Raise (Api.dataset_not_found dataset_id), db) ∧
     Api.get_dataset_stats dataset_id current_user db
       = (Raise (Api.dataset_not_found dataset_id), db) ∧
     Api.delete_dataset dataset_id current_user db
       = (Raise (Api.dataset_not_found dataset_id), db)).
Proof.
  unfold Api.get_dataset, Api.get_dataset_stats, Api.delete_dataset. split.
  - by intros ->.
  - intros oid -> Hf. unfold mbind, M_bind.
    by rewrite get_dataset_by_id_foreign, get_dataset_stats_foreign, delete_dataset_foreign.
Qed.

(** X21.  The plot handlers answer an identifier that names no plot of
    the caller with "Plot not found" and leave the store as it was: read,
    update and delete with status 404, playback with status 400. *)
Theorem plot_handlers_not_found plot_id plot_update current_user db oid :
  ObjectId_of_str plot_id = Some oid →
  foreign_plot db oid (user_id current_user) →
  Api.get_plot plot_id current_user db = (Raise (HTTPException 404 "Plot not found"), db) ∧
  Api.update_plot plot_id plot_update current_user db
    = (Raise (HTTPException 404 "Plot not found"), db) ∧
  Api.delete_plot plot_id current_user db = (Raise (HTTPException 404 "Plot not found"), db) ∧
  Api.get_plot_data plot_id current_user db = (Raise (HTTPException 400 "Plot not found"), db).
Proof.
  intros Hid Hf.
  unfold Api.get_plot, Api.update_plot, Api.delete_plot, Api.get_plot_data.
  rewrite Hid. unfold mbind, M_bind, catch.
  by rewrite get_plot_by_id_foreign, update_plot_foreign, delete_plot_foreign,
    generate_plot_data_foreign.
Qed.

(** The preview once the dataset and its rows are found. *)
Lemma generate_plot_owned plot_request current_user db oid d data :
  ObjectId_of_str (datasetId plot_request) = Some oid →
  datasets db !! oid = Some d → ds_user_id d = user_id current_user →
  DatasetService.get_dataset_data oid (user_id current_user) 10000 0 db = (Return data, db) →
  data ≠ [] →
  in_columns (xAxis plot_request) data = true →
  (∀ y, truthy (yAxis plot_request) = Some y → in_columns y data = true) →
  Api.generate_plot plot_request current_user db
  = (match
       (fig ← Api.adhoc_figure plot_request (Api.default_title plot_request) data;
        plot_json ← to_json fig;
        Return {| r_success := true; r_data := plot_json;
                  r_title := Api.default_title plot_request;
                  r_plotType := plotType plot_request; r_xAxis := xAxis plot_request;
                  r_yAxis := yAxis plot_request |})
     with
     | Return r => Return r
     | Raise (HTTPException status_code detail) => Raise (HTTPException status_code detail)
     | Raise e => Raise (HTTPException 500 ("Failed to generate plot: " +:+ str e))
     end, db).
Proof.
  intros Hid Hl Hu Hd Hne Hx Hy. unfold Api.generate_plot. rewrite Hid.
  unfold catch, mbind at 1, M_bind.
  rewrite (get_dataset_by_id_owned _ _ _ _ Hl Hu).
  unfold mbind at 1, M_bind. rewrite Hd. destruct data as [|row rows]; [done|].
  rewrite Hx. simpl negb. cbv iota.
  unfold mbind at 1, M_bind.
  destruct (truthy (yAxis plot_request)) as [y|] eqn:Hty;
    [rewrite (Hy y eq_refl); cbn [negb]; cbv iota|];
    unfold mbind, M_bind, outcome_bind, Py.bind, lift, mret, M_ret;
    (destruct (Api.adhoc_figure _ _ _) as [fig|[]]; [|done..]);
    by destruct (to_json fig) as [j|[]].
Qed.

(** X22.  The preview handler checks the requested columns against the
    data before it draws: an x axis that is no column is answered with
    status 400 naming that column, and so is a y axis that is no column when
    the x axis is one.  The store is left as it was. *)
Theorem generate_plot_unknown_column plot_request current_user db oid d data :
  ObjectId_of_str (datasetId plot_request) = Some oid →
  datasets db !! oid = Some d → ds_user_id d = user_id current_user →
  DatasetService.get_dataset_data oid (user_id current_user) 10000 0 db = (Return data, db) →
  data ≠ [] →
  (in_columns (xAxis plot_request) data = false →
   Api.generate_plot plot_request current_user db
   = (Raise (Api.column_not_found (xAxis plot_request)), db)) ∧
  (∀ y, in_columns (xAxis plot_request) data = true →
        truthy (yAxis plot_request) = Some y → in_columns y data = false →
   Api.generate_plot plot_request current_user db = (Raise (Api.column_not_found y), db)).
Proof.
  intros Hid Hl Hu Hd Hne.
  split; [intros Hx | intros y Hx Hty Hy];
    unfold Api.generate_plot; rewrite Hid;
    unfold catch, mbind at 1, M_bind;
    rewrite (get_dataset_by_id_owned _ _ _ _ Hl Hu);
    unfold mbind at 1, M_bind; rewrite Hd;
    (destruct data as [|row rows]; [done|]); rewrite Hx; cbn [negb]; cbv iota.
  - reflexivity.
  - unfold mbind at 1, M_bind. by rewrite Hty, Hy.
Qed.

(** X23.  The preview handler answers a plot type that is none of
    scatter, line, bar and histogram with status 400 and the detail
    "Unsupported plot type: " followed by the type, also when dataset and
    columns are all valid. *)
Theorem generate_plot_unsupported plot_request current_user db oid d data :
  ObjectId_of_str (datasetId plot_request) = Some oid →
  datasets db !! oid = Some d → ds_user_id d = user_id current_user →
  DatasetService.get_dataset_data oid (user_id current_user) 10000 0 db = (Return data, db) →
  data ≠ [] →
  in_columns (xAxis plot_request) data = true →
  (∀ y, truthy (yAxis plot_request) = Some y → in_columns y data = true) →
  plotType plot_request ∉ ["scatter"; "line"; "bar"; "histogram"] →
  Api.generate_plot plot_request current_user db
  = (Raise (HTTPException 400 ("Unsupported plot type: " +:+ plotType plot_request)), db).
Proof.
  intros Hid Hl Hu Hd Hne Hx Hy Ht.
  rewrite (generate_plot_owned _ _ _ _ _ _ Hid Hl Hu Hd Hne Hx Hy).
  unfold Api.adhoc_figure.
  repeat (destruct (String.eqb _ _) eqn:He;
          [apply String.eqb_eq in He; exfalso; apply Ht; rewrite He; set_solver|clear He]).
  reflexivity.
Qed.

End data_handlers.

(** ** Listings *)

Lemma validate_all_Return docs l :
  Listing.validate_all docs = Return l →
  ∀ plot, plot ∈ l ↔ ∃ i d, (i, d) ∈ docs ∧ PlotService.validate i d = Return plot.
Proof.
  revert l. induction docs as [|[i d] docs IH]; intros l; simpl.
  - intros [= <-] plot. split; [by intros ?%elem_of_nil|].
    by intros (? & ? & ?%elem_of_nil & _).
  - unfold mbind, outcome_bind, Py.bind.
    destruct (PlotService.validate i d) as [p|e] eqn:Hv; [|done].
    destruct (Listing.validate_all docs) as [ps|e]; [|done].
    intros [= <-] plot. rewrite elem_of_cons, (IH ps eq_refl). split.
    + intros [->|(j & d' & Hin & Hp)]; [exists i, d|exists j, d'];
        (split; [|done]); rewrite elem_of_cons; auto.
    + intros (j & d' & Hin & Hp). apply elem_of_cons in Hin as [[= -> ->]|Hin].
      * left. congruence.
      * right. eauto.
Qed.

Lemma validate_all_Raise docs i d e :
  (i, d) ∈ docs → PlotService.validate i d = Raise e →
  ∃ e', Listing.validate_all docs = Raise e'.
Proof.
  intros Hin Hv. induction docs as [|[j d'] docs IH]; [by apply elem_of_nil in Hin|].
  simpl. unfold mbind, outcome_bind, Py.bind.
  apply elem_of_cons in Hin as [[= <- <-]|Hin].
  - rewrite Hv. eauto.
  - destruct (PlotService.validate j d'); [|eauto].
    destruct (IH Hin) as [e' ->]. eauto.
Qed.

(** X29.  [get_user_plots] never changes the store and lists all of the
    caller's plots or none: when it returns, the list holds exactly the
    stored plots owned by the caller; when one stored plot of the caller
    fails validation (a required field is null), the whole listing raises. *)
Theorem get_user_plots_all_or_nothing user_id db :
  ∃ r, Listing.get_user_plots user_id db = (r, db) ∧
    (∀ l, r = Return l →
       ∀ plot, plot ∈ l ↔ ∃ i d, plots db !! i = Some d ∧ pd_user_id d = user_id ∧
                                 PlotService.validate i d = Return plot) ∧
    (∀ i d e, plots db !! i = Some d → pd_user_id d = user_id →
              PlotService.validate i d = Raise e → ∃ e', r = Raise e').
Proof.
  unfold Listing.get_user_plots, mbind, M_bind, read, lift.
  set (docs := List.filter _ _).
  assert (Hdocs : ∀ i d, (i, d) ∈ docs ↔ plots db !! i = Some d ∧ pd_user_id d = user_id).
  { intros i d. unfold docs. rewrite list_elem_of_In, filter_In, <- list_elem_of_In.
    rewrite elem_of_map_to_list. simpl. by rewrite bool_decide_eq_true. }
  exists (Listing.validate_all docs). split; [by destruct (Listing.validate_all docs)|]. split.
  - intros l Hl plot. rewrite (validate_all_Return _ _ Hl). split.
    + intros (i & d & Hin & Hv). apply Hdocs in Hin as [? ?]. eauto.
    + intros (i & d & Hp & Hu & Hv). exists i, d. split; [by apply Hdocs|done].
  - intros i d e Hp Hu Hv.
    by apply (validate_all_Raise docs i d e); [apply Hdocs|].
Qed.

(** X30.  The debug endpoint discloses every stored dataset to whoever
    calls it: the answer lists the identifier, the owner, the name and the
    creation time of each dataset in the store, whoever owns it, and counts
    them all; the store is left as it was. *)
Theorem debug_all_datasets_discloses `{Render} current_user db :
  ∃ r, Listing.debug_all_datasets current_user db = (Return r, db) ∧
       total_datasets r = Z.of_nat (size (datasets db)) ∧
       ∀ i d, datasets db !! i = Some d → Listing.brief i d ∈ all_datasets r.
Proof.
  eexists. split; [reflexivity|]. simpl. split.
  - by rewrite length_fmap, length_map_to_list.
  - intros i d Hl. apply list_elem_of_fmap. exists (i, d). split; [done|].
    by apply elem_of_map_to_list.
Qed.

Section disclosure.
Context `{Render}.

(** C2.  The debug listing crosses users.  For a dataset stored under an
    identifier and owned by someone other than the caller, the debug
    endpoint answers the caller with that dataset's entry (identifier,
    owner, name, creation time), while the lookup by that identifier
    answers the same caller with nothing and the caller's own listing holds
    no dataset of that identifier. *)
Theorem debug_listing_crosses_users current_user db i d :
  datasets db !! i = Some d → ds_user_id d ≠ user_id current_user →
  (∃ r, Listing.debug_all_datasets current_user db = (Return r, db) ∧
        Listing.brief i d ∈ all_datasets r) ∧
  DatasetService.get_dataset_by_id i (user_id current_user) db = (Return None, db) ∧
  (∃ l, DatasetService.get_user_datasets (user_id current_user) db = (Return l, db) ∧
        ∀ ds, ds ∈ l → ds_id ds ≠ Some i).
Proof.
  intros Hl Hu. split; [|split].
  - eexists. split; [reflexivity|]. simpl.
    apply list_elem_of_fmap. exists (i, d). split; [done|].
    by apply elem_of_map_to_list.
  - apply get_dataset_by_id_foreign. intros d' Hd'. congruence.
  - eexists. split; [reflexivity|]. intros ds Hin Hid.
    apply list_elem_of_fmap in Hin as ([j d'] & -> & Hin).
    apply list_elem_of_In, filter_In in Hin as [Hin Hown].
    apply list_elem_of_In, elem_of_map_to_list in Hin.
    apply bool_decide_eq_true in Hown. simpl in *. injection Hid as ->. congruence.
Qed.

End disclosure.

(** ** The request authenticator *)

Section authenticator.
Context `{Settings} `{Google} `{TokenVerifier} `{EmailQuery}.

Lemma deps_get_user_by_email_unchanged email db :
  (Deps.get_user_by_email email db).2 = db ∧
  ∃ r, (Deps.get_user_by_email email db).1 = Return r.
Proof.
  unfold Deps.get_user_by_email, UserService.get_user_by_email.
  destruct email; run;
    (destruct (find_one_email_value _ _) as [[]|] || destruct (Mongo.find_one _ _) as [[]|]);
    eauto.
Qed.

Lemma verify_google_token_returns token :
  ∃ r, GoogleOAuthService.verify_google_token token = Return r.
Proof.
  unfold GoogleOAuthService.verify_google_token, try_except.
  destruct (GoogleOAuthService.try_block token); eauto.
Qed.

Lemma lookup_or_unauthorized email detail db :
  ∃ r, (user ← Deps.get_user_by_email email;
        match user with
        | None => raise (Deps.unauthorized detail)
        | Some user => mret user
        end) db = (r, db) ∧
       ∀ e, r = Raise e → e = Deps.unauthorized detail.
Proof.
  unfold mbind, M_bind.
  destruct (deps_get_user_by_email_unchanged email db) as [Hdb [r Hr]].
  destruct (Deps.get_user_by_email email db) as [o db']. simpl in *. subst.
  destruct r; simpl; (eexists; split; [done|]); [done|]. by intros e [= <-].
Qed.

Lemma resolve_failures token db :
  ∃ r, Deps.resolve token db = (r, db) ∧
  ∀ e, r = Raise e →
       (∃ detail, e = Deps.unauthorized detail) ∨
       (GoogleOAuthService.is_access_token token = false ∧
        (verify_token token = Raise e ∨ ∃ class_name msg, e = Exception class_name msg)).
Proof.
  unfold Deps.resolve.
  destruct (GoogleOAuthService.is_access_token token) eqn:Ha.
  - unfold mbind at 1, M_bind at 1, lift.
    destruct (verify_google_token_returns token) as [r ->].
    destruct r as [info|].
    + destruct (truth (ui_email info)); cbn [negb]; cbv iota.
      * destruct (lookup_or_unauthorized (ui_email info)
                    "User not found. Please register first." db) as (r & -> & He).
        eexists. split; [done|]. intros e Hr. left. eexists. by apply He.
      * eexists. split; [done|]. intros e [= <-]. left. eauto.
    + eexists. split; [done|]. intros e [= <-]. left. eauto.
  - unfold mbind at 1, M_bind at 1, lift.
    destruct (verify_token token) as [payload|e0] eqn:Hv.
    + unfold mbind at 1, M_bind at 1. unfold PyDict.get.
      destruct payload;
        try (eexists; split; [done|]; intros e [= <-]; right; split; eauto).
      destruct (lookup_or_unauthorized
                  (match PyDict.lookup "sub" members with Some v => v | None => JNull end)
                  "User not found" db) as (r & Hr & He).
      destruct (match PyDict.lookup "sub" members with Some v => v | None => JNull end);
        try (exists r; split; [exact Hr|]; intros e Hre; left; eexists; by apply He).
      eexists. split; [done|]. intros e [= <-]. left. eauto.
    + eexists. split; [done|]. intros e [= <-]. right. eauto.
Qed.

(** X24.  The request authenticator never changes the store, and when it
    refuses a token it does so with an HTTP error: status 401, or the very
    HTTP error the local token check raised.  Every other failure inside is
    turned into 401 "Could not validate credentials".  A token that is not
    of the access-token shape is judged the same whatever the settings and
    the identity provider are: the provider plays no part. *)
Theorem get_current_user_failures token db :
  (∃ r, Deps.get_current_user token db = (r, db) ∧
   ∀ e, r = Raise e →
        ∃ status_code detail,
          e = HTTPException status_code detail ∧
          (status_code = 401%Z ∨
           (GoogleOAuthService.is_access_token token = false ∧ verify_token token = Raise e))) ∧
  (∀ (s2 : Settings) (g2 : Google),
     GoogleOAuthService.is_access_token token = false →
     @Deps.get_current_user s2 g2 _ _ token db = Deps.get_current_user token db).
Proof.
  split.
  - unfold Deps.get_current_user, catch.
    destruct (resolve_failures token db) as (r & -> & Hfail).
    destruct r as [u|e0]; [by eexists|].
    destruct (Hfail e0 eq_refl) as [[detail ->] | [Ha [Hv | (c & m & ->)]]].
    + eexists. split; [done|]. intros e [= <-]. unfold Deps.unauthorized. eauto.
    + destruct e0; (eexists; split; [done|]); intros e [= <-]; unfold Deps.unauthorized;
        eauto 6.
    + eexists. split; [done|]. intros e [= <-]. unfold Deps.unauthorized. eauto.
  - intros s2 g2 Ha. unfold Deps.get_current_user, Deps.resolve. by rewrite Ha.
Qed.

(** X25.  An access-shaped token the provider vouches for, whose email
    has no account, is refused with status 401 and the detail "User not
    found. Please register first."; no account is created on the way. *)
Theorem get_current_user_unregistered token db info email :
  GoogleOAuthService.is_access_token token = true →
  GoogleOAuthService.verify_google_token token = Return (Some info) →
  ui_email info = JStr email → email ≠ "" →
  (∀ i d, users db !! i = Some d → d !! "email" ≠ Some (VStr email)) →
  Deps.get_current_user token db
  = (Raise (HTTPException 401 "User not found. Please register first."), db).
Proof.
  intros Ha Hv He Hne Hunknown.
  unfold Deps.get_current_user, catch, Deps.resolve. rewrite Ha.
  assert (Ht : truth (JStr email) = true).
  { simpl. by rewrite (proj2 (String.eqb_neq _ _) Hne). }
  unfold mbind at 1, M_bind at 1, lift. rewrite Hv, He, Ht. cbn [negb]. cbv iota.
  unfold Deps.get_user_by_email, UserService.get_user_by_email. run.
  destruct (Mongo.find_one _ (users db)) as [[j d']|] eqn:Hf; [|done].
  apply find_one_Some in Hf as [Hl Hp]. apply by_email_true in Hp.
  by destruct (Hunknown _ _ Hl).
Qed.

(** X26.  Register, then authenticate: after [create_user] returned a
    user, a locally issued token whose subject is that user's email makes
    the authenticator return exactly that user, and the active-user check
    lets the user through. *)
Theorem created_user_authenticates `{Security} salt now oid user_create db u db' token payload :
  UserService.create_user salt now oid user_create db = (Return u, db') →
  GoogleOAuthService.is_access_token token = false →
  verify_token token = Return payload →
  PyDict.get payload "sub" JNull = Return (JStr (uc_email user_create)) →
  Deps.get_current_user token db' = (Return u, db') ∧
  Deps.get_current_active_user u = Return u.
Proof.
  intros Hc Ha Hv Hsub. split.
  - unfold Deps.get_current_user, catch, Deps.resolve. rewrite Ha.
    unfold mbind at 1, M_bind at 1, lift. rewrite Hv.
    unfold mbind at 1, M_bind at 1. rewrite Hsub.
    unfold mbind, M_bind, Deps.get_user_by_email.
    by rewrite (get_user_by_email_created _ _ _ _ _ _ _ Hc).
  - unfold Deps.get_current_active_user, is_active.
    by rewrite (created_user_is_active _ _ _ _ _ _ _ Hc).
Qed.

End authenticator.

(** ** Access tokens *)

Section access_tokens.
Context `{Google}.

(** X27.  What stands behind an accepted access token: both requests to
    the provider were answered with status 200 and a JSON body, the token
    information either has no expiry or one greater than zero, and the
    email and the Google identifier of the result are those of the
    user-information body.  The configured client identifier plays no part:
    under any other settings the verdict on an access-shaped token is the
    same. *)
Theorem access_token_accepted (s : Settings) token info :
  GoogleOAuthService.is_access_token token = true →
  GoogleOAuthService.verify_google_token token = Return (Some info) →
  (∃ response token_info user_response user_info,
     http_get (tokeninfo_url token) = Return response ∧
     status_code response = 200%Z ∧
     json_body response = Return token_info ∧
     (PyDict.contains token_info "expires_in" = Return false ∨
      ∃ v n, PyDict.getitem token_info "expires_in" = Return v ∧
             GoogleOAuthService.int v = Return n ∧ (0 < n)%Z) ∧
     http_get (userinfo_url token) = Return user_response ∧
     status_code user_response = 200%Z ∧
     json_body user_response = Return user_info ∧
     PyDict.get user_info "email" JNull = Return (ui_email info) ∧
     PyDict.get user_info "id" JNull = Return (ui_google_id info)) ∧
  (∀ s2 : Settings, @GoogleOAuthService.verify_google_token s2 _ token = Return (Some info)).
Proof.
  intros Ha Hv. split; [|intros s2; rewrite <- Hv;
    unfold GoogleOAuthService.verify_google_token, GoogleOAuthService.try_block;
    by rewrite Ha].
  apply verify_access_token_Some. revert Hv.
  unfold GoogleOAuthService.verify_google_token, try_except,
    GoogleOAuthService.try_block. rewrite Ha.
  by destruct (GoogleOAuthService.verify_access_token token) as [[i|]|e]; intros [= ->].
Qed.

End access_tokens.

(** ** Worked examples of the further properties *)

Lemma create_user_Ann :
  @UserService.create_user Fixtures.tag_security "salt" 0 1 Fixtures.ann Fixtures.empty_db
  = (Return Fixtures.ann_user, Fixtures.db_ann).
Proof. vm_compute. reflexivity. Qed.

Lemma unknown_to_db_ann (email : string) i d :
  email ≠ "ann@example.org" →
  users Fixtures.db_ann !! i = Some d → d !! "email" ≠ Some (VStr email).
Proof.
  intros Hne Hl. unfold Fixtures.db_ann in Hl. simpl in Hl.
  apply lookup_singleton_Some in Hl as [_ <-].
  rewrite UserInDB_email. simpl. congruence.
Qed.

Lemma foreign_dataset_db_one : foreign_dataset Fixtures.db_one 10 2.
Proof.
  intros d Hl. unfold Fixtures.db_one in Hl. simpl in Hl.
  apply lookup_singleton_Some in Hl as [_ <-]. simpl. discriminate.
Qed.

Lemma foreign_plot_db_one : foreign_plot Fixtures.db_one 20 2.
Proof.
  intros d Hl. unfold Fixtures.db_one in Hl. simpl in Hl.
  apply lookup_singleton_Some in Hl as [_ <-]. simpl. discriminate.
Qed.

Lemma unique_emails_db_two : unique_emails Examples.db_two.
Proof.
  intros i j d d' e Hi Hj Hd Hd'. unfold Examples.db_two in Hi, Hj. simpl in Hi, Hj.
  apply lookup_insert_Some in Hi as [[<- <-]|[Hi1 Hi]];
    apply lookup_insert_Some in Hj as [[<- <-]|[Hj1 Hj]]; [done|..];
    try (apply lookup_singleton_Some in Hi as [<- <-]);
    try (apply lookup_singleton_Some in Hj as [<- <-]); [..|done];
    exfalso; unfold Examples.bob_doc in *; rewrite UserInDB_email in Hd, Hd';
    simpl in Hd, Hd'; congruence.
Qed.

Lemma create_user_keeps_emails_unique_witness :
  unique_emails Examples.db_two ∧
  (∃ u db',
     @UserService.create_user Fixtures.tag_security "salt" 5 3 Examples.carol_signup Examples.db_two
       = (Return u, db') ∧
     unique_emails db' ∧
     users db' !! 1%positive = Some (UserInDB Fixtures.ann "hashed:s3cret" 0) ∧
     users db' !! 2%positive = Some Examples.bob_doc ∧
     users db' !! 3%positive = Some (user_doc u)) ∧
  @UserService.create_user Fixtures.tag_security "salt" 5 3 Fixtures.impostor Examples.db_two
    = (Raise (ValueError "User with this email already exists"), Examples.db_two).
Proof.
  split; [exact unique_emails_db_two|]. split.
  - destruct (@UserService.create_user Fixtures.tag_security "salt" 5 3 Examples.carol_signup
                Examples.db_two) as [r db'] eqn:Hc.
    destruct (@create_user_keeps_emails_unique Fixtures.tag_security "salt" 5 3
                Examples.carol_signup Examples.db_two r db' unique_emails_db_two Hc)
      as (Hu & Hkept & _).
    vm_compute in Hc. injection Hc as <- <-.
    eexists _, _. split; [reflexivity|]. split; [exact Hu|].
    split; [apply Hkept; vm_compute; reflexivity|].
    split; [apply Hkept; vm_compute; reflexivity|]. vm_compute. reflexivity.
  - destruct (@UserService.create_user Fixtures.tag_security "salt" 5 3 Fixtures.impostor
                Examples.db_two) as [r db'] eqn:Hc.
    pose proof (@create_user_keeps_emails_unique Fixtures.tag_security "salt" 5 3
                  Fixtures.impostor Examples.db_two r db' unique_emails_db_two Hc) as _.
    vm_compute in Hc. injection Hc as <- <-. vm_compute. reflexivity.
Defined.

Lemma create_user_read_back_witness :
  @UserService.create_user Fixtures.tag_security "salt" 0 1 Fixtures.ann Fixtures.empty_db
    = (Return Fixtures.ann_user, Fixtures.db_ann) ∧
  UserService.get_user_by_email "ann@example.org" Fixtures.db_ann
    = (Return (Some Fixtures.ann_user), Fixtures.db_ann) ∧
  UserService.get_user_by_id 1 Fixtures.db_ann
    = (Return (Some Fixtures.ann_user), Fixtures.db_ann).
Proof.
  split; [exact create_user_Ann|].
  destruct (@create_user_read_back Fixtures.tag_security "salt" 0 1 Fixtures.ann
              Fixtures.empty_db _ _ create_user_Ann) as (He & Hi & _).
  split; [exact He|exact Hi].
Defined.

Lemma update_user_unknown_witness :
  users Fixtures.db_ann !! 2%positive = None ∧
  UserService.update_user 2 Fixtures.rename Fixtures.db_ann = (Return None, Fixtures.db_ann).
Proof.
  assert (Hl : users Fixtures.db_ann !! 2%positive = None) by (vm_compute; reflexivity).
  split; [exact Hl|]. exact (update_user_unknown 2 Fixtures.rename Fixtures.db_ann Hl).
Defined.

Lemma create_dataset_pages_witness :
  @read_csv Fixtures.pandas Fixtures.csv_text = Return Fixtures.csv_frame ∧
  ∃ dataset db' row,
    @DatasetService.create_dataset Fixtures.pandas 0 10 1
       {| dc_name := "d"; dc_description := None |} Fixtures.csv_text "data.csv"
       Fixtures.empty_db
      = (Return dataset, db') ∧
    ds_row_count dataset = Z.of_nat (length (records_of 10 db')) ∧
    DatasetService.get_dataset_data 10 1 1 1 db' = (Return [row], db') ∧
    row !! "a" = Some (CInt 4) ∧ row !! "b" = Some (CInt 5) ∧ row !! "c" = Some (CInt 6) ∧
    row !! "d" = None.
Proof.
  assert (Hcsv : @read_csv Fixtures.pandas Fixtures.csv_text = Return Fixtures.csv_frame)
    by (vm_compute; reflexivity).
  split; [exact Hcsv|].
  destruct (@create_dataset_pages Fixtures.pandas 0 10 1
              {| dc_name := "d"; dc_description := None |} Fixtures.csv_text "data.csv"
              Fixtures.empty_db Fixtures.csv_frame Hcsv eq_refl eq_refl eq_refl)
    as (dataset & db' & rows & Hc & _ & _ & _ & Hn & _ & _ & _ & Hlen & Hrows & Hpage).
  destruct rows as [|row0 [|row1 [|row2 rows]]]; try discriminate Hlen.
  assert (Hnd : NoDup (df_columns Fixtures.csv_frame)).
  { apply (bool_decide_unpack _). vm_compute. exact I. }
  destruct (Hrows Hnd 1%nat row1 [CInt 4; CInt 5; CInt 6] eq_refl eq_refl) as [Hcell Hnone].
  exists dataset, db', row1. split; [exact Hc|]. split; [exact Hn|].
  split; [apply (Hpage 1%Z 1%Z); lia|].
  split; [exact (Hcell 0%nat "a" eq_refl)|].
  split; [exact (Hcell 1%nat "b" eq_refl)|].
  split; [exact (Hcell 2%nat "c" eq_refl)|].
  apply Hnone. apply (bool_decide_unpack _). vm_compute. exact I.
Defined.

Lemma delete_dataset_owned_witness :
  datasets Fixtures.db_one !! 10%positive = Some (Fixtures.dataset_of 1 1) ∧
  ∃ db',
    DatasetService.delete_dataset 10 1 Fixtures.db_one = (Return true, db') ∧
    records_of 10 db' = [] ∧
    plots db' = plots Fixtures.db_one ∧
    DatasetService.delete_dataset 10 1 db' = (Return false, db').
Proof.
  assert (Hl : datasets Fixtures.db_one !! 10%positive = Some (Fixtures.dataset_of 1 1))
    by (vm_compute; reflexivity).
  split; [exact Hl|].
  destruct (delete_dataset_owned Fixtures.db_one 10 1
              (Fixtures.dataset_of 1 1) Hl eq_refl)
    as (db' & Hd & _ & Hr & _ & _ & Hp & _ & Hagain).
  exists db'. by repeat split.
Defined.

Lemma stats_are_floats_witness :
  ∃ stats s,
    @DatasetService.get_dataset_stats Fixtures.pandas 10 1 Fixtures.db_one
      = (Return (Some stats), Fixtures.db_one) ∧
    summary_stats stats !! "a" = Some s ∧
    (0 < total_rows stats ≤ 10000)%Z ∧
    column_types stats !! "a" = Some "int64".
Proof.
  destruct (@DatasetService.get_dataset_stats Fixtures.pandas 10 1 Fixtures.db_one)
    as [r db'] eqn:Hs.
  assert (Hr : r = Return (Some
            {| total_rows := 1; total_columns := 1;
               column_types := {[ "a" := "int64" ]};
               missing_values := {[ "a" := 0%Z ]};
               summary_stats := {[ "a" := {| s_mean := PyFloat 1; s_std := PyFloat 1;
                                             s_min := PyFloat 1; s_max := PyFloat 1;
                                             s_median := PyFloat 1 |} ]} |})
           ∧ db' = Fixtures.db_one).
  { vm_compute in Hs. injection Hs as <- <-. split; vm_compute; reflexivity. }
  destruct Hr as [-> ->].
  eexists _, _. split; [reflexivity|].
  assert (Hcol : ({[ "a" := {| s_mean := PyFloat 1; s_std := PyFloat 1;
                               s_min := PyFloat 1; s_max := PyFloat 1;
                               s_median := PyFloat 1 |} ]} : gmap string Summary) !! "a"
                 = Some {| s_mean := PyFloat 1; s_std := PyFloat 1;
                           s_min := PyFloat 1; s_max := PyFloat 1;
                           s_median := PyFloat 1 |}) by apply lookup_singleton_eq.
  split; [exact Hcol|].
  destruct (@stats_are_floats Fixtures.pandas Fixtures.db_one 10 1 _ _ "a" _ Hs Hcol)
    as (Hrows & _ & _ & _).
  split; [exact Hrows|]. vm_compute. reflexivity.
Defined.

Lemma stats_absent_without_rows_witness :
  records_of 10 (Fixtures.db_missing 0) = [] ∧
  @DatasetService.get_dataset_stats Fixtures.pandas 10 1 (Fixtures.db_missing 0)
    = (Return None, Fixtures.db_missing 0).
Proof.
  split; [reflexivity|].
  exact (@stats_absent_without_rows Fixtures.pandas (Fixtures.db_missing 0) 10 1 eq_refl).
Defined.

Lemma create_plot_stores_witness :
  foreign_dataset Fixtures.db_one 10 2 ∧
  PlotService.create_plot 0 21 2 Examples.histogram_of_a Fixtures.db_one
    = (Raise (ValueError "Dataset not found or access denied"), Fixtures.db_one) ∧
  ∃ plot db',
    PlotService.create_plot 0 21 1 Examples.histogram_of_a Fixtures.db_one
      = (Return plot, db') ∧
    p_id plot = Some 21%positive ∧
    PlotService.get_plot_by_id 21 1 db' = (Return (Some plot), db').
Proof.
  split; [exact foreign_dataset_db_one|]. split.
  - exact (proj1 (create_plot_stores 0 21 2 Examples.histogram_of_a
                    Fixtures.db_one) foreign_dataset_db_one).
  - destruct (proj2 (create_plot_stores 0 21 1 Examples.histogram_of_a
                       Fixtures.db_one) (Fixtures.dataset_of 1 1))
      as (plot & db' & Hc & Hid & _ & _ & _ & _ & _ & _ & Hget).
    + vm_compute. reflexivity.
    + reflexivity.
    + vm_compute. reflexivity.
    + exists plot, db'. by repeat split.
Defined.

Lemma update_plot_owned_witness :
  plots Fixtures.db_one !! 20%positive = Some (Fixtures.plot_of 1 10 "box") ∧
  ∃ plot db',
    PlotService.update_plot 20 1 Examples.restyle Fixtures.db_one = (Return (Some plot), db') ∧
    p_plot_type plot = "histogram" ∧ p_title plot = "t" ∧ p_x_axis plot = "a" ∧
    p_y_axis plot = None ∧
    datasets db' = datasets Fixtures.db_one.
Proof.
  assert (Hl : plots Fixtures.db_one !! 20%positive = Some (Fixtures.plot_of 1 10 "box"))
    by (vm_compute; reflexivity).
  split; [exact Hl|].
  destruct (update_plot_owned Fixtures.db_one 20 1 (Fixtures.plot_of 1 10 "box")
              Examples.restyle Hl eq_refl)
    as (db' & d' & Hu & _ & _ & Hd & _ & Hown & Hds & Hc & Hup & Ht & Hp & Hx & Hy & Hcfg).
  simpl in Ht, Hp, Hx, Hy, Hcfg.
  unfold PlotService.validate in Hu. rewrite Ht, Hp, Hx, Hcfg in Hu.
  eexists _, db'. split; [exact Hu|]. simpl. by rewrite Hy.
Defined.

Lemma update_plot_null_title_witness :
  plots Fixtures.db_one !! 20%positive = Some (Fixtures.plot_of 1 10 "box") ∧
  ∃ msg db',
    PlotService.update_plot 20 1 Examples.null_title Fixtures.db_one
      = (Raise (ValueError msg), db') ∧
    PlotService.get_plot_by_id 20 1 db' = (Raise (ValueError msg), db').
Proof.
  assert (Hl : plots Fixtures.db_one !! 20%positive = Some (Fixtures.plot_of 1 10 "box"))
    by (vm_compute; reflexivity).
  split; [exact Hl|].
  destruct (update_plot_null_title Fixtures.db_one 20 1 (Fixtures.plot_of 1 10 "box")
              Examples.null_title Hl eq_refl eq_refl) as (msg & db' & Hu & _ & Hg).
  exists msg, db'. by split.
Defined.

Lemma delete_plot_owned_witness :
  plots Fixtures.db_one !! 20%positive = Some (Fixtures.plot_of 1 10 "box") ∧
  ∃ db',
    PlotService.delete_plot 20 1 Fixtures.db_one = (Return true, db') ∧
    PlotService.get_plot_by_id 20 1 db' = (Return None, db') ∧
    PlotService.delete_plot 20 1 db' = (Return false, db').
Proof.
  assert (Hl : plots Fixtures.db_one !! 20%positive = Some (Fixtures.plot_of 1 10 "box"))
    by (vm_compute; reflexivity).
  split; [exact Hl|].
  destruct (delete_plot_owned Fixtures.db_one 20 1 (Fixtures.plot_of 1 10 "box") Hl eq_refl)
    as (db' & Hd & _ & _ & _ & _ & Hg & Hagain).
  exists db'. by repeat split.
Defined.

Lemma generate_plot_data_unsupported_witness :
  plots Examples.db_pie !! 20%positive = Some (Fixtures.plot_of 1 10 "pie") ∧
  DatasetService.get_dataset_data 10 1 10000 0 Examples.db_pie
    = (Return Examples.one_row, Examples.db_pie) ∧
  @PlotService.generate_plot_data Fixtures.recording_plotly 20 1 Examples.db_pie
    = (Raise (ValueError "Unsupported plot type: pie"), Examples.db_pie).
Proof.
  assert (Hl : plots Examples.db_pie !! 20%positive = Some (Fixtures.plot_of 1 10 "pie"))
    by (vm_compute; reflexivity).
  assert (Hd : DatasetService.get_dataset_data 10 1 10000 0 Examples.db_pie
               = (Return Examples.one_row, Examples.db_pie)) by (vm_compute; reflexivity).
  split; [exact Hl|]. split; [exact Hd|].
  apply (@generate_plot_data_unsupported Fixtures.recording_plotly
           Examples.db_pie 20 1 (Fixtures.plot_of 1 10 "pie") Examples.pie_plot
           Examples.one_row Hl eq_refl eq_refl Hd).
  - discriminate.
  - apply (bool_decide_unpack _). vm_compute. exact I.
Defined.

Lemma generate_plot_data_no_data_witness :
  plots (Fixtures.db_missing 0) !! 20%positive = Some (Fixtures.plot_of 1 10 "box") ∧
  records_of 10 (Fixtures.db_missing 0) = [] ∧
  @PlotService.generate_plot_data Fixtures.recording_plotly 20 1
     (Fixtures.db_missing 0)
    = (Raise (ValueError "No data found for plot"), Fixtures.db_missing 0).
Proof.
  assert (Hl : plots (Fixtures.db_missing 0) !! 20%positive
               = Some (Fixtures.plot_of 1 10 "box")) by (vm_compute; reflexivity).
  split; [exact Hl|]. split; [reflexivity|].
  exact (@generate_plot_data_no_data Fixtures.recording_plotly
           (Fixtures.db_missing 0) 20 1 (Fixtures.plot_of 1 10 "box") Examples.box_plot
           Hl eq_refl eq_refl (or_intror eq_refl)).
Defined.

Lemma generate_plot_data_y_fallback_witness :
  plots Examples.db_bad_y !! 20%positive = Some Examples.doc_bad_y ∧
  in_columns "zzz" Examples.one_row = false ∧
  @PlotService.generate_plot_data Fixtures.recording_plotly 20 1
     Examples.db_bad_y
    = (Return (px_scatter Examples.one_row "a" YIndex "t"), Examples.db_bad_y).
Proof.
  assert (Hl : plots Examples.db_bad_y !! 20%positive = Some Examples.doc_bad_y)
    by (vm_compute; reflexivity).
  assert (Hd : DatasetService.get_dataset_data 10 1 10000 0 Examples.db_bad_y
               = (Return Examples.one_row, Examples.db_bad_y)) by (vm_compute; reflexivity).
  assert (Hin : in_columns "zzz" Examples.one_row = false) by (vm_compute; reflexivity).
  split; [exact Hl|]. split; [exact Hin|].
  rewrite (@generate_plot_data_y_fallback Fixtures.recording_plotly
             Examples.db_bad_y 20 1 Examples.doc_bad_y Examples.plot_bad_y Examples.one_row
             "zzz" Hl eq_refl eq_refl Hd ltac:(discriminate) eq_refl Hin).
  vm_compute. reflexivity.
Defined.

Lemma login_failures_alike_witness :
  Mongo.find_one (UserService.by_email "ann@example.org") (users Fixtures.db_ann)
    = Some (1%positive, UserInDB Fixtures.ann "hashed:s3cret" 0) ∧
  @verify_password Fixtures.tag_security "guess" "hashed:s3cret" = false ∧
  @Api.login Fixtures.settings Fixtures.tag_security Examples.wrong_password Fixtures.db_ann
    = (Raise (HTTPException 401 "Incorrect email or password"), Fixtures.db_ann).
Proof.
  assert (Hf : Mongo.find_one (UserService.by_email "ann@example.org") (users Fixtures.db_ann)
               = Some (1%positive, UserInDB Fixtures.ann "hashed:s3cret" 0))
    by (vm_compute; reflexivity).
  split; [exact Hf|]. split; [reflexivity|].
  apply (@login_failures_alike Fixtures.settings Fixtures.tag_security
           Examples.wrong_password Fixtures.db_ann).
  right. exists 1%positive, (UserInDB Fixtures.ann "hashed:s3cret" 0), "hashed:s3cret".
  split; [exact Hf|]. split; [vm_compute; reflexivity|reflexivity].
Defined.

Lemma register_duplicate_witness :
  users Fixtures.db_ann !! 1%positive = Some (UserInDB Fixtures.ann "hashed:s3cret" 0) ∧
  @Api.register Fixtures.settings Fixtures.tag_security "salt" 5 2 Fixtures.impostor Fixtures.db_ann
    = (Raise (HTTPException 400 "User with this email already exists"), Fixtures.db_ann).
Proof.
  assert (Hl : users Fixtures.db_ann !! 1%positive
               = Some (UserInDB Fixtures.ann "hashed:s3cret" 0)) by (vm_compute; reflexivity).
  split; [exact Hl|].
  apply (@register_duplicate Fixtures.settings Fixtures.tag_security "salt" 5 2 Fixtures.impostor
           Fixtures.db_ann 1 _ Hl).
  vm_compute. reflexivity.
Defined.

Lemma google_auth_existing_account_witness :
  Mongo.find_one (UserService.by_email "ann@example.org") (users Fixtures.db_ann)
    = Some (1%positive, UserInDB Fixtures.ann "hashed:s3cret" 0) ∧
  @Api.google_auth Fixtures.settings Fixtures.tag_security "salt" 5 2 Fixtures.ann_google
     Fixtures.db_ann
    = (Return {| success := true; message := "Google authentication successful";
                 user := Fixtures.ann_user; token := "token"; token_type := "bearer" |},
       Fixtures.db_ann).
Proof.
  assert (Hf : Mongo.find_one (UserService.by_email "ann@example.org") (users Fixtures.db_ann)
               = Some (1%positive, UserInDB Fixtures.ann "hashed:s3cret" 0))
    by (vm_compute; reflexivity).
  split; [exact Hf|].
  exact (proj2 (proj2 (@google_auth_existing_account Fixtures.settings Fixtures.tag_security
                         "salt" 5 2 Fixtures.ann_google Fixtures.db_ann 1 _ Hf))).
Defined.

Lemma upload_dataset_rejections_witness :
  @Api.upload_dataset Fixtures.pandas 0 10 "d" "about" Examples.no_name_file
     (Fixtures.user_of 1) Fixtures.empty_db
    = (Raise (HTTPException 400 "No file provided"), Fixtures.empty_db) ∧
  @Api.upload_dataset Fixtures.pandas 0 10 "d" "about" Examples.text_file
     (Fixtures.user_of 1) Fixtures.empty_db
    = (Raise (HTTPException 400 "Only CSV files are supported"), Fixtures.empty_db) ∧
  @Api.upload_dataset Fixtures.pandas 0 10 "d" "about" Examples.blank_file
     (Fixtures.user_of 1) Fixtures.empty_db
    = (Raise (HTTPException 400
                "Error parsing CSV file: No columns to parse from file"),
       Fixtures.empty_db).
Proof.
  split; [|split].
  - apply (@upload_dataset_rejections Fixtures.pandas 0 10 "d" "about" Examples.no_name_file
             (Fixtures.user_of 1) Fixtures.empty_db). reflexivity.
  - apply (proj1 (proj2 (@upload_dataset_rejections Fixtures.pandas 0 10 "d" "about"
             Examples.text_file (Fixtures.user_of 1) Fixtures.empty_db)) "notes.txt");
      reflexivity.
  - apply (proj2 (proj2 (proj2 (@upload_dataset_rejections Fixtures.pandas 0 10 "d" "about"
             Examples.blank_file (Fixtures.user_of 1) Fixtures.empty_db)))
             "Blank.CSV" (Exception "EmptyDataError" "No columns to parse from file"));
      [reflexivity|reflexivity|vm_compute; discriminate|reflexivity].
Defined.

Lemma dataset_handlers_not_found_witness :
  @ObjectId_of_str Fixtures.bson "ten" = None ∧
  @ObjectId_of_str Fixtures.bson "10" = Some 10%positive ∧
  foreign_dataset Fixtures.db_one 10 2 ∧
  @Api.get_dataset Fixtures.bson "ten" 100 0 (Fixtures.user_of 2)
     Fixtures.db_one
    = (Raise (Api.invalid_dataset_id "ten"), Fixtures.db_one) ∧
  @Api.get_dataset Fixtures.bson "10" 100 0 (Fixtures.user_of 2)
     Fixtures.db_one
    = (Raise (Api.dataset_not_found "10"), Fixtures.db_one) ∧
  @Api.delete_dataset Fixtures.bson "10" (Fixtures.user_of 2) Fixtures.db_one
    = (Raise (Api.dataset_not_found "10"), Fixtures.db_one).
Proof.
  split; [reflexivity|]. split; [reflexivity|]. split; [exact foreign_dataset_db_one|].
  destruct (proj1 (@dataset_handlers_not_found Fixtures.pandas Fixtures.bson "ten" 100 0
                     (Fixtures.user_of 2) Fixtures.db_one) eq_refl) as (Hbad & _).
  destruct (proj2 (@dataset_handlers_not_found Fixtures.pandas Fixtures.bson "10" 100 0
                     (Fixtures.user_of 2) Fixtures.db_one) 10%positive eq_refl
              foreign_dataset_db_one) as (Hget & _ & Hdel).
  by repeat split.
Defined.

Lemma plot_handlers_not_found_witness :
  @ObjectId_of_str Fixtures.bson "20" = Some 20%positive ∧
  foreign_plot Fixtures.db_one 20 2 ∧
  @Api.get_plot Fixtures.bson "20"
     (Fixtures.user_of 2) Fixtures.db_one
    = (Raise (HTTPException 404 "Plot not found"), Fixtures.db_one) ∧
  @Api.get_plot_data Fixtures.recording_plotly Fixtures.bson "20"
     (Fixtures.user_of 2) Fixtures.db_one
    = (Raise (HTTPException 400 "Plot not found"), Fixtures.db_one).
Proof.
  split; [reflexivity|]. split; [exact foreign_plot_db_one|].
  destruct (@plot_handlers_not_found Fixtures.recording_plotly Fixtures.bson
              "20" Fixtures.retitle (Fixtures.user_of 2) Fixtures.db_one 20 eq_refl
              foreign_plot_db_one) as (Hget & _ & _ & Hdata).
  by split.
Defined.

Lemma generate_plot_unknown_column_witness :
  DatasetService.get_dataset_data 10 1 10000 0 Fixtures.db_one
    = (Return Examples.one_row, Fixtures.db_one) ∧
  in_columns "zzz" Examples.one_row = false ∧
  @Api.generate_plot Fixtures.recording_plotly Fixtures.bson
     Examples.bad_x_request (Fixtures.user_of 1) Fixtures.db_one
    = (Raise (Api.column_not_found "zzz"), Fixtures.db_one).
Proof.
  assert (Hd : DatasetService.get_dataset_data 10 1 10000 0 Fixtures.db_one
               = (Return Examples.one_row, Fixtures.db_one)) by (vm_compute; reflexivity).
  assert (Hin : in_columns "zzz" Examples.one_row = false) by (vm_compute; reflexivity).
  split; [exact Hd|]. split; [exact Hin|].
  apply (proj1 (@generate_plot_unknown_column Fixtures.recording_plotly
                  Fixtures.bson Examples.bad_x_request (Fixtures.user_of 1) Fixtures.db_one
                  10 (Fixtures.dataset_of 1 1) Examples.one_row eq_refl
                  ltac:(vm_compute; reflexivity) eq_refl Hd ltac:(discriminate))).
  exact Hin.
Defined.

Lemma generate_plot_unsupported_witness :
  DatasetService.get_dataset_data 10 1 10000 0 Fixtures.db_one
    = (Return Examples.one_row, Fixtures.db_one) ∧
  @Api.generate_plot Fixtures.recording_plotly Fixtures.bson
     Examples.pie_request (Fixtures.user_of 1) Fixtures.db_one
    = (Raise (HTTPException 400 "Unsupported plot type: pie"), Fixtures.db_one).
Proof.
  assert (Hd : DatasetService.get_dataset_data 10 1 10000 0 Fixtures.db_one
               = (Return Examples.one_row, Fixtures.db_one)) by (vm_compute; reflexivity).
  split; [exact Hd|].
  apply (@generate_plot_unsupported Fixtures.recording_plotly
           Fixtures.bson Examples.pie_request (Fixtures.user_of 1) Fixtures.db_one
           10 (Fixtures.dataset_of 1 1) Examples.one_row eq_refl
           ltac:(vm_compute; reflexivity) eq_refl Hd ltac:(discriminate)).
  - vm_compute. reflexivity.
  - intros y Hy. discriminate Hy.
  - apply (bool_decide_unpack _). vm_compute. exact I.
Defined.

Lemma get_current_user_unregistered_witness :
  GoogleOAuthService.is_access_token "ya29.token" = true ∧
  @GoogleOAuthService.verify_google_token Fixtures.settings Examples.google_ok "ya29.token"
    = Return (Some Examples.carol) ∧
  @Deps.get_current_user Fixtures.settings Examples.google_ok Examples.token_verifier
     Examples.email_query "ya29.token" Fixtures.db_ann
    = (Raise (HTTPException 401 "User not found. Please register first."), Fixtures.db_ann).
Proof.
  assert (Hv : @GoogleOAuthService.verify_google_token Fixtures.settings Examples.google_ok
                 "ya29.token" = Return (Some Examples.carol)) by (vm_compute; reflexivity).
  split; [reflexivity|]. split; [exact Hv|].
  apply (@get_current_user_unregistered Fixtures.settings Examples.google_ok
           Examples.token_verifier Examples.email_query "ya29.token" Fixtures.db_ann
           Examples.carol "carol@example.org" eq_refl Hv eq_refl).
  - discriminate.
  - intros i d. apply unknown_to_db_ann. discriminate.
Defined.

Lemma created_user_authenticates_witness :
  @UserService.create_user Fixtures.tag_security "salt" 0 1 Fixtures.ann Fixtures.empty_db
    = (Return Fixtures.ann_user, Fixtures.db_ann) ∧
  GoogleOAuthService.is_access_token "jwt-ann" = false ∧
  @verify_token Examples.token_verifier "jwt-ann" = Return Examples.ann_claims ∧
  @Deps.get_current_user Fixtures.settings Fixtures.google Examples.token_verifier
     Examples.email_query "jwt-ann" Fixtures.db_ann
    = (Return Fixtures.ann_user, Fixtures.db_ann) ∧
  Deps.get_current_active_user Fixtures.ann_user = Return Fixtures.ann_user.
Proof.
  split; [exact create_user_Ann|]. split; [reflexivity|]. split; [reflexivity|].
  exact (@created_user_authenticates Fixtures.settings Fixtures.google
           Examples.token_verifier Examples.email_query Fixtures.tag_security "salt" 0 1
           Fixtures.ann Fixtures.empty_db Fixtures.ann_user Fixtures.db_ann "jwt-ann"
           Examples.ann_claims create_user_Ann eq_refl eq_refl eq_refl).
Defined.

Lemma access_token_accepted_witness :
  GoogleOAuthService.is_access_token "ya29.token" = true ∧
  @GoogleOAuthService.verify_google_token Fixtures.settings Examples.google_ok "ya29.token"
    = Return (Some Examples.carol) ∧
  ∀ s2 : Settings,
    @GoogleOAuthService.verify_google_token s2 Examples.google_ok "ya29.token"
    = Return (Some Examples.carol).
Proof.
  assert (Hv : @GoogleOAuthService.verify_google_token Fixtures.settings Examples.google_ok
                 "ya29.token" = Return (Some Examples.carol)) by (vm_compute; reflexivity).
  split; [reflexivity|]. split; [exact Hv|].
  exact (proj2 (@access_token_accepted Examples.google_ok Fixtures.settings "ya29.token"
                  Examples.carol eq_refl Hv)).
Defined.

Lemma register_then_login_witness :
  @Api.register Fixtures.settings Fixtures.tag_security "salt" 0 1 Fixtures.ann
     Fixtures.empty_db
    = (Return {| success := true; message := "User registered successfully";
                 user := Fixtures.ann_user; token := "token"; token_type := "bearer" |},
       Fixtures.db_ann) ∧
  @Api.login Fixtures.settings Fixtures.tag_security Examples.ann_login Fixtures.db_ann
    = (Return {| success := true; message := "Login successful";
                 user := Fixtures.ann_user; token := "token"; token_type := "bearer" |},
       Fixtures.db_ann).
Proof.
  assert (Hr : @Api.register Fixtures.settings Fixtures.tag_security "salt" 0 1 Fixtures.ann
                 Fixtures.empty_db
               = (Return {| success := true; message := "User registered successfully";
                            user := Fixtures.ann_user; token := "token";
                            token_type := "bearer" |}, Fixtures.db_ann))
    by (vm_compute; reflexivity).
  split; [exact Hr|].
  exact (@register_then_login Fixtures.settings Fixtures.tag_security "salt" 0 1
           Fixtures.ann Fixtures.empty_db _ _
           (λ s p, proj2 (tag_security_sound s p p) eq_refl) Hr).
Defined.

Lemma debug_listing_crosses_users_witness :
  datasets Fixtures.db_one !! 10%positive = Some (Fixtures.dataset_of 1 1) ∧
  ds_user_id (Fixtures.dataset_of 1 1) ≠ user_id (Fixtures.user_of 2) ∧
  (∃ r, @Listing.debug_all_datasets Examples.decimal_render (Fixtures.user_of 2) Fixtures.db_one
          = (Return r, Fixtures.db_one) ∧
        {| b_id := "10"; b_user_id := "1"; b_name := "d"; b_created_at := "0" |}
          ∈ all_datasets r) ∧
  DatasetService.get_dataset_by_id 10 2 Fixtures.db_one = (Return None, Fixtures.db_one).
Proof.
  assert (Hl : datasets Fixtures.db_one !! 10%positive = Some (Fixtures.dataset_of 1 1))
    by (vm_compute; reflexivity).
  assert (Hu : ds_user_id (Fixtures.dataset_of 1 1) ≠ user_id (Fixtures.user_of 2))
    by discriminate.
  split; [exact Hl|]. split; [exact Hu|].
  destruct (@debug_listing_crosses_users Examples.decimal_render (Fixtures.user_of 2)
              Fixtures.db_one 10 (Fixtures.dataset_of 1 1) Hl Hu) as (Hdebug & Hget & _).
  split; [exact Hdebug|exact Hget].
Defined.
